(** * mysqlbox: a shallow embedding of the container-backed MySQL fixture

    The Go package drives three opaque collaborators: the Docker client, the
    [database/sql] driver and the host file system.  The embedding keeps the
    control flow of every function of the package and replaces each
    collaborator call by a request that is recorded in a trace and answered
    by an oracle of the environment.  An oracle sees the whole history up to
    and including the request it answers, so it can stand for any
    deterministic server. *)

From Stdlib Require Import ZArith Ascii.
From stdpp Require Import gmap strings list.

Local Open Scope Z_scope.

(** ** Errors *)

(** Go [error] values, by the constructor that made them.  [wrapError ctx w]
    is what [fmt.Errorf(ctx + ": %w", w)] builds for a non-nil [w], and
    [wrapNil ctx] what it builds when the operand of [%w] is nil. *)
Inductive error : Type :=
| errorsNew (msg : string)
| wrapError (ctx : string) (wrapped : error)
| wrapNil (ctx : string)
| errNotFound (msg : string)
| errDeadlineExceeded
| errOther (msg : string).

(** [fmt.Errorf(ctx + ": %w", err)] for an [err] that may be nil. *)
Definition fmtErrorf (ctx : string) (err : option error) : error :=
  match err with
  | Some e => wrapError ctx e
  | None => wrapNil ctx
  end.

(** [err.Error()].  A nil operand of [%w] prints as [%!w(<nil>)]. *)
Fixpoint Error (e : error) : string :=
  match e with
  | errorsNew msg => msg
  | wrapError ctx w => ctx +:+ ": " +:+ Error w
  | wrapNil ctx => ctx +:+ ": %!w(<nil>)"
  | errNotFound msg => msg
  | errDeadlineExceeded => "context deadline exceeded"
  | errOther msg => msg
  end.

(** [errors.Unwrap]. *)
Definition Unwrap (e : error) : option error :=
  match e with
  | wrapError _ w => Some w
  | _ => None
  end.

(** [errdefs.IsNotFound] / [client.IsErrNotFound]: false on nil, looks through
    wrappers. *)
Fixpoint isNotFound (e : error) : bool :=
  match e with
  | errNotFound _ => true
  | wrapError _ w => isNotFound w
  | _ => false
  end.

Definition IsErrNotFound (err : option error) : bool :=
  match err with
  | Some e => isNotFound e
  | None => false
  end.

(** [errors.Is(err, context.DeadlineExceeded)]. *)
Fixpoint isDeadlineExceeded (e : error) : bool :=
  match e with
  | errDeadlineExceeded => true
  | wrapError _ w => isDeadlineExceeded w
  | _ => false
  end.

(** A Go result pair [(value, err)] with exactly one side set. *)
Inductive Result (A : Type) : Type :=
| Ok (a : A)
| Err (e : error).
Arguments Ok {A} a.
Arguments Err {A} e.

(** ** Requests to the collaborators *)

Inductive WaitCondition : Type :=
| WaitConditionNotRunning
| WaitConditionNextExit
| WaitConditionRemoved.

(** What [ContainerWait] delivers first: a body on the message channel or an
    error on the error channel. *)
Inductive WaitResult : Type :=
| WaitBody
| WaitError (err : error).

Inductive Event : Type :=
| EvTempFile (pattern : string)
| EvCopy (file content : string)
| EvFileClose (file : string)
| EvRemove (file : string)
| EvNewClient
| EvContainerCreate (image name : string) (env : list string)
    (hostPort : string) (mounts : list string)
| EvImagePull (image : string)
| EvPullStream
| EvPullReaderClose
| EvStdout (text : string)
| EvStderr (text : string)
| EvSetLogger
| EvContainerStart (id : string)
| EvGoReadContainerLogs (id : string)
| EvContainerInspect (id : string)
| EvSqlOpen (dsn : string)
| EvPing (took : Z)
| EvSleep (ms : Z)
| EvExitSignalReceived
| EvLogCloseSignal
| EvContainerStop (id : string) (timeout_ms : Z)
| EvContainerWait (id : string) (cond : WaitCondition)
| EvQuery (query arg : string)
| EvRowsClose
| EvExec (query : string).

Definition Trace := list Event.

(** The environment: one oracle per collaborator call.  Each oracle receives
    the history ending with the request it answers; the probe, whose event
    records how long it took, receives the history before it. *)
Record Env : Type := {
  randomID : string;
  TempFile : Trace -> Result string;
  ioCopy : Trace -> option error;
  NewClientWithOpts : Trace -> option error;
  ContainerCreate : Trace -> Result string;
  ImagePull : Trace -> option error;
  DisplayJSONMessagesStream : Trace -> option error;
  ContainerStart : Trace -> option error;
  ContainerInspect : Trace -> Result (list string);
  sqlOpen : Trace -> option error;
  (* given the history and the deadline of the context: how long the probe
     takes (ms) and what it returns *)
  PingContext : Trace -> Z -> Z * option error;
  (* when, on the clock of the trace, the log reader sends on the exit
     channel; [None] when it never does *)
  exitAt : option Z;
  ContainerStop : Trace -> option error;
  ContainerWait : Trace -> WaitResult;
  dbQuery : Trace -> Result (list (Result string));
  dbExec : Trace -> option error
}.

(** ** The effect monad *)

(** A call returns, panics, or is still running when the fuel of a loop
    model is spent. *)
Inductive Outcome (A : Type) : Type :=
| Returned (a : A)
| Panicked (e : error)
| OutOfFuel.
Arguments Returned {A} a.
Arguments Panicked {A} e.
Arguments OutOfFuel {A}.

Definition M (A : Type) : Type := Env -> Trace -> Outcome A * Trace.

Definition ret {A} (a : A) : M A := fun _ tr => (Returned a, tr).

Definition bind {A B} (m : M A) (k : A -> M B) : M B :=
  fun env tr =>
    match m env tr with
    | (Returned a, tr') => k a env tr'
    | (Panicked e, tr') => (Panicked e, tr')
    | (OutOfFuel, tr') => (OutOfFuel, tr')
    end.

Notation "x <- m ;; k" := (bind m (fun x => k))
  (at level 100, m at next level, right associativity).
Notation "m ;;; k" := (bind m (fun _ => k))
  (at level 100, right associativity).

Definition panic {A} (e : error) : M A := fun _ tr => (Panicked e, tr).

(** [defer cleanup] around [body]: the deferred call runs when the body
    returns and when it panics. *)
Definition defer {A} (cleanup : M unit) (body : M A) : M A :=
  fun env tr =>
    match body env tr with
    | (OutOfFuel, tr') => (OutOfFuel, tr')
    | (out, tr') =>
        match cleanup env tr' with
        | (Returned _, tr'') => (out, tr'')
        | (Panicked e, tr'') => (Panicked e, tr'')
        | (OutOfFuel, tr'') => (OutOfFuel, tr'')
        end
    end.

(** Record a request and return the oracle's answer to it. *)
Definition call {A} (ev : Event) (oracle : Env -> Trace -> A) : M A :=
  fun env tr => (Returned (oracle env (tr ++ [ev])), tr ++ [ev]).

Definition emit (ev : Event) : M unit :=
  fun _ tr => (Returned tt, tr ++ [ev]).

(** ** Configuration and handle *)

(** [Data]: a script held in a buffer or behind a reader. *)
Record Data : Type := {
  buf : option string;
  reader : option string
}.

Definition DataFromReader (r : string) : Data :=
  {| buf := None; reader := Some r |}.

Definition DataFromBuffer (b : string) : Data :=
  {| buf := Some b; reader := None |}.

Record Config : Type := {
  ContainerName_ : string;
  Image : string;
  Database : string;
  RootPassword : string;
  MySQLPort : Z;
  InitialSQL : option Data;
  DoNotCleanTables : list string;
  (* the two writers, by the bytes they hold; [None] is a nil writer *)
  Stdout : option string;
  Stderr : option string;
  (* [*[]string]: [None] is a nil pointer *)
  LoggedErrors : option (list string)
}.

Definition defaultMySQLImage : string := "mysql:8".
(** Durations are in milliseconds. *)
Definition startTimeout : Z := 30 * 1000.
Definition containerStopTimeoutDur : Z := 60 * 1000.
Definition pollInterval : Z := 500.

(** [&Config{}] *)
Definition emptyConfig : Config :=
  {| ContainerName_ := ""; Image := ""; Database := ""; RootPassword := "";
     MySQLPort := 0; InitialSQL := None; DoNotCleanTables := [];
     Stdout := None; Stderr := None; LoggedErrors := None |}.

Definition setImage (v : string) (c : Config) : Config :=
  {| ContainerName_ := ContainerName_ c; Image := v;
     Database := Database c; RootPassword := RootPassword c;
     MySQLPort := MySQLPort c; InitialSQL := InitialSQL c;
     DoNotCleanTables := DoNotCleanTables c; Stdout := Stdout c;
     Stderr := Stderr c; LoggedErrors := LoggedErrors c |}.

Definition setDatabase (v : string) (c : Config) : Config :=
  {| ContainerName_ := ContainerName_ c; Image := Image c;
     Database := v; RootPassword := RootPassword c;
     MySQLPort := MySQLPort c; InitialSQL := InitialSQL c;
     DoNotCleanTables := DoNotCleanTables c; Stdout := Stdout c;
     Stderr := Stderr c; LoggedErrors := LoggedErrors c |}.

Definition setContainerName (v : string) (c : Config) : Config :=
  {| ContainerName_ := v; Image := Image c;
     Database := Database c; RootPassword := RootPassword c;
     MySQLPort := MySQLPort c; InitialSQL := InitialSQL c;
     DoNotCleanTables := DoNotCleanTables c; Stdout := Stdout c;
     Stderr := Stderr c; LoggedErrors := LoggedErrors c |}.

(** [randomID] is defined outside the files modelled here; the environment
    supplies its value. *)
Definition LoadDefaults (env : Env) (c : Config) : Config :=
  let c := if String.eqb (Image c) "" then setImage defaultMySQLImage c
           else c in
  let c := if String.eqb (Database c) "" then setDatabase "testing" c
           else c in
  if String.eqb (ContainerName_ c) ""
  then setContainerName ("mysqlbox-" +:+ randomID env) c
  else c.

(** The handle.  A [*MySQLBox] is an [option MySQLBox]: [None] is the nil
    pointer. *)
Record MySQLBox : Type := {
  dsn : string;
  databaseName : string;
  containerName : string;
  containerID : string;
  schemaFile : option string;
  port : Z;
  doNotCleanTables : list string
}.

Definition errNilBox : error := errorsNew "mysqlbox is nil".

(** ** Accessors *)

(** The connection handle itself is opaque; [DB] hands out the descriptor it
    was opened with. *)
Definition DB (b : option MySQLBox) : Result string :=
  match b with
  | None => Err errNilBox
  | Some b => Ok (dsn b)
  end.

Definition DSN (b : option MySQLBox) : Result string :=
  match b with
  | None => Err errNilBox
  | Some b => Ok (dsn b)
  end.

Definition ContainerName (b : option MySQLBox) : Result string :=
  match b with
  | None => Err errNilBox
  | Some b => Ok (containerName b)
  end.

(** ** Table cleaner *)

(** [fmt.Sprintf("TRUNCATE TABLE `%s`", table)]. *)
Definition truncateQuery (table : string) : string :=
  "TRUNCATE TABLE `" +:+ table +:+ "`".

Definition catalogQuery : string :=
  "SELECT table_name FROM information_schema.tables WHERE table_schema = ?".

(** The [map[string]bool] built from [doNotCleanTables]. *)
Definition excludedTables (names : list string) : gmap string bool :=
  foldl (fun m table => <[table := true]> m) ∅ names.

(** Indexing a Go map yields the zero value for an absent key. *)
Definition isExcluded (m : gmap string bool) (table : string) : bool :=
  default false (m !! table).

(** The [for rows.Next()] loop of [CleanAllTables]; each row carries the
    result of its [Scan]. *)
Fixpoint cleanAllRows (excluded : gmap string bool)
    (rows : list (Result string)) : M unit :=
  match rows with
  | [] => ret tt
  | Err err :: _ => panic err
  | Ok table :: rest =>
      if isExcluded excluded table then cleanAllRows excluded rest
      else
        err <- call (EvExec (truncateQuery table)) dbExec ;;
        match err with
        | Some e => panic e
        | None => cleanAllRows excluded rest
        end
  end.

Definition CleanAllTables (b : option MySQLBox) : M (option error) :=
  match b with
  | None => ret (Some errNilBox)
  | Some b =>
      rows <- call (EvQuery catalogQuery (databaseName b)) dbQuery ;;
      match rows with
      | Err err => panic err
      | Ok rows =>
          defer (emit EvRowsClose)
            (cleanAllRows (excludedTables (doNotCleanTables b)) rows ;;;
             ret None)
      end
  end.

(** [fmt.Fprintf(os.Stderr, "truncate table failed (%s): %s\n", ...)] *)
Definition truncateFailedLine (table : string) (e : error) : string :=
  "truncate table failed (" +:+ table +:+ "): " +:+ Error e
  +:+ String "010" "".

(** The [for _, table := range tables] loop of [CleanTables]. *)
Fixpoint cleanTablesLoop (tables : list string) : M unit :=
  match tables with
  | [] => ret tt
  | table :: rest =>
      err <- call (EvExec (truncateQuery table)) dbExec ;;
      match err with
      | Some e =>
          emit (EvStderr (truncateFailedLine table e)) ;;;
          cleanTablesLoop rest
      | None => cleanTablesLoop rest
      end
  end.

Definition CleanTables (b : option MySQLBox) (tables : list string)
    : M (option error) :=
  match b with
  | None => ret (Some errNilBox)
  | Some _ => cleanTablesLoop tables ;;; ret None
  end.

(** The [Must] variants turn a returned error into a panic. *)
Definition must (m : M (option error)) : M unit :=
  err <- m ;;
  match err with
  | Some e => panic e
  | None => ret tt
  end.

Definition MustCleanAllTables (b : option MySQLBox) : M unit :=
  must (CleanAllTables b).

Definition MustCleanTables (b : option MySQLBox) (tables : list string)
    : M unit :=
  must (CleanTables b tables).

(** ** Small library models *)

Definition digitValue (c : ascii) : option Z :=
  let n := Z.of_nat (nat_of_ascii c) in
  if (48 <=? n) && (n <=? 57) then Some (n - 48) else None.

Fixpoint parseDigits (acc : Z) (s : string) : option Z :=
  match s with
  | EmptyString => Some acc
  | String c rest =>
      match digitValue c with
      | Some d => parseDigits (acc * 10 + d) rest
      | None => None
      end
  end.

(** [strconv.Quote] on bytes below 0x80: a double-quoted Go string literal
    with the escapes of the language.  Bytes from 0x80 on are kept as they
    are, which is what Go does with the printable runes they encode. *)
Definition hexDigit (n : nat) : string :=
  String.substring n 1 "0123456789abcdef".

Definition quoteByte (c : ascii) : string :=
  let escaped (s : string) := String "092" s in
  let n := nat_of_ascii c in
  if Ascii.eqb c "034" then escaped (String "034" "")
  else if Ascii.eqb c "092" then escaped (String "092" "")
  else if Ascii.eqb c "007" then escaped "a"
  else if Ascii.eqb c "008" then escaped "b"
  else if Ascii.eqb c "012" then escaped "f"
  else if Ascii.eqb c "010" then escaped "n"
  else if Ascii.eqb c "013" then escaped "r"
  else if Ascii.eqb c "009" then escaped "t"
  else if Ascii.eqb c "011" then escaped "v"
  else if (n <? 32)%nat || (n =? 127)%nat
       then escaped ("x" +:+ hexDigit (n / 16) +:+ hexDigit (n mod 16))
       else String c "".

Fixpoint quoteBody (s : string) : string :=
  match s with
  | EmptyString => EmptyString
  | String c rest => quoteByte c +:+ quoteBody rest
  end.

Definition Quote (s : string) : string :=
  String "034" (quoteBody s +:+ String "034" "").

(** [strconv.Atoi]: an optional sign, at least one decimal digit, and a value
    that fits a 64-bit [int]. *)
Definition Atoi (s : string) : Result Z :=
  let syntaxErr :=
    errOther ("strconv.Atoi: parsing " +:+ Quote s +:+ ": invalid syntax") in
  let rangeErr :=
    errOther ("strconv.Atoi: parsing " +:+ Quote s
              +:+ ": value out of range") in
  let '(neg, digits) :=
    match s with
    | String "-" rest => (true, rest)
    | String "+" rest => (false, rest)
    | _ => (false, s)
    end in
  match digits with
  | EmptyString => Err syntaxErr
  | _ =>
      match parseDigits 0 digits with
      | None => Err syntaxErr
      | Some n =>
          let v := if neg then - n else n in
          if (- 2 ^ 63 <=? v) && (v <? 2 ^ 63) then Ok v else Err rangeErr
      end
  end.

Definition digitChar (d : Z) : ascii := ascii_of_nat (Z.to_nat (48 + d)).

Fixpoint formatDigits (fuel : nat) (n : Z) (acc : string) : string :=
  match fuel with
  | O => acc
  | S fuel' =>
      let acc' := String (digitChar (n mod 10)) acc in
      if n <? 10 then acc' else formatDigits fuel' (n / 10) acc'
  end.

(** [fmt.Sprintf("%d", n)]. *)
Definition formatInt (n : Z) : string :=
  if n <? 0 then "-" +:+ formatDigits (Z.to_nat (- n) + 1) (- n) ""
  else formatDigits (Z.to_nat n + 1) n "".

(** [mysql.Config.FormatDSN] for the fields [connectDB] sets: user, optional
    password, network and address, database name, and the one parameter that
    differs from the driver's defaults. *)
Definition FormatDSN (user passwd net addr dbName : string) : string :=
  user +:+ (if String.eqb passwd "" then "" else ":" +:+ passwd) +:+ "@"
  +:+ net +:+ "(" +:+ addr +:+ ")/" +:+ dbName +:+ "?parseTime=true".

(** ** Start-up *)

Definition ask : M Env := fun env tr => (Returned env, tr).
Definition history : M Trace := fun _ tr => (Returned tr, tr).
Definition outOfFuel {A} : M A := fun _ tr => (OutOfFuel, tr).

(** [v, err := m; if err != nil { return nil, err }] *)
Notation "x <-? m ;; k" :=
  (bind m (fun r => match r with Ok x => k | Err e => ret (Err e) end))
  (at level 100, m at next level, right associativity).

Definition resultErr {A} (r : Result A) : option error :=
  match r with
  | Ok _ => None
  | Err e => Some e
  end.

(** The block that writes the initial script to a temporary file.  Both error
    returns leave the function at once. *)
Definition writeSchemaFile (c : Config) : M (Result (option string)) :=
  match InitialSQL c with
  | Some d =>
      if bool_decide (is_Some (reader d)) || bool_decide (is_Some (buf d))
      then
        schemaFile <-? call (EvTempFile "schema-*.sql") TempFile ;;
        let src :=
          match reader d with
          | Some r => r
          | None => default "" (buf d)
          end in
        err <- call (EvCopy schemaFile src) ioCopy ;;
        match err with
        | Some e => ret (Err e)
        | None => ret (Ok (Some schemaFile))
        end
      else ret (Ok None)
  | None => ret (Ok None)
  end.

Definition pullImage (image : string) : M (option error) :=
  if String.eqb image "" then ret (Some (errorsNew "image is blank"))
  else
    emit (EvStdout ("pulling Docker image " +:+ image +:+ "..."
                    +:+ String "010" "")) ;;;
    err <- call (EvImagePull image) ImagePull ;;
    match err with
    | Some e => ret (Some (fmtErrorf "docker image pull error" (Some e)))
    | None =>
        defer (emit EvPullReaderClose)
          (err <- call EvPullStream DisplayJSONMessagesStream ;;
           match err with
           | Some e =>
               ret (Some (fmtErrorf "docker image pull stream error" (Some e)))
           | None =>
               emit (EvStdout ("Docker image " +:+ image +:+ " pulled."
                               +:+ String "010" "")) ;;;
               ret None
           end)
    end.

(** The "Create container" block of [Start].  [err] is the variable of that
    name in scope at the block: the one assigned by [NewClientWithOpts].  The
    [err] of the pull is a new variable local to the [if]. *)
Definition createContainer (c : Config) (envVars : list string)
    (hostPort : string) (mounts : list string) (err : option error)
    : M (Result string) :=
  let create :=
    call (EvContainerCreate (Image c) (ContainerName_ c) envVars hostPort
            mounts) ContainerCreate in
  created <- create ;;
  created <-?
    (if IsErrNotFound (resultErr created) then
       err <- pullImage (Image c) ;;
       match err with
       | Some e => ret (Err (fmtErrorf "failed to pull image" (Some e)))
       | None => created <- create ;; ret (Ok created)
       end
     else ret (Ok created)) ;;
  match created with
  | Err createErr => ret (Err (fmtErrorf "error creating container" err))
  | Ok id => ret (Ok id)
  end.

Definition containerMySQLPort (containerID : string) : M (Result Z) :=
  ports <-? call (EvContainerInspect containerID) ContainerInspect ;;
  match ports with
  | [] => ret (Err (errorsNew "no port bindings"))
  | hostPort :: _ => ret (Atoi hostPort)
  end.

Definition connectDB (port : Z) (dbName rootPass : string)
    : M (Result string) :=
  let dsn :=
    FormatDSN "root" rootPass "tcp" ("127.0.0.1:" +:+ formatInt port) dbName in
  err <- call (EvSqlOpen dsn) sqlOpen ;;
  match err with
  | Some e => ret (Err e)
  | None => ret (Ok dsn)
  end.

(** ** Readiness polling *)

(** The clock of a trace: only probes and sleeps take time. *)
Fixpoint elapsed (tr : Trace) : Z :=
  match tr with
  | [] => 0
  | EvPing took :: rest => took + elapsed rest
  | EvSleep ms :: rest => ms + elapsed rest
  | _ :: rest => elapsed rest
  end.

Definition isExitReceipt (ev : Event) : bool :=
  match ev with
  | EvExitSignalReceived => true
  | _ => false
  end.

(** Whether a value waits in the one-slot exit channel: the log reader has
    sent it by now and nobody has received it. *)
Definition exitPending (env : Env) (tr : Trace) : bool :=
  match exitAt env with
  | Some t => (t <=? elapsed tr) && negb (existsb isExitReceipt tr)
  | None => false
  end.

(** [select { case <-containerClosed: ...; default: }] *)
Definition selectContainerClosed : M bool :=
  fun env tr =>
    if exitPending env tr then (Returned true, tr ++ [EvExitSignalReceived])
    else (Returned false, tr).

(** [b.db.PingContext(ctx)] *)
Definition ping (deadline : Z) : M (option error) :=
  fun env tr =>
    let '(took, err) := PingContext env tr deadline in
    (Returned err, tr ++ [EvPing took]).

Definition errCouldNotConnect : error := errorsNew "could not connect to mysql".
Definition errContainerClosed : error := errorsNew "container closed".

(** The [for] loop of [waitForDB]; [fuel] bounds the number of probes. *)
Fixpoint pollDB (fuel : nat) (deadline : Z) : M (option error) :=
  match fuel with
  | O => outOfFuel
  | S fuel' =>
      err <- ping deadline ;;
      match err with
      | None => ret None
      | Some e =>
          if isDeadlineExceeded e then ret (Some errCouldNotConnect)
          else
            emit (EvSleep pollInterval) ;;;
            closed <- selectContainerClosed ;;
            if closed : bool then ret (Some errContainerClosed)
            else pollDB fuel' deadline
      end
  end.

Definition waitForDB (fuel : nat) (b : option MySQLBox) (timeout : Z)
    : M (option error) :=
  match b with
  | None => ret (Some errNilBox)
  | Some _ =>
      tr <- history ;;
      pollDB fuel (elapsed tr + timeout)
  end.

(** ** Start *)

(** [Start] up to and including the construction of the handle, that is,
    everything before the "Wait for db" step. *)
Definition provision (c : option Config) : M (Result MySQLBox) :=
  env <- ask ;;
  let c := LoadDefaults env (default emptyConfig c) in
  schemaFile <-? writeSchemaFile c ;;
  err <- call EvNewClient NewClientWithOpts ;;
  match err with
  | Some e => ret (Err e)
  | None =>
      let envVars :=
        ["MYSQL_DATABASE=" +:+ Database c;
         if String.eqb (RootPassword c) "" then "MYSQL_ALLOW_EMPTY_PASSWORD=1"
         else "MYSQL_ROOT_PASSWORD=" +:+ RootPassword c] in
      let hostPort :=
        if MySQLPort c =? 0 then "0" else formatInt (MySQLPort c) in
      let mounts :=
        match schemaFile with
        | Some f => [f]
        | None => []
        end in
      created <-? createContainer c envVars hostPort mounts err ;;
      emit EvSetLogger ;;;
      err <- call (EvContainerStart created) ContainerStart ;;
      match err with
      | Some e => ret (Err e)
      | None =>
          emit (EvGoReadContainerLogs created) ;;;
          port <-? containerMySQLPort created ;;
          dsn <-? connectDB port (Database c) (RootPassword c) ;;
          ret (Ok {| dsn := dsn; databaseName := Database c;
                     containerName := ContainerName_ c;
                     containerID := created; schemaFile := schemaFile;
                     port := port;
                     doNotCleanTables := DoNotCleanTables c |})
      end
  end.

Definition Start (fuel : nat) (c : option Config) : M (Result MySQLBox) :=
  b <-? provision c ;;
  err <- waitForDB fuel (Some b) startTimeout ;;
  match err with
  | Some e => ret (Err e)
  | None => ret (Ok b)
  end.

(** [MustStart] *)
Definition MustStart (fuel : nat) (c : option Config) : M MySQLBox :=
  r <- Start fuel c ;;
  match r with
  | Err e => panic e
  | Ok box => ret box
  end.

(** ** Stop *)

Definition cleanupFiles (b : MySQLBox) : M unit :=
  match schemaFile b with
  | Some f => emit (EvFileClose f) ;;; emit (EvRemove f)
  | None => ret tt
  end.

Definition stopContainer (b : MySQLBox) : M (option error) :=
  call (EvContainerStop (containerID b) containerStopTimeoutDur) ContainerStop.

Definition Stop (b : option MySQLBox) : M (option error) :=
  match b with
  | None => ret (Some errNilBox)
  | Some b =>
      defer (cleanupFiles b)
        (err <- stopContainer b ;;
         match err with
         | Some e => ret (Some e)
         | None =>
             w <- call (EvContainerWait (containerID b) WaitConditionRemoved)
                    ContainerWait ;;
             match w with
             | WaitBody => ret None
             | WaitError err =>
                 if isNotFound err then ret None else ret (Some err)
             end
         end)
  end.

(** ** Container logs *)

(** The multiplexed stream of [ContainerLogs]: frames tagged with the stream
    they belong to, ended by end-of-stream ([None]) or a read error. *)
Inductive Frame : Type :=
| StdoutFrame (payload : string)
| StderrFrame (payload : string).

Record LogStream : Type := {
  frames : list Frame;
  copyErr : option error
}.

(** The payloads of the stdout frames, put together in arrival order. *)
Definition stdoutBytes (fs : list Frame) : string :=
  foldr (fun f acc => match f with
                      | StdoutFrame p => p +:+ acc
                      | StderrFrame _ => acc
                      end) "" fs.

(** The payloads of the stderr frames, put together in arrival order. *)
Definition stderrBytes (fs : list Frame) : string :=
  foldr (fun f acc => match f with
                      | StderrFrame p => p +:+ acc
                      | StdoutFrame _ => acc
                      end) "" fs.

(** [bufio.MaxScanTokenSize]: the buffer of the scanner [bufio.NewScanner]
    makes grows to 64 KiB and no further. *)
Definition maxScanTokenSize : Z := 64 * 1024.

(** The scanner gives up after more than this many reads in a row that
    bring no byte. *)
Definition maxConsecutiveEmptyReads : Z := 100.

(** [scanner.Text()] for the line whose bytes are [pending], last byte
    first: [bufio.ScanLines] drops one trailing carriage return. *)
Definition lineText (pending : list ascii) : string :=
  String.string_of_list_ascii
    (reverse match pending with
             | "013"%char :: before => before
             | _ => pending
             end).

(** Where the scanner stands after it was offered the bytes of a write:
    back in a read, holding the [size] bytes [pending] of an unfinished
    line, or stopped with [ErrTooLong], having left [unread] in the pipe. *)
Inductive ScanState : Type :=
| Waiting (pending : list ascii) (size : Z)
| TooLong (unread : string).

(** [for scanner.Scan()] while it is fed [data]: the lines it gives out, and
    where it stands then.  A line ends at a newline.  When the buffer is
    full, that is when 64 KiB have come in since the last newline, [Scan]
    returns false and reads no more. *)
Fixpoint scanBytes (data : string) (pending : list ascii) (size : Z)
    : list string * ScanState :=
  match data with
  | EmptyString => ([], Waiting pending size)
  | String c rest =>
      if Ascii.eqb c "010" then
        let '(lines, st) := scanBytes rest [] 0 in
        (lineText pending :: lines, st)
      else if maxScanTokenSize <=? size + 1 then ([], TooLong rest)
      else scanBytes rest (c :: pending) (size + 1)
  end.

(** The goroutine at the read end of the pipe: in a read, with the bytes of
    an unfinished line and the number of reads in a row that brought
    nothing; or gone, after [Scan] has returned false.  Nothing reads the
    pipe then. *)
Inductive PipeReader : Type :=
| Scanning (pending : list ascii) (size : Z) (emptyReads : Z)
| Gone.

(** [pw.Write(payload)]: the lines the goroutine gives out while the write
    is under way, and the goroutine after the write has returned; [None]
    when the write never returns, because the bytes it still holds are never
    read.  A write of no bytes is one read that brings nothing; after too
    many of them the scanner gives out the unfinished line and stops. *)
Definition pipeWrite (payload : string) (r : PipeReader)
    : list string * option PipeReader :=
  match r with
  | Gone => ([], None)
  | Scanning pending size emptyReads =>
      match payload with
      | EmptyString =>
          if maxConsecutiveEmptyReads <? emptyReads + 1 then
            (match pending with
             | [] => []
             | _ => [lineText pending]
             end, Some Gone)
          else ([], Some (Scanning pending size (emptyReads + 1)))
      | _ =>
          match scanBytes payload pending size with
          | (lines, Waiting pending' size') =>
              (lines, Some (Scanning pending' size' 0))
          | (lines, TooLong EmptyString) => (lines, Some Gone)
          | (lines, TooLong _) => (lines, None)
          end
      end
  end.

(** [pw.Close()] and [pw.CloseWithError(err)]: a goroutine that still reads
    gives out its unfinished line, if it holds one, and ends. *)
Definition closePipe (r : PipeReader) : list string :=
  match r with
  | Scanning (c :: pending) _ _ => [lineText (c :: pending)]
  | _ => []
  end.

(** The body of the scanning goroutine, one line at a time. *)
Definition scanLine (errors : option (list string)) (line : string)
    : option (list string) :=
  if String.prefix "ERROR" line then
    match errors with
    | Some collected => Some (collected ++ [line])
    | None => None
    end
  else errors.

(** [for scanner.Scan() { ... }] over the lines the scanner yields. *)
Definition scanErrors (lines : list string) (errors : option (list string))
    : option (list string) :=
  foldl scanLine errors lines.

Record LogSinks : Type := {
  cout : option string;
  cerr : option string;
  errors : option (list string);
  (* whether a value was sent on [containerExit] *)
  containerExit : bool
}.

Definition writeTo (w : option string) (bytes : string) : option string :=
  match w with
  | Some held => Some (held +:+ bytes)
  | None => None
  end.

(** The sinks [Start] hands to the log reader. *)
Definition startLogSinks (c : Config) : LogSinks :=
  {| cout := Stdout c; cerr := Stderr c; errors := LoggedErrors c;
     containerExit := false |}.

(** One frame of [stdcopy.StdCopy]: a stdout payload is written to [cout], a
    stderr payload to the multi-writer, that is to [cerr] first and then to
    the pipe.  [None] when the write to the pipe never returns. *)
Definition copyFrame (f : Frame) (sinks : LogSinks) (r : PipeReader)
    : LogSinks * option PipeReader :=
  match f with
  | StdoutFrame payload =>
      ({| cout := writeTo (cout sinks) payload; cerr := cerr sinks;
          errors := errors sinks; containerExit := containerExit sinks |},
       Some r)
  | StderrFrame payload =>
      let '(lines, r') := pipeWrite payload r in
      ({| cout := cout sinks; cerr := writeTo (cerr sinks) payload;
          errors := scanErrors lines (errors sinks);
          containerExit := containerExit sinks |}, r')
  end.

(** [stdcopy.StdCopy] over the frames of the log stream. *)
Fixpoint StdCopy (fs : list Frame) (sinks : LogSinks) (r : PipeReader)
    : LogSinks * option PipeReader :=
  match fs with
  | [] => (sinks, Some r)
  | f :: rest =>
      match copyFrame f sinks r with
      | (sinks', Some r') => StdCopy rest sinks' r'
      | (sinks', None) => (sinks', None)
      end
  end.

(** [readContainerLogs]: [logs] is the result of [cli.ContainerLogs].  The
    result is the sinks once the reader and its scanning goroutine have come
    to rest, and whether [readContainerLogs] has returned: it has not when
    [StdCopy] is held in a write to the pipe. *)
Definition readContainerLogs (logs : Result LogStream) (sinks : LogSinks)
    : LogSinks * bool :=
  match logs with
  | Err _ => (sinks, true)
  | Ok clog =>
      match StdCopy (frames clog) sinks (Scanning [] 0 0) with
      | (copied, None) => (copied, false)
      | (copied, Some r) =>
          ({| cout := cout copied; cerr := cerr copied;
              errors := scanErrors (closePipe r) (errors copied);
              containerExit :=
                match copyErr clog with
                | Some _ => containerExit copied
                | None => true
                end |}, true)
      end
  end.

(** ** Environments used in examples *)

(** Everything succeeds at once: the image is present, the port is 49153,
    the first probe answers. *)
Definition readyEnv : Env :=
  {| randomID := "4f2a";
     TempFile := fun _ => Ok "/tmp/schema-1.sql";
     ioCopy := fun _ => None;
     NewClientWithOpts := fun _ => None;
     ContainerCreate := fun _ => Ok "c0ffee";
     ImagePull := fun _ => None;
     DisplayJSONMessagesStream := fun _ => None;
     ContainerStart := fun _ => None;
     ContainerInspect := fun _ => Ok ["49153"];
     sqlOpen := fun _ => None;
     PingContext := fun _ _ => (20, None);
     exitAt := None;
     ContainerStop := fun _ => None;
     ContainerWait := fun _ => WaitBody;
     dbQuery := fun _ => Ok [];
     dbExec := fun _ => None |}.

(** ** Quoted identifiers *)

Definition backquote : ascii := "`"%char.

(** MySQL's reading of a quoted identifier, from the character after the
    opening backquote: a doubled backquote stands for one backquote of the
    identifier, a single one closes it.  The result is the identifier and the
    text left after the closing backquote; [None] when the identifier is not
    closed. *)
Fixpoint readQuotedBody (s : string) : option (string * string) :=
  match s with
  | EmptyString => None
  | String c rest =>
      if Ascii.eqb c backquote then
        match rest with
        | String c' rest' =>
            if Ascii.eqb c' backquote then
              match readQuotedBody rest' with
              | Some (ident, after) => Some (String backquote ident, after)
              | None => None
              end
            else Some (EmptyString, rest)
        | EmptyString => Some (EmptyString, EmptyString)
        end
      else
        match readQuotedBody rest with
        | Some (ident, after) => Some (String c ident, after)
        | None => None
        end
  end.

Definition readQuotedIdent (s : string) : option (string * string) :=
  match s with
  | String c rest => if Ascii.eqb c backquote then readQuotedBody rest else None
  | EmptyString => None
  end.

(** The operand of a [TRUNCATE TABLE] statement: what follows the keywords. *)
Fixpoint dropChars (n : nat) (s : string) : string :=
  match n, s with
  | S n', String _ rest => dropChars n' rest
  | _, _ => s
  end.

Definition truncateOperand (stmt : string) : string :=
  dropChars (String.length "TRUNCATE TABLE ") stmt.

Fixpoint hasBackquote (s : string) : bool :=
  match s with
  | EmptyString => false
  | String c rest => Ascii.eqb c backquote || hasBackquote rest
  end.

(** ** Reading a trace *)

(** The statements sent with [Exec], oldest first. *)
Definition execsOf (tr : Trace) : list string :=
  omap (fun ev => match ev with
                  | EvExec q => Some q
                  | _ => None
                  end) tr.

(** The request that truncates [table]. *)
Definition truncation (table : string) : Event := EvExec (truncateQuery table).

(** ** A small in-memory server *)

(** [readyEnv] with another database behind it. *)
Definition withDB (query : Trace -> Result (list (Result string)))
    (exec : Trace -> option error) : Env :=
  {| randomID := randomID readyEnv;
     TempFile := TempFile readyEnv;
     ioCopy := ioCopy readyEnv;
     NewClientWithOpts := NewClientWithOpts readyEnv;
     ContainerCreate := ContainerCreate readyEnv;
     ImagePull := ImagePull readyEnv;
     DisplayJSONMessagesStream := DisplayJSONMessagesStream readyEnv;
     ContainerStart := ContainerStart readyEnv;
     ContainerInspect := ContainerInspect readyEnv;
     sqlOpen := sqlOpen readyEnv;
     PingContext := PingContext readyEnv;
     exitAt := exitAt readyEnv;
     ContainerStop := ContainerStop readyEnv;
     ContainerWait := ContainerWait readyEnv;
     dbQuery := query;
     dbExec := exec |}.

(** The table a [TRUNCATE TABLE `...`] statement names, read as the server
    reads a quoted identifier ([readQuotedIdent]): the identifier ends at the
    first backquote that is not doubled, and nothing may follow it.  [None]
    for a statement the server rejects. *)
Definition tableOfTruncate (q : string) : option string :=
  if String.prefix "TRUNCATE TABLE " q then
    match readQuotedIdent (truncateOperand q) with
    | Some (table, EmptyString) => Some table
    | _ => None
    end
  else None.

(** Tables with their row counts. *)
Definition Tables := list (string * nat).

Definition truncateRows (table : string) (db : Tables) : Tables :=
  map (fun '(name, n) => if String.eqb name table then (name, O) else (name, n))
      db.

(** The tables after the statements of a trace have run. *)
Definition rowsAfter (db : Tables) (tr : Trace) : Tables :=
  foldl (fun db ev =>
           match ev with
           | EvExec q =>
               match tableOfTruncate q with
               | Some table => truncateRows table db
               | None => db
               end
           | _ => db
           end) db tr.

(** A server that holds [db]: the catalog lists its tables, and a truncation
    fails when the table does not exist. *)
Definition memEnv (db : Tables) : Env :=
  withDB (fun _ => Ok (map (fun row => Ok (fst row)) db))
         (fun tr =>
            match last tr with
            | Some (EvExec q) =>
                match tableOfTruncate q with
                | Some table =>
                    if bool_decide (table ∈ map fst db) then None
                    else Some (errOther ("Table 'testing." +:+ table
                                         +:+ "' doesn't exist"))
                | None => Some (errOther "syntax error")
                end
            | _ => None
            end).

Definition shopTables : Tables := [("users", 10%nat); ("categories", 5%nat)].

(** A started instance whose exclusion set is {categories}. *)
Definition shopBox : MySQLBox :=
  {| dsn := "root@tcp(127.0.0.1:49153)/testing?parseTime=true";
     databaseName := "testing"; containerName := "mysqlbox-4f2a";
     containerID := "c0ffee"; schemaFile := None; port := 49153;
     doNotCleanTables := ["categories"] |}.

Definition fkError : error :=
  errOther "Cannot truncate a table referenced in a foreign key constraint".

(** A server with two tables on which every truncation fails. *)
Definition fkEnv : Env :=
  withDB (fun _ => Ok [Ok "users"; Ok "orders"]) (fun _ => Some fkError).

(** ** Statements about [CleanAllTables] *)

(** The tables of a catalog answer that are not excluded, in catalog order. *)
Definition cleanTargets (b : MySQLBox) (tables : list string) : list string :=
  filter (fun table => table ∉ doNotCleanTables b) tables.

(** The request for the catalog of the instance's database. *)
Definition catalogRequest (b : MySQLBox) : Event :=
  EvQuery catalogQuery (databaseName b).

(** The truncations of [tables] all succeed when sent, one after the other,
    after the history [tr]. *)
Definition truncationsSucceed (env : Env) (tr : Trace) (tables : list string)
    : Prop :=
  forall done table rest,
    tables = done ++ table :: rest ->
    dbExec env (tr ++ map truncation (done ++ [table])) = None.

(** The fail-fast policy as the specification words it: the first failing
    truncation ends the work and comes back as the returned error. *)
Definition first_failure_is_returned : Prop :=
  forall (b : MySQLBox) (env : Env) (tr : Trace) (tables pre post : list string)
         (failing : string) (e : error),
    dbQuery env (tr ++ [catalogRequest b]) = Ok (map Ok tables) ->
    cleanTargets b tables = pre ++ failing :: post ->
    truncationsSucceed env (tr ++ [catalogRequest b]) pre ->
    dbExec env (tr ++ catalogRequest b :: map truncation (pre ++ [failing]))
    = Some e ->
    CleanAllTables (Some b) env tr
    = (Returned (Some e),
       tr ++ catalogRequest b :: map truncation (pre ++ [failing])
          ++ [EvRowsClose]).

(** ** Statements about [Stop] *)

(** What [cleanupFiles] adds to a trace. *)
Definition cleanupEvents (b : MySQLBox) : Trace :=
  match schemaFile b with
  | Some f => [EvFileClose f; EvRemove f]
  | None => []
  end.

Definition stopRequest (b : MySQLBox) : Event :=
  EvContainerStop (containerID b) (60 * 1000).

Definition waitRemovedRequest (b : MySQLBox) : Event :=
  EvContainerWait (containerID b) WaitConditionRemoved.

(** [readyEnv] with another answer to the stop request and to the wait. *)
Definition withShutdown (stop : option error) (wait : WaitResult) : Env :=
  {| randomID := randomID readyEnv;
     TempFile := TempFile readyEnv;
     ioCopy := ioCopy readyEnv;
     NewClientWithOpts := NewClientWithOpts readyEnv;
     ContainerCreate := ContainerCreate readyEnv;
     ImagePull := ImagePull readyEnv;
     DisplayJSONMessagesStream := DisplayJSONMessagesStream readyEnv;
     ContainerStart := ContainerStart readyEnv;
     ContainerInspect := ContainerInspect readyEnv;
     sqlOpen := sqlOpen readyEnv;
     PingContext := PingContext readyEnv;
     exitAt := exitAt readyEnv;
     ContainerStop := fun _ => stop;
     ContainerWait := fun _ => wait;
     dbQuery := dbQuery readyEnv;
     dbExec := dbExec readyEnv |}.

(** A started instance that owns a script file. *)
Definition seededBox : MySQLBox :=
  {| dsn := "root@tcp(127.0.0.1:49153)/testing?parseTime=true";
     databaseName := "testing"; containerName := "mysqlbox-4f2a";
     containerID := "c0ffee"; schemaFile := Some "/tmp/schema-1.sql";
     port := 49153; doNotCleanTables := [] |}.

(** ** Statements about the creation block *)

Definition isPull (ev : Event) : bool :=
  match ev with
  | EvImagePull _ => true
  | _ => false
  end.

Definition isCreate (ev : Event) : bool :=
  match ev with
  | EvContainerCreate _ _ _ _ _ => true
  | _ => false
  end.

Definition countEvents (p : Event -> bool) (tr : Trace) : nat :=
  length (List.filter p tr).

(** [readyEnv] with another answer to the creation requests. *)
Definition withCreate (create : Trace -> Result string) : Env :=
  {| randomID := randomID readyEnv;
     TempFile := TempFile readyEnv;
     ioCopy := ioCopy readyEnv;
     NewClientWithOpts := NewClientWithOpts readyEnv;
     ContainerCreate := create;
     ImagePull := ImagePull readyEnv;
     DisplayJSONMessagesStream := DisplayJSONMessagesStream readyEnv;
     ContainerStart := ContainerStart readyEnv;
     ContainerInspect := ContainerInspect readyEnv;
     sqlOpen := sqlOpen readyEnv;
     PingContext := PingContext readyEnv;
     exitAt := exitAt readyEnv;
     ContainerStop := ContainerStop readyEnv;
     ContainerWait := ContainerWait readyEnv;
     dbQuery := dbQuery readyEnv;
     dbExec := dbExec readyEnv |}.

Definition nameInUse : error :=
  errOther "Conflict. The container name is already in use".

(** The runtime refuses every creation because the name is taken. *)
Definition conflictEnv : Env := withCreate (fun _ => Err nameInUse).

(** The image is absent at first; after the pull the creation fails for
    another reason. *)
Definition pullThenConflictEnv : Env :=
  withCreate (fun tr =>
                if existsb isPull tr then Err nameInUse
                else Err (errNotFound "No such image: mysql:8")).

(** A configuration that only names the container. *)
Definition namedConfig : Config := setContainerName "fixture" emptyConfig.

(** ** Statements about the script file *)

Definition isRemove (ev : Event) : bool :=
  match ev with
  | EvRemove _ => true
  | _ => false
  end.

(** Every event a computation adds to the trace satisfies [P]. *)
Definition emitsOnly {A} (P : Event -> Prop) (m : M A) : Prop :=
  forall env tr, exists new, snd (m env tr) = tr ++ new /\ Forall P new.

(** A computation that never runs out of fuel. *)
Definition total {A} (m : M A) : Prop :=
  forall env tr, fst (m env tr) <> OutOfFuel.

(** A configuration with an initial script in a buffer. *)
Definition seededConfig : Config :=
  {| ContainerName_ := "fixture"; Image := ""; Database := "";
     RootPassword := ""; MySQLPort := 0;
     InitialSQL := Some (DataFromBuffer "SELECT * FROM sales WHERE id = 1;");
     DoNotCleanTables := []; Stdout := None; Stderr := None;
     LoggedErrors := Some [] |}.

(** ** Statements about readiness polling *)

(** The trace after a turn of the loop in which the probe failed and the loop
    slept. *)
Definition roundTrace (env : Env) (deadline : Z) (tr : Trace) : Trace :=
  tr ++ [EvPing (fst (PingContext env tr deadline)); EvSleep pollInterval].

(** The trace after [k] such turns. *)
Fixpoint afterRounds (env : Env) (deadline : Z) (k : nat) (tr : Trace)
    : Trace :=
  match k with
  | O => tr
  | S k' => afterRounds env deadline k' (roundTrace env deadline tr)
  end.

(** A probe result that is an error other than the deadline. *)
Definition plainFailure (err : option error) : bool :=
  match err with
  | Some e => negb (isDeadlineExceeded e)
  | None => false
  end.

(** The turn that starts at [tr] neither ends the loop nor finds the exit
    signal: its probe fails plainly and the check after the sleep finds the
    channel empty. *)
Definition quietRound (env : Env) (deadline : Z) (tr : Trace) : Prop :=
  plainFailure (snd (PingContext env tr deadline)) = true /\
  exitPending env (roundTrace env deadline tr) = false.

(** What the context guarantees about a probe: it takes no negative time; it
    reports the deadline when the deadline has passed before it starts; and
    when it reports the deadline, the deadline has passed by its return. *)
Definition PingRespectsContext (env : Env) : Prop :=
  forall tr deadline,
    0 <= fst (PingContext env tr deadline) /\
    (deadline <= elapsed tr ->
     exists e, snd (PingContext env tr deadline) = Some e /\
               isDeadlineExceeded e = true) /\
    (forall e,
       snd (PingContext env tr deadline) = Some e ->
       isDeadlineExceeded e = true ->
       deadline <= elapsed tr + fst (PingContext env tr deadline)).

(** The readiness rule as the specification words it: when start-up reaches
    the polling, no probe ever succeeds and the exit signal is sent before
    the deadline has elapsed, [Start] fails with "container closed". *)
Definition exit_before_deadline_is_reported : Prop :=
  forall (env : Env) (fuel : nat) (c : option Config) (tr0 tr : Trace)
         (b : MySQLBox) (t : Z),
    provision c env tr0 = (Returned (Ok b), tr) ->
    PingRespectsContext env ->
    (forall h deadline, snd (PingContext env h deadline) <> None) ->
    exitAt env = Some t ->
    t < elapsed tr + startTimeout ->
    (61 <= fuel)%nat ->
    fst (Start fuel c env tr0) = Returned (Err errContainerClosed).

(** [readyEnv] with other probes and another exit time. *)
Definition withProbes (probe : Trace -> Z -> Z * option error)
    (exit : option Z) : Env :=
  {| randomID := randomID readyEnv;
     TempFile := TempFile readyEnv;
     ioCopy := ioCopy readyEnv;
     NewClientWithOpts := NewClientWithOpts readyEnv;
     ContainerCreate := ContainerCreate readyEnv;
     ImagePull := ImagePull readyEnv;
     DisplayJSONMessagesStream := DisplayJSONMessagesStream readyEnv;
     ContainerStart := ContainerStart readyEnv;
     ContainerInspect := ContainerInspect readyEnv;
     sqlOpen := sqlOpen readyEnv;
     PingContext := probe;
     exitAt := exit;
     ContainerStop := ContainerStop readyEnv;
     ContainerWait := ContainerWait readyEnv;
     dbQuery := dbQuery readyEnv;
     dbExec := dbExec readyEnv |}.

Definition connectionRefused : error :=
  errOther "dial tcp 127.0.0.1:49153: connect: connection refused".

(** The first probe is refused after 100 ms; the second one, sent at 600 ms,
    hangs until the deadline of the context and reports it.  The container
    exits at 29950 ms, while the second probe is in flight. *)
Definition raceEnv : Env :=
  withProbes
    (fun tr deadline =>
       if deadline <=? elapsed tr then (0, Some errDeadlineExceeded)
       else if elapsed tr <? 600 then (100, Some connectionRefused)
       else (deadline - elapsed tr, Some errDeadlineExceeded))
    (Some 29950).

(** The container has exited at 300 ms; every probe is refused after
    100 ms. *)
Definition crashedEnv : Env :=
  withProbes
    (fun tr deadline =>
       if deadline <=? elapsed tr then (0, Some errDeadlineExceeded)
       else (100, Some connectionRefused))
    (Some 300).

(** ** The earlier variant of Start *)

(** The package holds an earlier [Start], without the image pull and without
    the exit check.  It matters here for one thing: it removes the script
    file itself, by a deferred call. *)
Module Legacy.

(** The "Ping DB for 30 seconds" loop. *)
Fixpoint pollDB (fuel : nat) (deadline : Z) : M (option error) :=
  match fuel with
  | O => outOfFuel
  | S fuel' =>
      err <- ping deadline ;;
      match err with
      | None => ret None
      | Some e =>
          if isDeadlineExceeded e then
            emit EvLogCloseSignal ;;;
            ret (Some (errorsNew "could not connect to mysql"))
          else
            emit (EvSleep pollInterval) ;;;
            pollDB fuel' deadline
      end
  end.

(** [Start] from "Create docker client" on; [tmpf] is the script file. *)
Definition startContainer (fuel : nat) (c : Config) (tmpf : option string)
    : M (Result MySQLBox) :=
  err <- call EvNewClient NewClientWithOpts ;;
  match err with
  | Some e => ret (Err e)
  | None =>
      let envVars :=
        ["MYSQL_DATABASE=" +:+ Database c;
         if String.eqb (RootPassword c) "" then "MYSQL_ALLOW_EMPTY_PASSWORD=1"
         else "MYSQL_ROOT_PASSWORD=" +:+ RootPassword c] in
      let hostPort :=
        if MySQLPort c =? 0 then "0" else formatInt (MySQLPort c) in
      let mounts :=
        match tmpf with
        | Some f => [f]
        | None => []
        end in
      created <-?
        call (EvContainerCreate (Image c) (ContainerName_ c) envVars hostPort
                mounts) ContainerCreate ;;
      emit EvSetLogger ;;;
      err <- call (EvContainerStart created) ContainerStart ;;
      match err with
      | Some e =>
          emit (EvStdout ("container start error: " +:+ Error e
                          +:+ String "010" "")) ;;;
          ret (Err e)
      | None =>
          emit (EvGoReadContainerLogs created) ;;;
          ports <-? call (EvContainerInspect created) ContainerInspect ;;
          match ports with
          | [] => ret (Err (errorsNew "no port bindings"))
          | portStr :: _ =>
              port <-? ret (Atoi portStr) ;;
              let dsn :=
                FormatDSN "root" (RootPassword c) "tcp"
                  ("127.0.0.1:" +:+ portStr) (Database c) in
              err <- call (EvSqlOpen dsn) sqlOpen ;;
              match err with
              | Some e => ret (Err e)
              | None =>
                  tr <- history ;;
                  err <- pollDB fuel (elapsed tr + 30 * 1000) ;;
                  match err with
                  | Some e => ret (Err e)
                  | None =>
                      ret (Ok {| dsn := dsn; databaseName := Database c;
                                 containerName := ContainerName_ c;
                                 containerID := created; schemaFile := None;
                                 port := port;
                                 doNotCleanTables := DoNotCleanTables c |})
                  end
              end
          end
      end
  end.

Definition hasScript (c : Config) : bool :=
  match InitialSQL c with
  | Some d => bool_decide (is_Some (reader d)) || bool_decide (is_Some (buf d))
  | None => false
  end.

Definition scriptSource (c : Config) : string :=
  match InitialSQL c with
  | Some d =>
      match reader d with
      | Some r => r
      | None => default "" (buf d)
      end
  | None => ""
  end.

Definition Start (fuel : nat) (c : option Config) : M (Result MySQLBox) :=
  env <- ask ;;
  let c := LoadDefaults env (default emptyConfig c) in
  if hasScript c then
    tmpf <-? call (EvTempFile "schema-*.sql") TempFile ;;
    defer (emit (EvFileClose tmpf) ;;; emit (EvRemove tmpf))
      (err <- call (EvCopy tmpf (scriptSource c)) ioCopy ;;
       match err with
       | Some e => ret (Err e)
       | None => startContainer fuel c (Some tmpf)
       end)
  else startContainer fuel c None.

End Legacy.

(** ** Statements about a successful start-up *)

(** The payload [Start] writes to the script file: the reader's content when
    a reader is set, else the buffer's; [None] when there is no script. *)
Definition initialScript (c : Config) : option string :=
  match InitialSQL c with
  | Some d =>
      match reader d with
      | Some r => Some r
      | None => buf d
      end
  | None => None
  end.

(** The environment variables [Start] gives the container. *)
Definition containerEnv (c : Config) : list string :=
  ["MYSQL_DATABASE=" +:+ Database c;
   if String.eqb (RootPassword c) "" then "MYSQL_ALLOW_EMPTY_PASSWORD=1"
   else "MYSQL_ROOT_PASSWORD=" +:+ RootPassword c].

(** The creation request of [Start] for a configuration with its defaults
    loaded and the script file [file]. *)
Definition createRequest (c : Config) (file : option string) : Event :=
  EvContainerCreate (Image c) (ContainerName_ c) (containerEnv c)
    (if MySQLPort c =? 0 then "0" else formatInt (MySQLPort c))
    (match file with
     | Some f => [f]
     | None => []
     end).

(** The requests between the creation of the container and the polling. *)
Definition connectEvents (b : MySQLBox) : Trace :=
  [EvSetLogger; EvContainerStart (containerID b);
   EvGoReadContainerLogs (containerID b); EvContainerInspect (containerID b);
   EvSqlOpen (dsn b)].

Definition isProbe (ev : Event) : bool :=
  match ev with
  | EvPing _ => true
  | _ => false
  end.

Definition isShutdown (ev : Event) : bool :=
  match ev with
  | EvContainerStop _ _ => true
  | EvContainerWait _ _ => true
  | _ => false
  end.

(** ** The remaining panicking variants *)

(** [MustStop] *)
Definition MustStop (b : option MySQLBox) : M unit := must (Stop b).

(** Turn a result pair into a value or a panic. *)
Definition mustValue {A} (r : Result A) : M A :=
  match r with
  | Err e => panic e
  | Ok v => ret v
  end.

Definition MustDB (b : option MySQLBox) : M string := mustValue (DB b).
Definition MustDSN (b : option MySQLBox) : M string := mustValue (DSN b).
Definition MustContainerName (b : option MySQLBox) : M string :=
  mustValue (ContainerName b).

(** The events in the life of the script file. *)
Definition isScriptFileEvent (ev : Event) : bool :=
  match ev with
  | EvTempFile _ | EvCopy _ _ | EvFileClose _ | EvRemove _ => true
  | _ => false
  end.

Definition isSleep (ev : Event) : bool :=
  match ev with
  | EvSleep _ => true
  | _ => false
  end.

(** The handle [Start] returns in [readyEnv] for the default configuration. *)
Definition readyBox : MySQLBox :=
  {| dsn := "root@tcp(127.0.0.1:49153)/testing?parseTime=true";
     databaseName := "testing"; containerName := "mysqlbox-4f2a";
     containerID := "c0ffee"; schemaFile := None; port := 49153;
     doNotCleanTables := [] |}.

(** The handle [Start] returns in [readyEnv] for [seededConfig]. *)
Definition fixtureBox : MySQLBox :=
  {| dsn := "root@tcp(127.0.0.1:49153)/testing?parseTime=true";
     databaseName := "testing"; containerName := "fixture";
     containerID := "c0ffee"; schemaFile := Some "/tmp/schema-1.sql";
     port := 49153; doNotCleanTables := [] |}.

(** ** Statements about the log reader *)

(** Whether [s] holds a newline. *)
Fixpoint hasNewline (s : string) : bool :=
  match s with
  | EmptyString => false
  | String c rest => Ascii.eqb c "010" || hasNewline rest
  end.

(** Whether the last byte of [s] is a carriage return. *)
Fixpoint endsWithCR (s : string) : bool :=
  match s with
  | EmptyString => false
  | String c rest =>
      match rest with
      | EmptyString => Ascii.eqb c "013"
      | _ => endsWithCR rest
      end
  end.

(** A run of [n] bytes without a newline. *)
Definition filler (n : Z) : string :=
  String.string_of_list_ascii (replicate (Z.to_nat n) "x"%char).

(** ** Statements about the missing image, the port and the older [Start] *)

(** [readyEnv] with no image at hand and the registry out of reach. *)
Definition offlineEnv : Env :=
  {| randomID := randomID readyEnv;
     TempFile := TempFile readyEnv;
     ioCopy := ioCopy readyEnv;
     NewClientWithOpts := NewClientWithOpts readyEnv;
     ContainerCreate := fun _ => Err (errNotFound "No such image: mysql:8");
     ImagePull := fun _ => Some (errOther "dial tcp: no route to host");
     DisplayJSONMessagesStream := DisplayJSONMessagesStream readyEnv;
     ContainerStart := ContainerStart readyEnv;
     ContainerInspect := ContainerInspect readyEnv;
     sqlOpen := sqlOpen readyEnv;
     PingContext := PingContext readyEnv;
     exitAt := exitAt readyEnv;
     ContainerStop := ContainerStop readyEnv;
     ContainerWait := ContainerWait readyEnv;
     dbQuery := dbQuery readyEnv;
     dbExec := dbExec readyEnv |}.

(** The line [pullImage] prints before it asks for the image. *)
Definition pullNotice (image : string) : Event :=
  EvStdout ("pulling Docker image " +:+ image +:+ "..." +:+ String "010" "").

(** A configuration that asks for the host port 49153. *)
Definition pinnedConfig : Config :=
  {| ContainerName_ := ""; Image := ""; Database := ""; RootPassword := "";
     MySQLPort := 49153; InitialSQL := None; DoNotCleanTables := [];
     Stdout := None; Stderr := None; LoggedErrors := None |}.


(** ** Reading a script from a file (data.go) *)

(** An opened file: what [io.Copy] reads from it, and the error that ends
    the reading, if any. *)
Record OpenFile : Type := {
  content : string;
  readErr : option error
}.

(** The value a call panics with: [DataFromFile] panics with a string when
    the file does not open and with the error when reading fails. *)
Inductive PanicValue : Type :=
| PanicString (msg : string)
| PanicError (err : error).

(** [DataFromFile]; [osOpen] is [os.Open].  The deferred [f.Close()] has no
    part in the result. *)
Definition DataFromFile (osOpen : string -> Result OpenFile)
    (filename : string) : Data + PanicValue :=
  match osOpen filename with
  | Err err =>
      inr (PanicString ("error opening file " +:+ filename +:+ ": "
                        +:+ Error err))
  | Ok f =>
      match readErr f with
      | Some err => inr (PanicError err)
      | None => inl (DataFromBuffer (content f))
      end
  end.

(** A directory with one readable, empty file. *)
Definition emptyFileOnly (filename : string) : Result OpenFile :=
  if String.eqb filename "testdata/empty.sql"
  then Ok {| content := ""; readErr := None |}
  else Err (errOther ("open " +:+ filename +:+ ": no such file or directory")).

Definition setInitialSQL (v : option Data) (c : Config) : Config :=
  {| ContainerName_ := ContainerName_ c; Image := Image c;
     Database := Database c; RootPassword := RootPassword c;
     MySQLPort := MySQLPort c; InitialSQL := v;
     DoNotCleanTables := DoNotCleanTables c; Stdout := Stdout c;
     Stderr := Stderr c; LoggedErrors := LoggedErrors c |}.

(** * Properties *)

(** ** Nil handle *)

(** C9: every fallible operation of a nil handle ([Stop], [DB], [DSN],
    [ContainerName], [CleanAllTables], [CleanTables]) returns the error
    "mysqlbox is nil"; none of them panics or sends a request to a
    collaborator. *)
Theorem nil_handle_reports_absent (env : Env) (tr : Trace)
    (tables : list string) :
  Stop None env tr = (Returned (Some errNilBox), tr) /\
  DB None = Err errNilBox /\
  DSN None = Err errNilBox /\
  ContainerName None = Err errNilBox /\
  CleanAllTables None env tr = (Returned (Some errNilBox), tr) /\
  CleanTables None tables env tr = (Returned (Some errNilBox), tr) /\
  Error errNilBox = "mysqlbox is nil".
Proof. repeat split. Qed.

(** ** Error lines of the container log *)

(** ** The log reader *)

Lemma string_app_nil_r (s : string) : s +:+ "" = s.
Proof.
  induction s as [|c s IH]; [reflexivity|].
  change (String c (s +:+ "") = String c s). by rewrite IH.
Qed.

Lemma string_app_assoc (s1 s2 s3 : string) :
  (s1 +:+ s2) +:+ s3 = s1 +:+ s2 +:+ s3.
Proof.
  induction s1 as [|c s1 IH]; [reflexivity|].
  change (String c ((s1 +:+ s2) +:+ s3) = String c (s1 +:+ s2 +:+ s3)).
  by rewrite IH.
Qed.

Lemma scanErrors_some (lines collected : list string) :
  scanErrors lines (Some collected)
  = Some (collected ++ List.filter (String.prefix "ERROR") lines).
Proof.
  unfold scanErrors.
  revert collected.
  induction lines as [|line lines IH]; intros collected; simpl.
  - by rewrite app_nil_r.
  - unfold scanLine at 2.
    destruct (String.prefix "ERROR" line).
    + rewrite IH. by rewrite <- app_assoc.
    + apply IH.
Qed.

Lemma scanErrors_none (lines : list string) : scanErrors lines None = None.
Proof.
  unfold scanErrors.
  induction lines as [|line lines IH]; simpl; [done|].
  unfold scanLine at 2. by destruct (String.prefix "ERROR" line).
Qed.

Lemma scanErrors_app (lines1 lines2 : list string)
    (collected : option (list string)) :
  scanErrors (lines1 ++ lines2) collected
  = scanErrors lines2 (scanErrors lines1 collected).
Proof. unfold scanErrors. apply foldl_app. Qed.

Lemma writeTo_nil (w : option string) : writeTo w "" = w.
Proof. destruct w as [held|]; [|done]. simpl. by rewrite string_app_nil_r. Qed.

Lemma writeTo_app (w : option string) (a b : string) :
  writeTo (writeTo w a) b = writeTo w (a +:+ b).
Proof. destruct w as [held|]; [|done]. simpl. by rewrite string_app_assoc. Qed.

(** *** The scanner on a stream of bytes *)

Lemma scanBytes_app (a b : string) :
  forall pending size,
    scanBytes (a +:+ b) pending size
    = match scanBytes a pending size with
      | (lines, Waiting pending' size') =>
          let '(lines', st) := scanBytes b pending' size' in
          (lines ++ lines', st)
      | (lines, TooLong unread) => (lines, TooLong (unread +:+ b))
      end.
Proof.
  induction a as [|c a IH]; intros pending size.
  - change ("" +:+ b) with b. simpl. by destruct (scanBytes b pending size).
  - change (String c a +:+ b) with (String c (a +:+ b)). simpl.
    destruct (Ascii.eqb c "010").
    + rewrite IH. destruct (scanBytes a [] 0) as [lines [p n|unread]]; [|done].
      by destruct (scanBytes b p n).
    + destruct (maxScanTokenSize <=? size + 1); [done|]. apply IH.
Qed.

Lemma hasNewline_cons (c : ascii) (s : string) :
  hasNewline (String c s) = false ->
  Ascii.eqb c "010" = false /\ hasNewline s = false.
Proof. simpl. by intros [? ?]%orb_false_elim. Qed.

Lemma scanBytes_text (text more : string) :
  forall pending size,
    hasNewline text = false ->
    size + Z.of_nat (String.length text) < maxScanTokenSize ->
    scanBytes (text +:+ more) pending size
    = scanBytes more (rev (String.list_ascii_of_string text) ++ pending)
        (size + Z.of_nat (String.length text)).
Proof.
  induction text as [|c text IH]; intros pending size Hplain Hfits.
  - change ("" +:+ more) with more. simpl. by rewrite Z.add_0_r.
  - apply hasNewline_cons in Hplain as [Hc Hplain].
    change (String c text +:+ more) with (String c (text +:+ more)).
    simpl String.length in *. rewrite Nat2Z.inj_succ in *.
    simpl scanBytes. rewrite Hc.
    replace (maxScanTokenSize <=? size + 1) with false
      by (symmetry; apply Z.leb_gt; lia).
    rewrite IH by (done || lia).
    simpl. rewrite <- app_assoc. simpl. f_equal. lia.
Qed.

Lemma scanBytes_long (long rest : string) :
  forall pending size,
    hasNewline long = false ->
    size < maxScanTokenSize ->
    maxScanTokenSize <= size + Z.of_nat (String.length long) ->
    exists unread,
      scanBytes (long +:+ rest) pending size = ([], TooLong (unread +:+ rest)).
Proof.
  induction long as [|c long IH]; intros pending size Hplain Hroom Hlong.
  - simpl in Hlong. lia.
  - apply hasNewline_cons in Hplain as [Hc Hplain].
    change (String c long +:+ rest) with (String c (long +:+ rest)).
    simpl String.length in *. rewrite Nat2Z.inj_succ in *.
    simpl scanBytes. rewrite Hc.
    destruct (Z.leb_spec maxScanTokenSize (size + 1)) as [Hfull|Hfree].
    + by exists long.
    + apply IH; [done|lia..].
Qed.

Lemma endsWithCR_rev (text : string) :
  endsWithCR text = false ->
  forall before, rev (String.list_ascii_of_string text) <> "013"%char :: before.
Proof.
  induction text as [|c text IH]; intros Hcr before; [done|].
  destruct text as [|c' text].
  - simpl in *. intros [= ->]. done.
  - change (endsWithCR (String c (String c' text)))
      with (endsWithCR (String c' text)) in Hcr.
    specialize (IH Hcr).
    change (String.list_ascii_of_string (String c (String c' text)))
      with (c :: String.list_ascii_of_string (String c' text)).
    change (rev (c :: ?l)) with (rev l ++ [c]).
    destruct (rev (String.list_ascii_of_string (String c' text)))
      as [|x xs] eqn:Hrev.
    + apply (f_equal (@length ascii)) in Hrev. rewrite length_rev in Hrev.
      done.
    + simpl. intros [= -> _]. by apply (IH xs).
Qed.

Lemma lineText_plain (text : string) :
  endsWithCR text = false ->
  lineText (rev (String.list_ascii_of_string text)) = text.
Proof.
  intros Hcr. unfold lineText, reverse. rewrite <- rev_alt.
  pose proof (endsWithCR_rev text Hcr) as Hhead.
  assert (match rev (String.list_ascii_of_string text) with
          | "013"%char :: before => before
          | _ => rev (String.list_ascii_of_string text)
          end = rev (String.list_ascii_of_string text)) as ->.
  { destruct (rev (String.list_ascii_of_string text)) as [|x xs]; [done|].
    destruct (Ascii.eqb_spec x "013") as [->|Hx]; [by destruct (Hhead xs)|].
    destruct x as [[] [] [] [] [] [] [] []]; done. }
  by rewrite rev_involutive, String.string_of_list_ascii_of_string.
Qed.

Lemma lineText_cr (text : string) :
  lineText ("013"%char :: rev (String.list_ascii_of_string text)) = text.
Proof.
  unfold lineText, reverse. rewrite <- rev_alt.
  by rewrite rev_involutive, String.string_of_list_ascii_of_string.
Qed.

(** The scanner on a stream of lines that fit its buffer. *)
Lemma scanBytes_lines (eol : string) (lines : list string) (last : string) :
  eol = String "010" "" \/ eol = String "013" (String "010" "") ->
  Forall (fun line =>
            hasNewline line = false /\ endsWithCR line = false /\
            Z.of_nat (String.length line + String.length eol) <= 65536)
    lines ->
  hasNewline last = false ->
  Z.of_nat (String.length last) < 65536 ->
  scanBytes (foldr (fun line acc => line +:+ eol +:+ acc) last lines) [] 0
  = (lines,
     Waiting (rev (String.list_ascii_of_string last)) (Z.of_nat (String.length last))).
Proof.
  intros Heol Hlines Hlast Hfits.
  induction Hlines as [|line lines (Hplain & Hcr & Hlen) _ IH]; simpl.
  - rewrite <- (string_app_nil_r last) at 1.
    rewrite scanBytes_text by (done || unfold maxScanTokenSize; lia).
    simpl. by rewrite app_nil_r.
  - rewrite scanBytes_text;
      [|done|destruct Heol as [-> | ->]; simpl in Hlen;
             unfold maxScanTokenSize; lia].
    rewrite app_nil_r, Z.add_0_l.
    destruct Heol as [-> | ->].
    + change (String "010" "" +:+ ?acc) with (String "010" acc).
      simpl scanBytes. rewrite IH. by rewrite (lineText_plain _ Hcr).
    + change (String "013" (String "010" "") +:+ ?acc)
        with (String "013" (String "010" acc)).
      simpl scanBytes.
      replace (maxScanTokenSize <=? Z.of_nat (String.length line) + 1)
        with false
        by (symmetry; apply Z.leb_gt; simpl in Hlen;
            unfold maxScanTokenSize; lia).
      rewrite IH. by rewrite lineText_cr.
Qed.

(** *** The copy and the pipe *)

Lemma StdCopy_app (fs1 fs2 : list Frame) :
  forall sinks r,
    StdCopy (fs1 ++ fs2) sinks r
    = match StdCopy fs1 sinks r with
      | (sinks', Some r') => StdCopy fs2 sinks' r'
      | (sinks', None) => (sinks', None)
      end.
Proof.
  induction fs1 as [|f fs1 IH]; intros sinks r; [done|].
  simpl. destruct (copyFrame f sinks r) as [sinks' [r'|]]; [apply IH|done].
Qed.

(** A copy during which the scanner never stops: every frame is written, and
    the goroutine is left in a read. *)
Lemma StdCopy_short (fs : list Frame) :
  forall sinks pending size emptyReads lines pending' size',
    Forall (fun f => f <> StderrFrame "") fs ->
    scanBytes (stderrBytes fs) pending size = (lines, Waiting pending' size') ->
    exists emptyReads',
      StdCopy fs sinks (Scanning pending size emptyReads)
      = ({| cout := writeTo (cout sinks) (stdoutBytes fs);
            cerr := writeTo (cerr sinks) (stderrBytes fs);
            errors := scanErrors lines (errors sinks);
            containerExit := containerExit sinks |},
         Some (Scanning pending' size' emptyReads')).
Proof.
  induction fs as [|f fs IH];
    intros sinks pending size emptyReads lines pending' size' Hframes Hscan.
  - simpl in *. injection Hscan as <- <- <-. exists emptyReads.
    rewrite !writeTo_nil. by destruct sinks.
  - apply Forall_cons in Hframes as [Hf Hframes].
    destruct f as [payload|payload].
    + destruct (IH {| cout := writeTo (cout sinks) payload;
                      cerr := cerr sinks; errors := errors sinks;
                      containerExit := containerExit sinks |}
                  pending size emptyReads lines pending' size' Hframes Hscan)
        as (k & Hcopy).
      exists k. simpl StdCopy. rewrite Hcopy. simpl.
      by rewrite writeTo_app.
    + change (stderrBytes (StderrFrame payload :: fs))
        with (payload +:+ stderrBytes fs) in Hscan.
      rewrite scanBytes_app in Hscan.
      destruct (scanBytes payload pending size) as [lines1 [p1 n1|unread]]
        eqn:Hfirst; [|done].
      destruct (scanBytes (stderrBytes fs) p1 n1) as [lines2 st] eqn:Hrest.
      injection Hscan as <- ->.
      destruct (IH {| cout := cout sinks;
                      cerr := writeTo (cerr sinks) payload;
                      errors := scanErrors lines1 (errors sinks);
                      containerExit := containerExit sinks |}
                  p1 n1 0 lines2 pending' size' Hframes Hrest)
        as (k & Hcopy).
      exists k. simpl StdCopy. unfold pipeWrite.
      destruct payload as [|c payload]; [done|].
      rewrite Hfirst. rewrite Hcopy. simpl.
      by rewrite writeTo_app, scanErrors_app.
Qed.

Lemma scanErrors_last (lines : list string) (last : string)
    (collected : option (list string)) :
  scanErrors
    match rev (String.list_ascii_of_string last) with
    | [] => []
    | c :: pending => [last]
    end (scanErrors lines collected)
  = scanErrors (lines ++ [last]) collected.
Proof.
  rewrite scanErrors_app.
  destruct last as [|c last]; [|by destruct (rev _) eqn:Hrev;
    [apply (f_equal (@length ascii)) in Hrev; rewrite length_rev in Hrev|]].
  simpl. by destruct (scanErrors lines collected).
Qed.

(** [readContainerLogs] on a stream whose stderr lines all fit the buffer of
    the scanner. *)
Lemma readContainerLogs_short (fs : list Frame) (ending : option error)
    (sinks : LogSinks) (eol : string) (lines : list string) (last : string) :
  eol = String "010" "" \/ eol = String "013" (String "010" "") ->
  Forall (fun f => f <> StderrFrame "") fs ->
  stderrBytes fs = foldr (fun line acc => line +:+ eol +:+ acc) last lines ->
  Forall (fun line =>
            hasNewline line = false /\ endsWithCR line = false /\
            Z.of_nat (String.length line + String.length eol) <= 65536)
    lines ->
  hasNewline last = false /\ endsWithCR last = false /\
  Z.of_nat (String.length last) < 65536 ->
  readContainerLogs (Ok {| frames := fs; copyErr := ending |}) sinks
  = ({| cout := writeTo (cout sinks) (stdoutBytes fs);
        cerr := writeTo (cerr sinks) (stderrBytes fs);
        errors := scanErrors (lines ++ [last]) (errors sinks);
        containerExit := match ending with
                         | Some _ => containerExit sinks
                         | None => true
                         end |}, true).
Proof.
  intros Heol Hframes Hbytes Hlines (Hplain & Hcr & Hfits).
  pose proof (scanBytes_lines eol lines last Heol Hlines Hplain Hfits) as Hscan.
  rewrite <- Hbytes in Hscan.
  destruct (StdCopy_short fs sinks [] 0 0 _ _ _ Hframes Hscan) as (k & Hcopy).
  unfold readContainerLogs. simpl frames. rewrite Hcopy. simpl.
  f_equal. f_equal.
  rewrite <- scanErrors_last.
  destruct (rev (String.list_ascii_of_string last)) as [|c pending] eqn:Hrev; [done|].
  rewrite <- Hrev. by rewrite (lineText_plain _ Hcr).
Qed.

(** The same stream followed by a stderr frame that holds 64 KiB or more
    without a newline and then something more: the copy is held in the write
    of that frame. *)
Lemma readContainerLogs_stalled (fs after : list Frame)
    (ending : option error) (sinks : LogSinks) (eol : string)
    (lines : list string) (last long rest : string) :
  eol = String "010" "" \/ eol = String "013" (String "010" "") ->
  Forall (fun f => f <> StderrFrame "") fs ->
  stderrBytes fs = foldr (fun line acc => line +:+ eol +:+ acc) last lines ->
  Forall (fun line =>
            hasNewline line = false /\ endsWithCR line = false /\
            Z.of_nat (String.length line + String.length eol) <= 65536)
    lines ->
  hasNewline last = false /\ endsWithCR last = false /\
  Z.of_nat (String.length last) < 65536 ->
  hasNewline long = false ->
  65536 <= Z.of_nat (String.length long) ->
  rest <> "" ->
  readContainerLogs
    (Ok {| frames := fs ++ StderrFrame (long +:+ rest) :: after;
           copyErr := ending |}) sinks
  = ({| cout := writeTo (cout sinks) (stdoutBytes fs);
        cerr := writeTo (cerr sinks) (stderrBytes fs +:+ long +:+ rest);
        errors := scanErrors lines (errors sinks);
        containerExit := containerExit sinks |}, false).
Proof.
  intros Heol Hframes Hbytes Hlines (Hplain & Hcr & Hfits) Hlong Hsize Hrest.
  pose proof (scanBytes_lines eol lines last Heol Hlines Hplain Hfits) as Hscan.
  rewrite <- Hbytes in Hscan.
  destruct (StdCopy_short fs sinks [] 0 0 _ _ _ Hframes Hscan) as (k & Hcopy).
  unfold readContainerLogs. simpl frames.
  rewrite StdCopy_app, Hcopy. simpl StdCopy.
  destruct (scanBytes_long long rest (rev (String.list_ascii_of_string last))
              (Z.of_nat (String.length last)) Hlong)
    as (unread & Hstop); [unfold maxScanTokenSize; lia..|].
  unfold copyFrame, pipeWrite.
  assert (long +:+ rest <> "") as Hpayload.
  { destruct long; [simpl in Hsize; lia|done]. }
  destruct (long +:+ rest) as [|c payload] eqn:Hwrite; [done|].
  rewrite Hstop.
  assert (unread +:+ rest <> "") as Hunread.
  { destruct unread; [done|discriminate]. }
  destruct (unread +:+ rest); [done|]. simpl.
  by rewrite writeTo_app, <- Hwrite.
Qed.

Lemma StdCopy_no_collector (fs : list Frame) :
  forall sinks r,
    errors sinks = None -> errors (fst (StdCopy fs sinks r)) = None.
Proof.
  induction fs as [|f fs IH]; intros sinks r Hnone; [done|].
  simpl. destruct f as [payload|payload]; simpl.
  - by apply IH.
  - destruct (pipeWrite payload r) as [lines [r'|]]; simpl.
    + apply IH. simpl. by rewrite Hnone, scanErrors_none.
    + by rewrite Hnone, scanErrors_none.
Qed.

(** C7: [readContainerLogs] appends to the collector exactly the stderr lines
    that begin with "ERROR", once each and in arrival order, however the
    stream is cut into frames and whether lines end in a newline or in a
    carriage return and a newline, as long as every stderr line fits the
    64 KiB buffer of the scanner.  When a stderr frame brings 64 KiB or more
    without a newline and then more, the scanner stops: no line that arrives
    later is collected, whatever it begins with, and [readContainerLogs]
    never returns.  With no collector nothing is recorded. *)
Theorem error_lines_collected_in_order (fs : list Frame)
    (ending : option error) (sinks : LogSinks) (held : list string)
    (eol : string) (lines : list string) (last : string) :
  let stderrOf (frames : list Frame) :=
    foldr (fun f acc => match f with
                        | StderrFrame payload => payload +:+ acc
                        | StdoutFrame _ => acc
                        end) "" frames in
  eol = String "010" "" \/ eol = String "013" (String "010" "") ->
  Forall (fun f => f <> StderrFrame "") fs ->
  stderrOf fs = foldr (fun line acc => line +:+ eol +:+ acc) last lines ->
  Forall (fun line =>
            hasNewline line = false /\ endsWithCR line = false /\
            Z.of_nat (String.length line + String.length eol) <= 65536)
    lines ->
  hasNewline last = false /\ endsWithCR last = false /\
  Z.of_nat (String.length last) < 65536 ->
  errors sinks = Some held ->
  (let run :=
     readContainerLogs (Ok {| frames := fs; copyErr := ending |}) sinks in
   errors (fst run)
   = Some (held ++ List.filter (String.prefix "ERROR") (lines ++ [last])) /\
   snd run = true) /\
  (forall long rest after,
     hasNewline long = false ->
     65536 <= Z.of_nat (String.length long) ->
     rest <> "" ->
     let run :=
       readContainerLogs
         (Ok {| frames := fs ++ StderrFrame (long +:+ rest) :: after;
                copyErr := ending |}) sinks in
     errors (fst run)
     = Some (held ++ List.filter (String.prefix "ERROR") lines) /\
     snd run = false) /\
  (forall logs sinks',
     errors sinks' = None ->
     errors (fst (readContainerLogs logs sinks')) = None).
Proof.
  intros stderrOf Heol Hframes Hbytes Hlines Hlast Hheld.
  change (stderrOf fs) with (stderrBytes fs) in Hbytes.
  split; [|split].
  - rewrite (readContainerLogs_short fs ending sinks eol lines last) by done.
    simpl. by rewrite Hheld, scanErrors_some.
  - intros long rest after Hlong Hsize Hrest.
    rewrite (readContainerLogs_stalled fs after ending sinks eol lines last
               long rest) by done.
    simpl. by rewrite Hheld, scanErrors_some.
  - intros [clog|e] sinks' Hnone; [|done].
    unfold readContainerLogs.
    pose proof (StdCopy_no_collector (frames clog) sinks' (Scanning [] 0 0)
                  Hnone) as Hcopy.
    destruct (StdCopy (frames clog) sinks' (Scanning [] 0 0))
      as [copied [r|]]; simpl in *; [|done].
    by rewrite Hcopy, scanErrors_none.
Qed.

(** Witness for C7: the log of a server whose initial script names a missing
    table, the error line cut over two frames. *)
Lemma error_lines_collected_in_order_witness :
  errors
    (fst (readContainerLogs
            (Ok {| frames :=
                     [StdoutFrame ("[Entrypoint]: running schema.sql"
                                   +:+ String "010" "");
                      StderrFrame ("[Warning] empty password"
                                   +:+ String "010" ""
                                   +:+ "ERROR 1146 (42S02) at line 2: ");
                      StderrFrame ("Table 'testing.sales' doesn't exist"
                                   +:+ String "010" "")];
                   copyErr := None |})
            (startLogSinks seededConfig)))
  = Some ["ERROR 1146 (42S02) at line 2: Table 'testing.sales' doesn't exist"].
Proof.
  refine (proj1 (proj1 (error_lines_collected_in_order _ None
                          (startLogSinks seededConfig) []
                          (String "010" "")
                          ["[Warning] empty password";
                           "ERROR 1146 (42S02) at line 2: Table 'testing.sales' doesn't exist"]
                          "" _ _ _ _ _ _))).
  - by left.
  - repeat constructor; discriminate.
  - reflexivity.
  - repeat constructor; simpl; lia.
  - repeat split; try (simpl; lia).
  - reflexivity.
Defined.

(** A stderr line of exactly 64 KiB before its newline: the error line that
    follows it in the same frame is not collected, the stdout frame after it
    is not copied, no exit signal is sent and the reader does not return.
    With one byte less the line fits, and everything arrives. *)
Example long_line_scenario :
  let stream (n : Z) :=
    {| frames :=
         [StderrFrame
            (filler n +:+ String "010" ""
             +:+ "ERROR 1146 (42S02): no such table"
             +:+ String "010" "");
          StdoutFrame "ready"];
       copyErr := None |} in
  let sinks :=
    {| cout := Some ""; cerr := None; errors := Some [];
       containerExit := false |} in
  let stalled := readContainerLogs (Ok (stream 65536)) sinks in
  let read := readContainerLogs (Ok (stream 65535)) sinks in
  (errors (fst stalled) = Some [] /\ cout (fst stalled) = Some "" /\
   containerExit (fst stalled) = false /\ snd stalled = false) /\
  (errors (fst read) = Some ["ERROR 1146 (42S02): no such table"] /\
   cout (fst read) = Some "ready" /\
   containerExit (fst read) = true /\ snd read = true).
Proof. vm_compute. repeat split. Qed.

(** The same log with its two writers set: both streams are copied, the exit
    signal is sent, and the reader returns. *)
Example error_log_scenario :
  let clog :=
    {| frames :=
         [StdoutFrame ("[Entrypoint]: running schema.sql" +:+ String "010" "");
          StderrFrame ("[Warning] empty password" +:+ String "010" ""
                       +:+ "ERROR 1146 (42S02) at line 2: ");
          StderrFrame ("Table 'testing.sales' doesn't exist"
                       +:+ String "013" (String "010" ""))];
       copyErr := None |} in
  readContainerLogs (Ok clog)
    {| cout := Some ""; cerr := Some ""; errors := Some [];
       containerExit := false |}
  = ({| cout := Some ("[Entrypoint]: running schema.sql" +:+ String "010" "");
        cerr := Some ("[Warning] empty password" +:+ String "010" ""
                      +:+ "ERROR 1146 (42S02) at line 2: "
                      +:+ "Table 'testing.sales' doesn't exist"
                      +:+ String "013" (String "010" ""));
        errors :=
          Some ["ERROR 1146 (42S02) at line 2: Table 'testing.sales' doesn't exist"];
        containerExit := true |}, true).
Proof. reflexivity. Qed.

(** ** The text of the truncation statement *)

Lemma truncateOperand_truncateQuery (name : string) :
  truncateOperand (truncateQuery name)
  = String backquote (name +:+ String backquote "").
Proof. reflexivity. Qed.

Lemma readQuotedBody_consumes (n : nat) :
  forall s ident after,
    (String.length s <= n)%nat ->
    readQuotedBody s = Some (ident, after) ->
    (String.length ident + String.length after < String.length s)%nat.
Proof.
  induction n as [|n IH]; intros s ident after Hlen Hread.
  - destruct s; simpl in *; [discriminate | lia].
  - destruct s as [|c rest]; simpl in Hread; [discriminate|].
    destruct (Ascii.eqb c backquote).
    + destruct rest as [|c' rest'].
      * injection Hread as <- <-. simpl. lia.
      * destruct (Ascii.eqb c' backquote).
        -- destruct (readQuotedBody rest') as [[i a]|] eqn:Hrec; [|discriminate].
           injection Hread as <- <-.
           apply IH in Hrec; simpl in *; lia.
        -- injection Hread as <- <-. simpl. lia.
    + destruct (readQuotedBody rest) as [[i a]|] eqn:Hrec; [|discriminate].
      injection Hread as <- <-.
      apply IH in Hrec; simpl in *; lia.
Qed.

Lemma length_append_one (s : string) (c : ascii) :
  String.length (s +:+ String c "") = S (String.length s).
Proof. induction s; simpl; congruence. Qed.

Lemma readQuotedBody_exact_no_backquote (name : string) :
  readQuotedBody (name +:+ String backquote "") = Some (name, EmptyString) ->
  hasBackquote name = false.
Proof.
  induction name as [|c rest IH]; simpl; [done|].
  destruct (Ascii.eqb c backquote) eqn:Hc; simpl.
  - intros Hread. exfalso.
    destruct rest as [|c' rest']; simpl in Hread; [discriminate|].
    destruct (Ascii.eqb c' backquote) eqn:Hc'; [|discriminate].
    destruct (readQuotedBody (rest' +:+ String backquote "")) as [[i a]|] eqn:Hrec;
      [|discriminate].
    assert (i = String c' rest' /\ a = EmptyString) as [-> ->]
      by (split; congruence).
    apply (readQuotedBody_consumes _ _ _ _ (Nat.le_refl _)) in Hrec.
    rewrite length_append_one in Hrec.
    simpl in Hrec. lia.
  - intros Hread.
    destruct (readQuotedBody (rest +:+ String backquote "")) as [[i a]|] eqn:Hrec;
      [|discriminate].
    injection Hread as -> ->. by apply IH.
Qed.

Lemma readQuotedBody_plain (name : string) :
  hasBackquote name = false ->
  readQuotedBody (name +:+ String backquote "") = Some (name, EmptyString).
Proof.
  induction name as [|c rest IH]; simpl; [done|].
  destruct (Ascii.eqb c backquote); simpl; [discriminate|].
  intros Hrest. by rewrite IH.
Qed.

(** C10: both cleaners send the table name verbatim between two backquotes,
    as the text [TRUNCATE TABLE `<name>`]; a name that holds a backquote
    gives a statement whose quoted identifier is not that name (it ends
    early, is left open, or reads as another name), while a name without one
    is read back exactly. *)
Theorem truncate_statement_is_verbatim (name : string) (b : MySQLBox)
    (env : Env) (tr : Trace) :
  truncateQuery name = "TRUNCATE TABLE `" +:+ name +:+ "`" /\
  (exists rest,
     snd (CleanTables (Some b) [name] env tr)
     = tr ++ EvExec ("TRUNCATE TABLE `" +:+ name +:+ "`") :: rest) /\
  (dbQuery env (tr ++ [EvQuery catalogQuery (databaseName b)])
     = Ok [Ok name] ->
   isExcluded (excludedTables (doNotCleanTables b)) name = false ->
   exists rest,
     snd (CleanAllTables (Some b) env tr)
     = tr ++ EvQuery catalogQuery (databaseName b)
          :: EvExec ("TRUNCATE TABLE `" +:+ name +:+ "`") :: rest) /\
  (hasBackquote name = true ->
   readQuotedIdent (truncateOperand (truncateQuery name))
   <> Some (name, EmptyString)) /\
  (hasBackquote name = false ->
   readQuotedIdent (truncateOperand (truncateQuery name))
   = Some (name, EmptyString)).
Proof.
  split; [reflexivity|].
  split.
  { unfold CleanTables, bind, call; simpl. unfold bind, call; simpl.
    destruct (dbExec env _); simpl.
    - eexists. rewrite <- !app_assoc. reflexivity.
    - eexists. reflexivity. }
  split.
  { intros Hq Hex.
    unfold CleanAllTables, bind, call, defer; simpl.
    rewrite Hq; simpl. rewrite Hex. unfold bind, call; simpl.
    destruct (dbExec env _); simpl.
    - eexists. rewrite <- !app_assoc. reflexivity.
    - eexists. rewrite <- !app_assoc. reflexivity. }
  rewrite truncateOperand_truncateQuery. simpl.
  split.
  - intros Hbq Hread. apply readQuotedBody_exact_no_backquote in Hread.
    congruence.
  - apply readQuotedBody_plain.
Qed.

(** Witness for C10: a name with a backquote in the middle. *)
Lemma truncate_statement_is_verbatim_witness :
  readQuotedIdent (truncateOperand (truncateQuery "a`b"))
  <> Some ("a`b", EmptyString).
Proof.
  apply (proj1 (proj2 (proj2 (proj2
           (truncate_statement_is_verbatim "a`b" shopBox readyEnv []))))).
  reflexivity.
Defined.

(** ** Table cleaner *)

Lemma string_app_inv_last (s1 s2 : string) (c : ascii) :
  s1 +:+ String c "" = s2 +:+ String c "" -> s1 = s2.
Proof.
  revert s2. induction s1 as [|a s1 IH]; intros [|b s2]; simpl; try done.
  - destruct s2; simpl; discriminate.
  - destruct s1; simpl; discriminate.
  - intros H. injection H as -> H. f_equal. by apply IH.
Qed.

Lemma truncateQuery_inj (t1 t2 : string) :
  truncateQuery t1 = truncateQuery t2 -> t1 = t2.
Proof.
  unfold truncateQuery. simpl. intros H.
  injection H as H. by apply string_app_inv_last in H.
Qed.

Lemma isExcluded_foldl (names : list string) (m : gmap string bool)
    (table : string) :
  isExcluded (foldl (fun m t => <[t := true]> m) m names) table = true
  <-> isExcluded m table = true \/ table ∈ names.
Proof.
  revert m. induction names as [|n names IH]; intros m; simpl.
  - rewrite elem_of_nil. tauto.
  - rewrite IH, elem_of_cons. unfold isExcluded.
    destruct (decide (n = table)) as [->|Hne].
    + rewrite lookup_insert_eq. simpl. tauto.
    + rewrite lookup_insert_ne by done.
      split; [tauto|]. intros [?|[?|?]]; [tauto|congruence|tauto].
Qed.

Lemma isExcluded_true (names : list string) (table : string) :
  isExcluded (excludedTables names) table = true <-> table ∈ names.
Proof.
  unfold excludedTables. rewrite isExcluded_foldl.
  unfold isExcluded. rewrite lookup_empty. simpl.
  split; [intros [?|?]; [discriminate|done] | tauto].
Qed.

Lemma isExcluded_false (names : list string) (table : string) :
  isExcluded (excludedTables names) table = false <-> table ∉ names.
Proof.
  rewrite <- isExcluded_true.
  destruct (isExcluded (excludedTables names) table); split; congruence.
Qed.

(** One turn of each loop, as an equation on runs. *)
Lemma cleanTablesLoop_cons (table : string) (rest : list string) (env : Env)
    (tr : Trace) :
  cleanTablesLoop (table :: rest) env tr
  = match dbExec env (tr ++ [truncation table]) with
    | Some e =>
        cleanTablesLoop rest env
          (tr ++ [truncation table; EvStderr (truncateFailedLine table e)])
    | None => cleanTablesLoop rest env (tr ++ [truncation table])
    end.
Proof.
  simpl. unfold bind, call, emit. simpl.
  destruct (dbExec env _); simpl; [|done].
  by rewrite <- app_assoc.
Qed.

Lemma cleanAllRows_cons (excluded : gmap string bool) (table : string)
    (rest : list (Result string)) (env : Env) (tr : Trace) :
  cleanAllRows excluded (Ok table :: rest) env tr
  = if isExcluded excluded table then cleanAllRows excluded rest env tr
    else match dbExec env (tr ++ [truncation table]) with
         | Some e => (Panicked e, tr ++ [truncation table])
         | None => cleanAllRows excluded rest env (tr ++ [truncation table])
         end.
Proof.
  simpl. destruct (isExcluded excluded table); [done|].
  unfold bind, call. simpl. by destruct (dbExec env _).
Qed.

Lemma cleanTablesLoop_returns (tables : list string) (env : Env) (tr : Trace) :
  fst (cleanTablesLoop tables env tr) = Returned tt.
Proof.
  revert tr. induction tables as [|t rest IH]; intros tr; [done|].
  rewrite cleanTablesLoop_cons. by destruct (dbExec env _).
Qed.

Lemma cleanTablesLoop_chunks (tables : list string) (env : Env) (tr : Trace) :
  exists chunks,
    snd (cleanTablesLoop tables env tr) = tr ++ concat chunks /\
    length chunks = length tables /\
    forall i table,
      tables !! i = Some table ->
      let request := EvExec ("TRUNCATE TABLE `" +:+ table +:+ "`") in
      chunks !! i
      = Some match dbExec env ((tr ++ concat (take i chunks)) ++ [request]) with
             | Some e =>
                 [request;
                  EvStderr ("truncate table failed (" +:+ table +:+ "): "
                            +:+ Error e +:+ String "010" "")]
             | None => [request]
             end.
Proof.
  revert tr. induction tables as [|t rest IH]; intros tr.
  - exists []. simpl. rewrite app_nil_r. repeat split. by intros i table.
  - set (first :=
           match dbExec env (tr ++ [truncation t]) with
           | Some e => [truncation t; EvStderr (truncateFailedLine t e)]
           | None => [truncation t]
           end).
    assert (cleanTablesLoop (t :: rest) env tr
            = cleanTablesLoop rest env (tr ++ first)) as ->.
    { rewrite cleanTablesLoop_cons. subst first. by destruct (dbExec env _). }
    destruct (IH (tr ++ first)) as (chunks & Htr & Hlen & Hchunks).
    exists (first :: chunks).
    split; [by rewrite Htr, <- app_assoc|].
    split; [simpl; by rewrite Hlen|].
    intros [|i] table Hlook; simpl in Hlook.
    + injection Hlook as <-. simpl. by rewrite app_nil_r.
    + specialize (Hchunks i table Hlook). simpl in *.
      rewrite Hchunks. by rewrite <- !app_assoc.
Qed.

(** C6: on a started instance, [CleanTables] sends one truncation per given
    name, in the order given and whatever the exclusion set holds: its run is
    one piece per name, the statement TRUNCATE TABLE `<name>` and, exactly when
    that statement fails, the line "truncate table failed (<name>): <error>"
    on standard error; the loop goes on after a failure and the call returns
    nil in every case. *)
Theorem clean_tables_is_best_effort (b : MySQLBox) (tables : list string)
    (env : Env) (tr : Trace) :
  fst (CleanTables (Some b) tables env tr) = Returned None /\
  exists chunks,
    snd (CleanTables (Some b) tables env tr) = tr ++ concat chunks /\
    length chunks = length tables /\
    forall i table,
      tables !! i = Some table ->
      let request := EvExec ("TRUNCATE TABLE `" +:+ table +:+ "`") in
      chunks !! i
      = Some match dbExec env ((tr ++ concat (take i chunks)) ++ [request]) with
             | Some e =>
                 [request;
                  EvStderr ("truncate table failed (" +:+ table +:+ "): "
                            +:+ Error e +:+ String "010" "")]
             | None => [request]
             end.
Proof.
  unfold CleanTables, bind.
  pose proof (cleanTablesLoop_returns tables env tr) as Hret.
  destruct (cleanTablesLoop_chunks tables env tr) as (chunks & Htr & Hrest).
  destruct (cleanTablesLoop tables env tr) as [out tr'].
  simpl in Hret, Htr. subst out. simpl.
  split; [done|]. by exists chunks.
Qed.

(** Witness for C6: on the shop instance, truncating categories and a table
    that does not exist returns nil. *)
Lemma clean_tables_is_best_effort_witness :
  fst (CleanTables (Some shopBox) ["categories"; "non_existent"]
         (memEnv shopTables) [])
  = Returned None.
Proof.
  exact (proj1 (clean_tables_is_best_effort shopBox
                  ["categories"; "non_existent"] (memEnv shopTables) [])).
Defined.

(** The same call leaves users at 10 rows and categories at 0, although
    categories is in the exclusion set, and reports the missing table. *)
Example clean_tables_scenario :
  let run :=
    CleanTables (Some shopBox) ["categories"; "non_existent"]
      (memEnv shopTables) [] in
  rowsAfter shopTables (snd run)
  = [("users", 10%nat); ("categories", 0%nat)] /\
  snd run
  = [EvExec "TRUNCATE TABLE `categories`";
     EvExec "TRUNCATE TABLE `non_existent`";
     EvStderr ("truncate table failed (non_existent): "
               +:+ "Table 'testing.non_existent' doesn't exist"
               +:+ String "010" "")].
Proof. split; reflexivity. Qed.

Lemma cleanAllRows_only_targets (excluded : gmap string bool)
    (rows : list (Result string)) (env : Env) (tr : Trace) :
  exists new,
    snd (cleanAllRows excluded rows env tr) = tr ++ new /\
    fst (cleanAllRows excluded rows env tr) <> OutOfFuel /\
    Forall (fun ev => exists table,
              ev = truncation table /\ Ok table ∈ rows /\
              isExcluded excluded table = false) new.
Proof.
  revert tr. induction rows as [|[table|err] rows IH]; intros tr.
  - exists []. simpl. by rewrite app_nil_r.
  - rewrite cleanAllRows_cons.
    destruct (isExcluded excluded table) eqn:Hex.
    + destruct (IH tr) as (new & Htr & Hout & Hall).
      exists new. repeat split; [done..|].
      eapply Forall_impl; [exact Hall|].
      intros ev (t & ? & ? & ?). exists t. by rewrite elem_of_cons; auto.
    + assert (exists t, truncation table = truncation t /\
                Ok t ∈ Ok table :: rows /\ isExcluded excluded t = false)
        as Hhead by (exists table; rewrite elem_of_cons; auto).
      destruct (dbExec env _).
      * exists [truncation table]. simpl. repeat split; [done|].
        by constructor.
      * destruct (IH (tr ++ [truncation table])) as (new & Htr & Hout & Hall).
        exists (truncation table :: new).
        split; [by rewrite Htr, <- app_assoc|]. split; [done|].
        constructor; [done|].
        eapply Forall_impl; [exact Hall|].
        intros ev (t & ? & ? & ?). exists t. by rewrite elem_of_cons; auto.
  - exists []. simpl. rewrite app_nil_r. repeat split; [done|constructor].
Qed.

Lemma filter_not_excluded_cons (b : MySQLBox) (table : string)
    (tables : list string) :
  cleanTargets b (table :: tables)
  = if isExcluded (excludedTables (doNotCleanTables b)) table
    then cleanTargets b tables else table :: cleanTargets b tables.
Proof.
  unfold cleanTargets. rewrite filter_cons.
  destruct (isExcluded _ table) eqn:Hex.
  - apply isExcluded_true in Hex. by rewrite decide_False by auto.
  - apply isExcluded_false in Hex. by rewrite decide_True.
Qed.

Lemma cleanAllRows_all_succeed (b : MySQLBox) (env : Env)
    (tables : list string) :
  forall tr,
    truncationsSucceed env tr (cleanTargets b tables) ->
    cleanAllRows (excludedTables (doNotCleanTables b)) (map Ok tables) env tr
    = (Returned tt, tr ++ map truncation (cleanTargets b tables)).
Proof.
  induction tables as [|table tables IH]; intros tr Hok.
  - simpl. by rewrite app_nil_r.
  - simpl map. rewrite cleanAllRows_cons.
    rewrite filter_not_excluded_cons in Hok |- *.
    destruct (isExcluded _ table); [by apply IH|].
    pose proof (Hok [] table _ eq_refl) as Hhead. simpl in Hhead.
    rewrite Hhead.
    rewrite IH; [by rewrite <- app_assoc|].
    intros done t rest Hsplit.
    rewrite <- app_assoc.
    apply (Hok (table :: done) t rest). by rewrite Hsplit.
Qed.

Lemma cleanAllRows_first_failure (b : MySQLBox) (env : Env)
    (tables : list string) :
  forall tr pre failing post e,
    cleanTargets b tables = pre ++ failing :: post ->
    truncationsSucceed env tr pre ->
    dbExec env (tr ++ map truncation (pre ++ [failing])) = Some e ->
    cleanAllRows (excludedTables (doNotCleanTables b)) (map Ok tables) env tr
    = (Panicked e, tr ++ map truncation (pre ++ [failing])).
Proof.
  induction tables as [|table tables IH];
    intros tr pre failing post e Hsplit Hok Hfail.
  - by destruct pre.
  - simpl map. rewrite cleanAllRows_cons.
    rewrite filter_not_excluded_cons in Hsplit.
    destruct (isExcluded _ table); [by eapply IH|].
    destruct pre as [|p pre]; simpl in Hsplit; simplify_eq.
    + simpl in Hfail |- *. by rewrite Hfail.
    + pose proof (Hok [] p _ eq_refl) as Hhead. simpl in Hhead.
      rewrite Hhead.
      rewrite (IH (tr ++ [truncation p]) pre failing post e); try done.
      * by rewrite <- app_assoc.
      * intros done t rest Hpre. rewrite <- app_assoc.
        apply (Hok (p :: done) t rest). by rewrite Hpre.
      * rewrite <- app_assoc. exact Hfail.
Qed.

(** [CleanAllTables] on a started instance, in terms of its loop. *)
Lemma CleanAllTables_run (b : MySQLBox) (env : Env) (tr : Trace)
    (rows : list (Result string)) :
  dbQuery env (tr ++ [catalogRequest b]) = Ok rows ->
  CleanAllTables (Some b) env tr
  = match cleanAllRows (excludedTables (doNotCleanTables b)) rows env
            (tr ++ [catalogRequest b]) with
    | (Returned _, tr') => (Returned None, tr' ++ [EvRowsClose])
    | (Panicked e, tr') => (Panicked e, tr' ++ [EvRowsClose])
    | (OutOfFuel, tr') => (OutOfFuel, tr')
    end.
Proof.
  intros Hq. unfold CleanAllTables, bind at 1, call. simpl.
  unfold catalogRequest in Hq. rewrite Hq.
  unfold defer, bind, emit, ret.
  by destruct (cleanAllRows _ rows env _) as [[[]| |] tr'].
Qed.

Lemma truncation_inj (t1 t2 : string) : truncation t1 = truncation t2 -> t1 = t2.
Proof.
  intros H. apply truncateQuery_inj.
  assert (execsOf [truncation t1] = execsOf [truncation t2]) as Hq
    by (by rewrite H).
  unfold execsOf, truncation in Hq. simpl in Hq. congruence.
Qed.

(** C5: [CleanAllTables] sends no statement for a name of the exclusion set,
    whatever the catalog and the server answer; and when the catalog answers
    with a list of tables and no truncation fails, it sends one truncation
    for each listed table outside the exclusion set, in catalog order, and
    returns nil.  With 10 rows in users, 5 in categories and the exclusion
    set {categories}, users ends with 0 rows and categories with 5. *)
Theorem clean_all_truncates_what_is_not_excluded (b : MySQLBox) (env : Env)
    (tr : Trace) :
  (exists new,
     snd (CleanAllTables (Some b) env tr) = tr ++ new /\
     forall table, table ∈ doNotCleanTables b -> truncation table ∉ new) /\
  (forall tables,
     dbQuery env (tr ++ [catalogRequest b]) = Ok (map Ok tables) ->
     truncationsSucceed env (tr ++ [catalogRequest b]) (cleanTargets b tables) ->
     CleanAllTables (Some b) env tr
     = (Returned None,
        tr ++ catalogRequest b :: map truncation (cleanTargets b tables)
           ++ [EvRowsClose])) /\
  rowsAfter shopTables (snd (CleanAllTables (Some shopBox) (memEnv shopTables) []))
  = [("users", 0%nat); ("categories", 5%nat)].
Proof.
  split; [|split; [|reflexivity]].
  - destruct (dbQuery env (tr ++ [catalogRequest b])) as [rows|err] eqn:Hq.
    + rewrite (CleanAllTables_run _ _ _ _ Hq).
      destruct (cleanAllRows_only_targets
                  (excludedTables (doNotCleanTables b)) rows env
                  (tr ++ [catalogRequest b])) as (new & Htr & Hout & Hall).
      destruct (cleanAllRows _ rows env _) as [out tr']. simpl in Htr, Hout.
      exists (catalogRequest b :: new ++ [EvRowsClose]).
      split.
      { subst tr'. destruct out; [| |done]; simpl;
          by rewrite <- !app_assoc. }
      intros table Hin Hel.
      apply elem_of_cons in Hel as [Hel|Hel]; [discriminate|].
      apply elem_of_app in Hel as [Hel|Hel].
      * rewrite Forall_forall in Hall.
        destruct (Hall _ Hel) as (t & Ht & _ & Hex).
        apply truncation_inj in Ht as <-.
        apply isExcluded_false in Hex. contradiction.
      * apply list_elem_of_singleton in Hel. discriminate.
    + exists [catalogRequest b].
      unfold CleanAllTables, bind, call. simpl.
      unfold catalogRequest in Hq. rewrite Hq. simpl.
      split; [done|].
      intros table _ Hel. apply list_elem_of_singleton in Hel. discriminate.
  - intros tables Hq Hok.
    rewrite (CleanAllTables_run _ _ _ _ Hq).
    rewrite (cleanAllRows_all_succeed _ _ _ _ Hok).
    by rewrite <- !app_assoc.
Qed.

(** Witness for C5: the shop instance on its in-memory server. *)
Lemma clean_all_truncates_what_is_not_excluded_witness :
  CleanAllTables (Some shopBox) (memEnv shopTables) []
  = (Returned None,
     [catalogRequest shopBox; truncation "users"; EvRowsClose]).
Proof.
  apply (proj1 (proj2 (clean_all_truncates_what_is_not_excluded
                         shopBox (memEnv shopTables) []))
           ["users"; "categories"]).
  - reflexivity.
  - intros done table rest Hsplit.
    destruct done as [|? [|? ?]]; vm_compute in Hsplit; simplify_eq.
    reflexivity.
Defined.

(** C2 (as amended): when the catalog answers with a list of tables, the
    first truncation that fails ends the loop: no later table is truncated,
    the deferred close of the rows runs, and [CleanAllTables] panics with
    that failure; the failure is not handed back as the returned error. *)
Theorem clean_all_first_failure_panics (b : MySQLBox) (env : Env) (tr : Trace)
    (tables pre post : list string) (failing : string) (e : error) :
  dbQuery env (tr ++ [catalogRequest b]) = Ok (map Ok tables) ->
  cleanTargets b tables = pre ++ failing :: post ->
  truncationsSucceed env (tr ++ [catalogRequest b]) pre ->
  dbExec env (tr ++ catalogRequest b :: map truncation (pre ++ [failing]))
  = Some e ->
  CleanAllTables (Some b) env tr
  = (Panicked e,
     tr ++ catalogRequest b :: map truncation (pre ++ [failing])
        ++ [EvRowsClose]).
Proof.
  intros Hq Hsplit Hok Hfail.
  rewrite (CleanAllTables_run _ _ _ _ Hq).
  rewrite (cleanAllRows_first_failure b env tables _ pre failing post e);
    try done.
  - by rewrite <- !app_assoc.
  - by rewrite <- app_assoc.
Qed.

(** Witness for C2: every truncation fails on a server with the tables users
    and orders; the first one ends the call. *)
Lemma clean_all_first_failure_panics_witness :
  CleanAllTables (Some shopBox) fkEnv []
  = (Panicked fkError,
     [catalogRequest shopBox; truncation "users"; EvRowsClose]).
Proof.
  apply (clean_all_first_failure_panics shopBox fkEnv []
           ["users"; "orders"] [] ["orders"] "users" fkError).
  - reflexivity.
  - reflexivity.
  - intros done table rest Hsplit. by destruct done.
  - reflexivity.
Defined.

(** Counterexample for C2 as worded: on that server the failure of the first
    truncation is raised as a panic, so it is not the returned error. *)
Lemma clean_all_failure_is_not_returned :
  CleanAllTables (Some shopBox) fkEnv []
  = (Panicked fkError,
     [catalogRequest shopBox; truncation "users"; EvRowsClose]) /\
  ~ first_failure_is_returned.
Proof.
  split; [reflexivity|].
  intros Hclaim.
  specialize (Hclaim shopBox fkEnv [] ["users"; "orders"] [] ["orders"]
                "users" fkError).
  assert (CleanAllTables (Some shopBox) fkEnv []
          = (Returned (Some fkError),
             [] ++ catalogRequest shopBox
                :: map truncation ([] ++ ["users"]) ++ [EvRowsClose]))
    as Hrun.
  { apply Hclaim; try reflexivity.
    intros done table rest Hsplit. by destruct done. }
  vm_compute in Hrun. discriminate.
Qed.

(** ** Stop *)

Lemma Stop_run (b : MySQLBox) (env : Env) (tr : Trace) :
  Stop (Some b) env tr
  = match ContainerStop env (tr ++ [stopRequest b]) with
    | Some e => (Returned (Some e), tr ++ [stopRequest b] ++ cleanupEvents b)
    | None =>
        (Returned
           match ContainerWait env
                   (tr ++ [stopRequest b; waitRemovedRequest b]) with
           | WaitBody => None
           | WaitError err => if isNotFound err then None else Some err
           end,
         tr ++ [stopRequest b; waitRemovedRequest b] ++ cleanupEvents b)
    end.
Proof.
  unfold Stop, defer, bind, stopContainer, call, cleanupFiles, cleanupEvents,
    stopRequest, waitRemovedRequest, containerStopTimeoutDur.
  simpl.
  destruct (ContainerStop env _) as [e|]; simpl.
  - destruct (schemaFile b); unfold bind, emit, ret; simpl;
      rewrite <- ?app_assoc; simpl; by rewrite ?app_nil_r.
  - rewrite <- !app_assoc. simpl.
    destruct (ContainerWait env _) as [|err]; [|destruct (isNotFound err)];
      simpl; destruct (schemaFile b); unfold bind, emit, ret; simpl;
      rewrite <- ?app_assoc; simpl; by rewrite ?app_nil_r.
Qed.

(** C8: [Stop] asks the runtime to stop the container with a grace period of
    60 s and, when that request succeeds, waits for the removed condition: a
    body on the message channel or a not-found error make [Stop] return nil,
    any other error of the wait is returned as it is.  In each case the two
    requests are sent in this order and the files are cleaned up after. *)
Theorem stop_waits_for_removal (b : MySQLBox) (env : Env) (tr : Trace) :
  ContainerStop env (tr ++ [stopRequest b]) = None ->
  let sent := tr ++ [stopRequest b; waitRemovedRequest b] in
  (ContainerWait env sent = WaitBody ->
   Stop (Some b) env tr = (Returned None, sent ++ cleanupEvents b)) /\
  (forall err,
     ContainerWait env sent = WaitError err -> isNotFound err = true ->
     Stop (Some b) env tr = (Returned None, sent ++ cleanupEvents b)) /\
  (forall err,
     ContainerWait env sent = WaitError err -> isNotFound err = false ->
     Stop (Some b) env tr = (Returned (Some err), sent ++ cleanupEvents b)).
Proof.
  intros Hstop sent. rewrite Stop_run, Hstop. subst sent.
  repeat split.
  - intros ->. by rewrite <- app_assoc.
  - intros err -> ->. by rewrite <- app_assoc.
  - intros err -> ->. by rewrite <- app_assoc.
Qed.

(** Witness for C8: the container is already gone when [Stop] waits. *)
Lemma stop_waits_for_removal_witness :
  Stop (Some seededBox)
    (withShutdown None (WaitError (errNotFound "No such container: c0ffee")))
    []
  = (Returned None,
     [EvContainerStop "c0ffee" 60000;
      EvContainerWait "c0ffee" WaitConditionRemoved;
      EvFileClose "/tmp/schema-1.sql"; EvRemove "/tmp/schema-1.sql"]).
Proof.
  apply (proj1 (proj2 (stop_waits_for_removal seededBox
     (withShutdown None (WaitError (errNotFound "No such container: c0ffee")))
     [] eq_refl)) (errNotFound "No such container: c0ffee"));
    reflexivity.
Defined.

(** ** The creation block of Start *)

Ltac flatten_trace := rewrite <- ?app_assoc; simpl.

Lemma pullImage_events (image : string) (env : Env) (tr : Trace) :
  exists new,
    snd (pullImage image env tr) = tr ++ new /\
    fst (pullImage image env tr) <> OutOfFuel /\
    (forall e, fst (pullImage image env tr) <> Panicked e) /\
    countEvents isCreate new = 0%nat /\
    countEvents isPull new = (if String.eqb image "" then 0 else 1)%nat.
Proof.
  unfold pullImage.
  destruct (String.eqb image "").
  - exists []. simpl. by rewrite app_nil_r.
  - unfold defer, bind, emit, call, ret. simpl.
    destruct (ImagePull env _); simpl.
    + eexists. split; [flatten_trace; reflexivity|]. by repeat split.
    + destruct (DisplayJSONMessagesStream env _); simpl.
      * eexists. split; [flatten_trace; reflexivity|]. by repeat split.
      * eexists. split; [flatten_trace; reflexivity|]. by repeat split.
Qed.

(** C3: the creation block sends one creation request; only when that fails
    with not-found does it pull, once, and only when the pull succeeds does
    it send a second and last creation request.  An error it returns is the
    wrapped pull failure or an error with the text of the context and a nil
    operand: the failure of the creation is not inside.  The last conjuncts
    run [Start] against a runtime that refuses the container name. *)
Theorem creation_failure_is_not_carried (c : Config) (envVars : list string)
    (hostPort : string) (mounts : list string) (env : Env) (tr : Trace) :
  let request :=
    EvContainerCreate (Image c) (ContainerName_ c) envVars hostPort mounts in
  let first := ContainerCreate env (tr ++ [request]) in
  let run := createContainer c envVars hostPort mounts None env tr in
  (exists new,
     snd run = tr ++ new /\
     countEvents isPull new
     = (if IsErrNotFound (resultErr first) && negb (String.eqb (Image c) "")
        then 1 else 0)%nat /\
     countEvents isCreate new
     = (if IsErrNotFound (resultErr first)
        then match fst (pullImage (Image c) env (tr ++ [request])) with
             | Returned None => 2
             | _ => 1
             end
        else 1)%nat) /\
  (forall e,
     fst run = Returned (Err e) ->
     (exists pullErr, e = wrapError "failed to pull image" pullErr) \/
     (e = wrapNil "error creating container" /\ Unwrap e = None)) /\
  Start 3 (Some namedConfig) conflictEnv []
  = (Returned (Err (wrapNil "error creating container")),
     [EvNewClient;
      EvContainerCreate "mysql:8" "fixture"
        ["MYSQL_DATABASE=testing"; "MYSQL_ALLOW_EMPTY_PASSWORD=1"] "0" []]) /\
  Error (wrapNil "error creating container")
  = "error creating container: %!w(<nil>)".
Proof.
  intros request first run.
  split; [|split; [|split; reflexivity]].
  - subst run. unfold createContainer. fold request.
    unfold bind at 1. unfold call at 1. simpl. fold first.
    destruct (IsErrNotFound (resultErr first)) eqn:Hnf.
    + unfold bind at 1. unfold bind at 1.
      destruct (pullImage_events (Image c) env (tr ++ [request]))
        as (new & Htr & Hfuel & Hpanic & Hcreate & Hpull).
      destruct (pullImage (Image c) env (tr ++ [request])) as [out tr'].
      simpl in Htr, Hfuel, Hpanic. subst tr'.
      destruct out as [[pe|]|e|]; [| |by destruct (Hpanic e)|done].
      * exists (request :: new). simpl.
        split; [by flatten_trace|].
        unfold countEvents in *. subst request. simpl.
        rewrite Hpull, Hcreate. by destruct (String.eqb (Image c) "").
      * unfold bind, call, ret. simpl.
        exists (request :: new ++ [request]).
        split.
        { flatten_trace.
          by destruct (ContainerCreate env (tr ++ request :: new ++ [request])). }
        unfold countEvents in *. subst request. simpl.
        rewrite !List.filter_app, !length_app. simpl.
        rewrite Hpull, Hcreate. by destruct (String.eqb (Image c) "").
    + exists [request]. unfold bind, ret. simpl.
      split; [by destruct first|]. done.
  - intros e. subst run. unfold createContainer. fold request.
    unfold bind at 1. unfold call at 1. simpl. fold first.
    destruct (IsErrNotFound (resultErr first)) eqn:Hnf.
    + unfold bind at 1. unfold bind at 1.
      destruct (pullImage (Image c) env (tr ++ [request])) as [out tr'].
      destruct out as [[pe|]|pe|]; simpl; try discriminate.
      * intros [= <-]. left. by eexists.
      * unfold bind, call, ret. simpl.
        destruct (ContainerCreate env (tr' ++ [request])); simpl;
          [discriminate|].
        intros [= <-]. by right.
    + unfold bind, ret. simpl. destruct first; simpl; [discriminate|].
      intros [= <-]. by right.
Qed.

(** The retry path: the image is absent, the pull succeeds, the second
    creation is refused.  One pull, two creation requests, and the same
    error without a cause. *)
Example pull_then_conflict_scenario :
  let run := Start 3 (Some namedConfig) pullThenConflictEnv [] in
  fst run = Returned (Err (wrapNil "error creating container")) /\
  countEvents isPull (snd run) = 1%nat /\
  countEvents isCreate (snd run) = 2%nat.
Proof. repeat split. Qed.

(** ** What a computation can add to the trace *)

Section EmitsOnly.
Variable P : Event -> Prop.

Lemma emitsOnly_ret {A} (a : A) : emitsOnly P (ret a).
Proof. intros env tr. exists []. simpl. by rewrite app_nil_r. Qed.

Lemma emitsOnly_panic {A} (e : error) : emitsOnly P (panic (A := A) e).
Proof. intros env tr. exists []. simpl. by rewrite app_nil_r. Qed.

Lemma emitsOnly_outOfFuel {A} : emitsOnly P (outOfFuel (A := A)).
Proof. intros env tr. exists []. simpl. by rewrite app_nil_r. Qed.

Lemma emitsOnly_ask : emitsOnly P ask.
Proof. intros env tr. exists []. simpl. by rewrite app_nil_r. Qed.

Lemma emitsOnly_history : emitsOnly P history.
Proof. intros env tr. exists []. simpl. by rewrite app_nil_r. Qed.

Lemma emitsOnly_call {A} (ev : Event) (oracle : Env -> Trace -> A) :
  P ev -> emitsOnly P (call ev oracle).
Proof. intros Hev env tr. exists [ev]. simpl. split; [done|]. by constructor. Qed.

Lemma emitsOnly_emit (ev : Event) : P ev -> emitsOnly P (emit ev).
Proof. intros Hev env tr. exists [ev]. simpl. split; [done|]. by constructor. Qed.

Lemma emitsOnly_bind {A B} (m : M A) (k : A -> M B) :
  emitsOnly P m -> (forall a, emitsOnly P (k a)) -> emitsOnly P (bind m k).
Proof.
  intros Hm Hk env tr. unfold bind.
  destruct (Hm env tr) as (new1 & Htr1 & Hall1).
  destruct (m env tr) as [[a|e|] tr1]; simpl in Htr1; subst tr1.
  - destruct (Hk a env (tr ++ new1)) as (new2 & Htr2 & Hall2).
    exists (new1 ++ new2). rewrite Htr2, <- app_assoc.
    split; [done|]. by apply Forall_app.
  - by exists new1.
  - by exists new1.
Qed.

Lemma emitsOnly_defer {A} (cleanup : M unit) (body : M A) :
  emitsOnly P cleanup -> emitsOnly P body -> emitsOnly P (defer cleanup body).
Proof.
  intros Hc Hb env tr. unfold defer.
  destruct (Hb env tr) as (new1 & Htr1 & Hall1).
  destruct (body env tr) as [out tr1]; simpl in Htr1; subst tr1.
  destruct (Hc env (tr ++ new1)) as (new2 & Htr2 & Hall2).
  destruct (cleanup env (tr ++ new1)) as [[[]|e|] tr2]; simpl in Htr2;
    subst tr2;
    destruct out; try (by exists new1);
    exists (new1 ++ new2); rewrite <- app_assoc;
    (split; [done|by apply Forall_app]).
Qed.

Lemma emitsOnly_ping (deadline : Z) :
  (forall took, P (EvPing took)) -> emitsOnly P (ping deadline).
Proof.
  intros Hev env tr. unfold ping.
  destruct (PingContext env tr deadline) as [took err].
  exists [EvPing took]. simpl. split; [done|]. by constructor.
Qed.

Lemma emitsOnly_select :
  P EvExitSignalReceived -> emitsOnly P selectContainerClosed.
Proof.
  intros Hev env tr. unfold selectContainerClosed.
  destruct (exitPending env tr).
  - exists [EvExitSignalReceived]. simpl. split; [done|]. by constructor.
  - exists []. simpl. by rewrite app_nil_r.
Qed.
End EmitsOnly.

Ltac emits_step :=
  first
    [ apply emitsOnly_ret | apply emitsOnly_panic | apply emitsOnly_outOfFuel
    | apply emitsOnly_ask | apply emitsOnly_history
    | apply emitsOnly_call; done | apply emitsOnly_emit; done
    | apply emitsOnly_ping; done | apply emitsOnly_select; done
    | apply emitsOnly_bind; [|intros ?]
    | apply emitsOnly_defer
    | match goal with
      | |- emitsOnly _ (match ?x with _ => _ end) => destruct x
      end ].

Lemma pollDB_keeps_files (fuel : nat) (deadline : Z) :
  emitsOnly (fun ev => isRemove ev = false) (pollDB fuel deadline).
Proof.
  induction fuel as [|fuel IH]; simpl; [apply emitsOnly_outOfFuel|].
  repeat emits_step. exact IH.
Qed.

Lemma provision_keeps_files (c : option Config) :
  emitsOnly (fun ev => isRemove ev = false) (provision c).
Proof.
  unfold provision, writeSchemaFile, createContainer, pullImage,
    containerMySQLPort, connectDB.
  cbv zeta.
  repeat emits_step.
Qed.

Lemma Start_keeps_files (fuel : nat) (c : option Config) :
  emitsOnly (fun ev => isRemove ev = false) (Start fuel c).
Proof.
  unfold Start, waitForDB.
  apply emitsOnly_bind; [apply provision_keeps_files|intros r].
  repeat emits_step. apply pollDB_keeps_files.
Qed.

(** [Stop] on a started instance that owns a script file closes and removes
    that file once, however the shutdown itself ends. *)
Lemma Stop_removes_script_file_once (b : MySQLBox) (file : string) (env : Env)
    (tr : Trace) :
  schemaFile b = Some file ->
  exists new,
    snd (Stop (Some b) env tr) = tr ++ new /\
    List.filter isRemove new = [EvRemove file].
Proof.
  intros Hfile. rewrite Stop_run. unfold cleanupEvents. rewrite Hfile.
  destruct (ContainerStop env _); simpl; by eexists.
Qed.

(** C4: [Start] never removes the script file: it sends no removal on any of
    its paths, so a file it has written is still there when it returns an
    error.  The second conjunct runs [Start] with a script that makes the
    container exit: the file is created and filled, the error is returned,
    and nothing is closed or removed. *)
Theorem start_leaves_script_file_behind (fuel : nat) (c : option Config)
    (env : Env) (tr : Trace) :
  (exists new,
     snd (Start fuel c env tr) = tr ++ new /\
     Forall (fun ev => isRemove ev = false) new) /\
  Start 61 (Some seededConfig) crashedEnv []
  = (Returned (Err errContainerClosed),
     [EvTempFile "schema-*.sql";
      EvCopy "/tmp/schema-1.sql" "SELECT * FROM sales WHERE id = 1;";
      EvNewClient;
      EvContainerCreate "mysql:8" "fixture"
        ["MYSQL_DATABASE=testing"; "MYSQL_ALLOW_EMPTY_PASSWORD=1"] "0"
        ["/tmp/schema-1.sql"];
      EvSetLogger; EvContainerStart "c0ffee";
      EvGoReadContainerLogs "c0ffee"; EvContainerInspect "c0ffee";
      EvSqlOpen "root@tcp(127.0.0.1:49153)/testing?parseTime=true";
      EvPing 100; EvSleep 500; EvExitSignalReceived]).
Proof. split; [apply Start_keeps_files|reflexivity]. Qed.

(** ** Readiness polling *)

(** One turn of the loop, as an equation on runs. *)
Lemma pollDB_step (fuel : nat) (deadline : Z) (env : Env) (tr : Trace) :
  pollDB (S fuel) deadline env tr
  = let took := fst (PingContext env tr deadline) in
    match snd (PingContext env tr deadline) with
    | None => (Returned None, tr ++ [EvPing took])
    | Some e =>
        if isDeadlineExceeded e
        then (Returned (Some errCouldNotConnect), tr ++ [EvPing took])
        else if exitPending env (roundTrace env deadline tr)
             then (Returned (Some errContainerClosed),
                   roundTrace env deadline tr ++ [EvExitSignalReceived])
             else pollDB fuel deadline env (roundTrace env deadline tr)
    end.
Proof.
  simpl. unfold bind at 1. unfold ping, roundTrace.
  destruct (PingContext env tr deadline) as [took [e|]]; simpl; [|done].
  destruct (isDeadlineExceeded e); [done|].
  unfold bind, emit, selectContainerClosed. simpl.
  rewrite <- !app_assoc. simpl.
  by destruct (exitPending env _).
Qed.

Lemma afterRounds_succ (env : Env) (deadline : Z) (k : nat) (tr : Trace) :
  afterRounds env deadline (S k) tr
  = roundTrace env deadline (afterRounds env deadline k tr).
Proof.
  revert tr. induction k as [|k IH]; intros tr; [done|].
  change (afterRounds env deadline (S (S k)) tr)
    with (afterRounds env deadline (S k) (roundTrace env deadline tr)).
  by rewrite IH.
Qed.

(** Quiet turns only use up fuel. *)
Lemma pollDB_skip_quiet (env : Env) (deadline : Z) (k : nat) :
  forall fuel tr,
    (forall j, (j < k)%nat ->
               quietRound env deadline (afterRounds env deadline j tr)) ->
    pollDB (k + fuel) deadline env tr
    = pollDB fuel deadline env (afterRounds env deadline k tr).
Proof.
  induction k as [|k IH]; intros fuel tr Hquiet; [done|].
  change (S k + fuel)%nat with (S (k + fuel)).
  rewrite pollDB_step. cbv zeta.
  destruct (Hquiet 0%nat ltac:(lia)) as [Hplain Hempty]. simpl in Hplain, Hempty.
  destruct (snd (PingContext env tr deadline)) as [e|]; [|done].
  simpl in Hplain. apply negb_true_iff in Hplain. rewrite Hplain, Hempty.
  apply IH. intros j Hj. apply (Hquiet (S j)). lia.
Qed.

(** A run that ends went through quiet turns up to its last one. *)
Lemma pollDB_ends_after_quiet (env : Env) (deadline : Z) (fuel : nat) :
  forall tr out,
    fst (pollDB fuel deadline env tr) = Returned out ->
    exists k,
      (k < fuel)%nat /\
      (forall j, (j < k)%nat ->
                 quietRound env deadline (afterRounds env deadline j tr)) /\
      pollDB fuel deadline env tr
      = pollDB (fuel - k) deadline env (afterRounds env deadline k tr) /\
      ~ quietRound env deadline (afterRounds env deadline k tr).
Proof.
  induction fuel as [|fuel IH]; intros tr out Hout; [discriminate|].
  destruct (plainFailure (snd (PingContext env tr deadline))
            && negb (exitPending env (roundTrace env deadline tr))) eqn:Hq.
  - apply andb_true_iff in Hq as [Hplain Hempty].
    apply negb_true_iff in Hempty.
    assert (pollDB (S fuel) deadline env tr
            = pollDB fuel deadline env (roundTrace env deadline tr)) as Hstep.
    { rewrite pollDB_step. cbv zeta.
      destruct (snd (PingContext env tr deadline)) as [e|]; [|done].
      simpl in Hplain. apply negb_true_iff in Hplain.
      by rewrite Hplain, Hempty. }
    rewrite Hstep in Hout.
    destruct (IH _ _ Hout) as (k & Hk & Hquiet & Hrun & Hlast).
    exists (S k). split; [lia|]. split; [|split].
    + intros [|j] Hj; [done|]. apply Hquiet. lia.
    + rewrite Hstep. exact Hrun.
    + exact Hlast.
  - exists 0%nat. split; [lia|]. split; [intros j Hj; lia|].
    split; [by rewrite Nat.sub_0_r|].
    intros [Hplain Hempty]. simpl in Hplain, Hempty.
    by rewrite Hplain, Hempty in Hq.
Qed.

Lemma elapsed_app (tr1 tr2 : Trace) :
  elapsed (tr1 ++ tr2) = elapsed tr1 + elapsed tr2.
Proof.
  induction tr1 as [|ev tr1 IH]; simpl; [done|].
  destruct ev; rewrite ?IH; lia.
Qed.

(** Under a context that is respected the loop ends within the number of
    turns the deadline leaves room for. *)
Lemma pollDB_terminates (env : Env) (deadline : Z) :
  PingRespectsContext env ->
  forall fuel tr,
    (1 <= fuel)%nat ->
    deadline - elapsed tr <= pollInterval * (Z.of_nat fuel - 1) ->
    fst (pollDB fuel deadline env tr) <> OutOfFuel.
Proof.
  intros Hctx fuel. induction fuel as [|fuel IH]; intros tr Hfuel Hroom; [lia|].
  rewrite pollDB_step. cbv zeta.
  destruct (Hctx tr deadline) as (Htook & Hlate & _).
  destruct (snd (PingContext env tr deadline)) as [e|] eqn:Hping; [|done].
  destruct (isDeadlineExceeded e) eqn:Hdl; [done|].
  destruct (exitPending env _); [done|].
  destruct fuel as [|fuel].
  - exfalso. unfold pollInterval in Hroom.
    destruct Hlate as (e' & He' & Hdl'); [lia|]. congruence.
  - apply IH; [lia|].
    unfold roundTrace. rewrite elapsed_app. simpl.
    unfold pollInterval in *. lia.
Qed.

(** When start-up reaches the polling, [Start] ends as the polling does. *)
Lemma Start_polls (fuel : nat) (c : option Config) (env : Env)
    (tr0 tr : Trace) (b : MySQLBox) :
  provision c env tr0 = (Returned (Ok b), tr) ->
  Start fuel c env tr0
  = match pollDB fuel (elapsed tr + startTimeout) env tr with
    | (Returned None, tr') => (Returned (Ok b), tr')
    | (Returned (Some e), tr') => (Returned (Err e), tr')
    | (Panicked e, tr') => (Panicked e, tr')
    | (OutOfFuel, tr') => (OutOfFuel, tr')
    end.
Proof.
  intros Hprov. unfold Start. unfold bind at 1. rewrite Hprov.
  unfold waitForDB, bind, history, ret.
  by destruct (pollDB fuel _ env tr) as [[[e|]| |] tr'].
Qed.

(** C1 (as amended): once start-up has reached the polling, each turn looks
    at its probe first and at the exit channel only after a probe that failed
    for another reason than the deadline and after the sleep of 500 ms.  So,
    after any number of quiet turns: a check that finds the exit signal makes
    [Start] fail with "container closed"; a probe that reports the deadline
    makes it fail with "could not connect to mysql" and a probe that succeeds
    makes it succeed, both whatever the exit channel holds.  The timeout is
    returned only in that way: after quiet turns, by a probe that reports the
    deadline. *)
Theorem start_reports_exit_seen_at_a_check (env : Env) (fuel : nat)
    (c : option Config) (tr0 tr : Trace) (b : MySQLBox) :
  provision c env tr0 = (Returned (Ok b), tr) ->
  let deadline := elapsed tr + startTimeout in
  (forall k,
     (k < fuel)%nat ->
     (forall j, (j < k)%nat ->
                quietRound env deadline (afterRounds env deadline j tr)) ->
     let trk := afterRounds env deadline k tr in
     (plainFailure (snd (PingContext env trk deadline)) = true ->
      exitPending env (roundTrace env deadline trk) = true ->
      fst (Start fuel c env tr0) = Returned (Err errContainerClosed)) /\
     (forall e,
        snd (PingContext env trk deadline) = Some e ->
        isDeadlineExceeded e = true ->
        fst (Start fuel c env tr0) = Returned (Err errCouldNotConnect)) /\
     (snd (PingContext env trk deadline) = None ->
      fst (Start fuel c env tr0) = Returned (Ok b))) /\
  (fst (Start fuel c env tr0) = Returned (Err errCouldNotConnect) ->
   exists k e,
     (k < fuel)%nat /\
     (forall j, (j < k)%nat ->
                quietRound env deadline (afterRounds env deadline j tr)) /\
     snd (PingContext env (afterRounds env deadline k tr) deadline) = Some e /\
     isDeadlineExceeded e = true).
Proof.
  intros Hprov deadline. rewrite (Start_polls _ _ _ _ _ _ Hprov).
  fold deadline. split.
  - intros k Hk Hquiet trk.
    replace fuel with (k + S (fuel - k - 1))%nat by lia.
    rewrite (pollDB_skip_quiet _ _ _ _ _ Hquiet). fold trk.
    rewrite pollDB_step. cbv zeta.
    repeat split.
    + intros Hplain Hpending.
      destruct (snd (PingContext env trk deadline)) as [e|]; [|done].
      simpl in Hplain. apply negb_true_iff in Hplain.
      by rewrite Hplain, Hpending.
    + intros e -> ->. done.
    + intros ->. done.
  - intros Hout.
    destruct (pollDB fuel deadline env tr) as [out tr'] eqn:Hrun.
    assert (out = Returned (Some errCouldNotConnect)) as ->.
    { destruct out as [[e|]| |]; simpl in Hout; congruence. }
    destruct (pollDB_ends_after_quiet env deadline fuel tr
                (Some errCouldNotConnect))
      as (k & Hk & Hquiet & Hskip & Hlast); [by rewrite Hrun|].
    rewrite Hrun in Hskip.
    replace (fuel - k)%nat with (S (fuel - k - 1)) in Hskip by lia.
    rewrite pollDB_step in Hskip. cbv zeta in Hskip.
    destruct (snd (PingContext env (afterRounds env deadline k tr) deadline))
      as [e|] eqn:Hping; [|discriminate].
    exists k, e. split; [done|]. split; [done|]. split; [done|].
    destruct (isDeadlineExceeded e) eqn:Hdl; [done|].
    destruct (exitPending env
                (roundTrace env deadline (afterRounds env deadline k tr)))
      eqn:Hpending; [discriminate|].
    destruct Hlast. split; [|done]. by rewrite Hping; simpl; rewrite Hdl.
Qed.

(** Witness for C1: the script has crashed the server, the container is gone
    at 300 ms, and the first check, at 600 ms, finds the exit signal. *)
Lemma start_reports_exit_seen_at_a_check_witness :
  fst (Start 61 None crashedEnv []) = Returned (Err errContainerClosed).
Proof.
  eapply (proj1 (start_reports_exit_seen_at_a_check crashedEnv 61 None [] _ _
                   eq_refl) 0%nat).
  - lia.
  - intros j Hj. lia.
  - reflexivity.
  - reflexivity.
Defined.

Lemma raceEnv_respects_context : PingRespectsContext raceEnv.
Proof.
  intros tr deadline. simpl.
  destruct (Z.leb_spec deadline (elapsed tr)) as [Hlate|Hearly]; simpl.
  - split; [lia|]. split; [by eexists|]. intros; lia.
  - destruct (Z.ltb_spec (elapsed tr) 600); simpl.
    + split; [lia|]. split; [lia|]. intros e [= <-]. discriminate.
    + split; [lia|]. split; [lia|]. intros; lia.
Qed.

(** Counterexample for C1 as worded: the exit signal is sent at 29950 ms,
    before the deadline of 30000 ms, and no probe ever succeeds; the probe in
    flight reports the deadline and [Start] fails with "could not connect to
    mysql". *)
Lemma exit_during_last_probe_gives_timeout :
  exitAt raceEnv = Some 29950 /\
  29950 < startTimeout /\
  PingRespectsContext raceEnv /\
  Start 61 None raceEnv []
  = (Returned (Err errCouldNotConnect),
     [EvNewClient;
      EvContainerCreate "mysql:8" "mysqlbox-4f2a"
        ["MYSQL_DATABASE=testing"; "MYSQL_ALLOW_EMPTY_PASSWORD=1"] "0" [];
      EvSetLogger; EvContainerStart "c0ffee";
      EvGoReadContainerLogs "c0ffee"; EvContainerInspect "c0ffee";
      EvSqlOpen "root@tcp(127.0.0.1:49153)/testing?parseTime=true";
      EvPing 100; EvSleep 500; EvPing 29400]) /\
  ~ exit_before_deadline_is_reported.
Proof.
  split; [reflexivity|]. split; [reflexivity|].
  split; [apply raceEnv_respects_context|]. split; [reflexivity|].
  intros Hclaim.
  assert (fst (Start 61 None raceEnv []) = Returned (Err errContainerClosed))
    as Hrun.
  { eapply (Hclaim raceEnv 61%nat None [] _ _ 29950).
    - vm_compute. reflexivity.
    - apply raceEnv_respects_context.
    - intros h deadline. simpl.
      destruct (deadline <=? elapsed h); [done|].
      by destruct (elapsed h <? 600).
    - reflexivity.
    - reflexivity.
    - lia. }
  vm_compute in Hrun. discriminate.
Qed.

(** ** Termination of start-up *)

Lemma total_ret {A} (a : A) : total (ret a).
Proof. by intros env tr. Qed.

Lemma total_call {A} (ev : Event) (oracle : Env -> Trace -> A) :
  total (call ev oracle).
Proof. by intros env tr. Qed.

Lemma total_emit (ev : Event) : total (emit ev).
Proof. by intros env tr. Qed.

Lemma total_ask : total ask.
Proof. by intros env tr. Qed.

Lemma total_bind {A B} (m : M A) (k : A -> M B) :
  total m -> (forall a, total (k a)) -> total (bind m k).
Proof.
  intros Hm Hk env tr. unfold bind.
  specialize (Hm env tr).
  destruct (m env tr) as [[a|e|] tr1]; simpl in *; [apply Hk|done|done].
Qed.

Lemma total_defer {A} (cleanup : M unit) (body : M A) :
  total cleanup -> total body -> total (defer cleanup body).
Proof.
  intros Hc Hb env tr. unfold defer.
  specialize (Hb env tr).
  destruct (body env tr) as [out tr1]. simpl in Hb.
  specialize (Hc env tr1).
  destruct (cleanup env tr1) as [[[]|e|] tr2]; simpl in Hc;
    by destruct out.
Qed.

Ltac total_step :=
  first
    [ apply total_ret | apply total_call | apply total_emit | apply total_ask
    | apply total_bind; [|intros ?] | apply total_defer
    | match goal with
      | |- total (match ?x with _ => _ end) => destruct x
      end ].

Lemma provision_total (c : option Config) : total (provision c).
Proof.
  unfold provision, writeSchemaFile, createContainer, pullImage,
    containerMySQLPort, connectDB.
  cbv zeta.
  repeat total_step.
Qed.

(** With probes that respect the context, 61 turns are enough for [Start] to
    end: the deadline leaves room for 60 sleeps of 500 ms. *)
Lemma Start_terminates (env : Env) (fuel : nat) (c : option Config)
    (tr0 : Trace) :
  PingRespectsContext env ->
  (61 <= fuel)%nat ->
  fst (Start fuel c env tr0) <> OutOfFuel.
Proof.
  intros Hctx Hfuel.
  pose proof (provision_total c env tr0) as Hprov.
  destruct (provision c env tr0) as [[[b|e]|e|] tr] eqn:Hrun; simpl in Hprov;
    [|by unfold Start, bind; rewrite Hrun..|done].
  rewrite (Start_polls _ _ _ _ _ _ Hrun).
  assert (fst (pollDB fuel (elapsed tr + startTimeout) env tr) <> OutOfFuel)
    as Hpoll.
  { apply pollDB_terminates; [done|lia|].
    unfold startTimeout, pollInterval. lia. }
  by destruct (pollDB fuel _ env tr) as [[[e|]|e|] tr'].
Qed.

(** ** The earlier variant of Start and the script file *)

Lemma Legacy_pollDB_keeps_files (fuel : nat) (deadline : Z) :
  emitsOnly (fun ev => isRemove ev = false) (Legacy.pollDB fuel deadline).
Proof.
  induction fuel as [|fuel IH]; simpl; [apply emitsOnly_outOfFuel|].
  repeat emits_step. exact IH.
Qed.

Lemma Legacy_startContainer_keeps_files (fuel : nat) (c : Config)
    (tmpf : option string) :
  emitsOnly (fun ev => isRemove ev = false) (Legacy.startContainer fuel c tmpf).
Proof.
  unfold Legacy.startContainer. cbv zeta.
  repeat emits_step. apply Legacy_pollDB_keeps_files.
Qed.

(** The earlier [Start] removes the script file it has created exactly once
    on every path on which it ends, error returns included. *)
Lemma Legacy_Start_removes_script_file_once (fuel : nat) (c : option Config)
    (env : Env) (tr : Trace) (file : string) :
  Legacy.hasScript (LoadDefaults env (default emptyConfig c)) = true ->
  TempFile env (tr ++ [EvTempFile "schema-*.sql"]) = Ok file ->
  fst (Legacy.Start fuel c env tr) <> OutOfFuel ->
  exists new,
    snd (Legacy.Start fuel c env tr) = tr ++ new /\
    List.filter isRemove new = [EvRemove file].
Proof.
  intros Hscript Htemp.
  set (c' := LoadDefaults env (default emptyConfig c)) in *.
  set (body :=
         err <- call (EvCopy file (Legacy.scriptSource c')) ioCopy ;;
         match err with
         | Some e => ret (Err e)
         | None => Legacy.startContainer fuel c' (Some file)
         end).
  assert (Legacy.Start fuel c env tr
          = defer (emit (EvFileClose file) ;;; emit (EvRemove file)) body env
              (tr ++ [EvTempFile "schema-*.sql"])) as ->.
  { unfold Legacy.Start. unfold bind at 1. unfold ask at 1.
    cbv zeta. fold c'. rewrite Hscript.
    unfold bind at 1. unfold call at 1. by rewrite Htemp. }
  assert (emitsOnly (fun ev => isRemove ev = false) body) as Hbody.
  { subst body. repeat emits_step. apply Legacy_pollDB_keeps_files. }
  unfold defer.
  destruct (Hbody env (tr ++ [EvTempFile "schema-*.sql"]))
    as (new & Htr & Hall).
  destruct (body env (tr ++ [EvTempFile "schema-*.sql"])) as [out tr'].
  simpl in Htr. subst tr'.
  assert (List.filter isRemove new = []) as Hnone.
  { clear -Hall. induction Hall as [|ev new Hev _ IH]; [done|].
    simpl. by rewrite Hev. }
  destruct out; simpl; [| |done]; intros _;
    (exists (EvTempFile "schema-*.sql" :: new
             ++ [EvFileClose file; EvRemove file]);
     split; [by rewrite <- !app_assoc|];
     simpl; by rewrite List.filter_app, Hnone).
Qed.

(** * Further properties *)

(** ** Defaults *)

Lemma LoadDefaults_fields (env : Env) (c : Config) :
  LoadDefaults env c
  = {| ContainerName_ :=
         if String.eqb (ContainerName_ c) "" then "mysqlbox-" +:+ randomID env
         else ContainerName_ c;
       Image := if String.eqb (Image c) "" then "mysql:8" else Image c;
       Database := if String.eqb (Database c) "" then "testing" else Database c;
       RootPassword := RootPassword c; MySQLPort := MySQLPort c;
       InitialSQL := InitialSQL c; DoNotCleanTables := DoNotCleanTables c;
       Stdout := Stdout c; Stderr := Stderr c;
       LoggedErrors := LoggedErrors c |}.
Proof.
  destruct c as [name image database pass port script excl out err logged].
  unfold LoadDefaults. simpl.
  destruct (String.eqb image ""); simpl;
    destruct (String.eqb database ""); simpl;
    by destruct (String.eqb name "").
Qed.

Lemma filled_not_blank (s fill : string) :
  String.eqb fill "" = false ->
  String.eqb (if String.eqb s "" then fill else s) "" = false.
Proof. intros Hfill. by destruct (String.eqb s "") eqn:Hs. Qed.

(** X1: [LoadDefaults] fills exactly the blank ones of image, database and
    container name: a field that is set is kept, a blank image becomes
    "mysql:8", a blank database "testing", and a blank name is generated from
    the random id; every other field is kept, none of the three is blank
    afterwards, and loading the defaults twice changes nothing more. *)
Theorem load_defaults_fills_only_blanks (env : Env) (c : Config) :
  let d := LoadDefaults env c in
  Image d = (if String.eqb (Image c) "" then "mysql:8" else Image c) /\
  Database d = (if String.eqb (Database c) "" then "testing" else Database c) /\
  ContainerName_ d
  = (if String.eqb (ContainerName_ c) "" then "mysqlbox-" +:+ randomID env
     else ContainerName_ c) /\
  (RootPassword d, MySQLPort d, InitialSQL d, DoNotCleanTables d, Stdout d,
   Stderr d, LoggedErrors d)
  = (RootPassword c, MySQLPort c, InitialSQL c, DoNotCleanTables c, Stdout c,
     Stderr c, LoggedErrors c) /\
  Image d <> "" /\ Database d <> "" /\ ContainerName_ d <> "" /\
  LoadDefaults env d = d.
Proof.
  intros d. subst d.
  assert (forall s fill, String.eqb fill "" = false ->
            (if String.eqb s "" then fill else s) <> "") as Hne.
  { intros s fill Hfill. apply String.eqb_neq. by apply filled_not_blank. }
  rewrite LoadDefaults_fields at 1. rewrite !LoadDefaults_fields. simpl.
  rewrite !filled_not_blank by reflexivity.
  repeat split; try done; by apply Hne.
Qed.

(** ** A successful start-up *)

Lemma writeSchemaFile_run (c : Config) (env : Env) (tr : Trace) :
  writeSchemaFile c env tr
  = match initialScript c with
    | None => (Returned (Ok None), tr)
    | Some src =>
        match TempFile env (tr ++ [EvTempFile "schema-*.sql"]) with
        | Err e => (Returned (Err e), tr ++ [EvTempFile "schema-*.sql"])
        | Ok f =>
            match ioCopy env (tr ++ [EvTempFile "schema-*.sql"; EvCopy f src])
            with
            | Some e =>
                (Returned (Err e),
                 tr ++ [EvTempFile "schema-*.sql"; EvCopy f src])
            | None =>
                (Returned (Ok (Some f)),
                 tr ++ [EvTempFile "schema-*.sql"; EvCopy f src])
            end
        end
    end.
Proof.
  unfold writeSchemaFile, initialScript.
  destruct (InitialSQL c) as [[b r]|]; [|done]. simpl.
  destruct r as [r|], b as [b|]; simpl; try done;
    unfold bind, call, ret; simpl;
    (destruct (TempFile env _) as [f|e]; [|done]);
    rewrite <- !app_assoc; simpl;
    by destruct (ioCopy env _).
Qed.

Lemma createContainer_ok (c : Config) (envVars : list string)
    (hostPort : string) (mounts : list string) (err : option error)
    (env : Env) (tr tr' : Trace) (id : string) :
  createContainer c envVars hostPort mounts err env tr = (Returned (Ok id), tr') ->
  exists pre,
    tr' = tr ++ pre
          ++ [EvContainerCreate (Image c) (ContainerName_ c) envVars hostPort
                mounts] /\
    ContainerCreate env tr' = Ok id /\
    Forall (fun ev => isProbe ev = false /\ isShutdown ev = false
                      /\ isScriptFileEvent ev = false) pre.
Proof.
  unfold createContainer.
  set (request := EvContainerCreate _ _ _ _ _).
  unfold bind at 1. unfold call at 1.
  destruct (ContainerCreate env (tr ++ [request])) as [id1|e1] eqn:Hfirst;
    simpl.
  - unfold bind, ret. simpl. intros [= <- <-].
    exists []. by repeat split.
  - destruct (isNotFound e1).
    + unfold bind at 1. unfold bind at 1.
      unfold pullImage.
      destruct (String.eqb (Image c) ""); [discriminate|].
      unfold defer, bind, emit, call, ret. simpl.
      destruct (ImagePull env _); [discriminate|].
      destruct (DisplayJSONMessagesStream env _); [discriminate|].
      simpl. rewrite <- !app_assoc. simpl.
      match goal with
      | |- context [ContainerCreate env ?h] =>
          destruct (ContainerCreate env h) as [id2|e2] eqn:Hsecond
      end; [|discriminate].
      intros [= <- <-].
      eexists (request :: _ :: _ :: _ :: _ :: [_]).
      split; [simpl; reflexivity|]. split; [exact Hsecond|].
      subst request. repeat constructor.
    + unfold bind, ret. simpl. discriminate.
Qed.

(** What a successful [provision] has requested, and what it has put into the
    handle. *)
Lemma provision_ok (c : option Config) (env : Env) (tr0 tr : Trace)
    (b : MySQLBox) :
  provision c env tr0 = (Returned (Ok b), tr) ->
  let c' := LoadDefaults env (default emptyConfig c) in
  exists script pre hostPort rest,
    tr = tr0 ++ script ++ EvNewClient :: pre
         ++ createRequest c' (schemaFile b) :: connectEvents b /\
    script = match schemaFile b, initialScript c' with
             | Some f, Some src => [EvTempFile "schema-*.sql"; EvCopy f src]
             | _, _ => []
             end /\
    (is_Some (schemaFile b) <-> is_Some (initialScript c')) /\
    Forall (fun ev => isProbe ev = false /\ isShutdown ev = false
                      /\ isScriptFileEvent ev = false) pre /\
    ContainerCreate env
      (tr0 ++ script ++ EvNewClient :: pre ++ [createRequest c' (schemaFile b)])
    = Ok (containerID b) /\
    ContainerInspect env
      (tr0 ++ script ++ EvNewClient :: pre
       ++ createRequest c' (schemaFile b)
       :: [EvSetLogger; EvContainerStart (containerID b);
           EvGoReadContainerLogs (containerID b);
           EvContainerInspect (containerID b)])
    = Ok (hostPort :: rest) /\
    Atoi hostPort = Ok (port b) /\
    dsn b = FormatDSN "root" (RootPassword c') "tcp"
              ("127.0.0.1:" +:+ formatInt (port b)) (Database c') /\
    databaseName b = Database c' /\
    containerName b = ContainerName_ c' /\
    doNotCleanTables b = DoNotCleanTables c'.
Proof.
  intros Hrun c'. revert Hrun.
  unfold provision. unfold bind at 1. unfold ask at 1. cbv zeta. fold c'.
  unfold bind at 1. rewrite writeSchemaFile_run.
  assert (forall (file : option string) script,
    (file = None /\ initialScript c' = None /\ script = []
     \/ exists f src, file = Some f /\ initialScript c' = Some src
                      /\ script = [EvTempFile "schema-*.sql"; EvCopy f src]) ->
    (err <- call EvNewClient NewClientWithOpts ;;
     match err with
     | Some e => ret (Err e)
     | None =>
         created <-? createContainer c' (containerEnv c')
                       (if MySQLPort c' =? 0 then "0"
                        else formatInt (MySQLPort c'))
                       (match file with Some f => [f] | None => [] end) err ;;
         emit EvSetLogger ;;;
         err <- call (EvContainerStart created) ContainerStart ;;
         match err with
         | Some e => ret (Err e)
         | None =>
             emit (EvGoReadContainerLogs created) ;;;
             port <-? containerMySQLPort created ;;
             dsn <-? connectDB port (Database c') (RootPassword c') ;;
             ret (Ok {| dsn := dsn; databaseName := Database c';
                        containerName := ContainerName_ c';
                        containerID := created; schemaFile := file;
                        port := port;
                        doNotCleanTables := DoNotCleanTables c' |})
         end
     end) env (tr0 ++ script) = (Returned (Ok b), tr) ->
    exists script pre hostPort rest,
      tr = tr0 ++ script ++ EvNewClient :: pre
           ++ createRequest c' (schemaFile b) :: connectEvents b /\
      script = match schemaFile b, initialScript c' with
               | Some f, Some src => [EvTempFile "schema-*.sql"; EvCopy f src]
               | _, _ => []
               end /\
      (is_Some (schemaFile b) <-> is_Some (initialScript c')) /\
      Forall (fun ev => isProbe ev = false /\ isShutdown ev = false
                        /\ isScriptFileEvent ev = false) pre /\
      ContainerCreate env
        (tr0 ++ script ++ EvNewClient :: pre
         ++ [createRequest c' (schemaFile b)])
      = Ok (containerID b) /\
      ContainerInspect env
        (tr0 ++ script ++ EvNewClient :: pre
         ++ createRequest c' (schemaFile b)
         :: [EvSetLogger; EvContainerStart (containerID b);
             EvGoReadContainerLogs (containerID b);
             EvContainerInspect (containerID b)])
      = Ok (hostPort :: rest) /\
      Atoi hostPort = Ok (port b) /\
      dsn b = FormatDSN "root" (RootPassword c') "tcp"
                ("127.0.0.1:" +:+ formatInt (port b)) (Database c') /\
      databaseName b = Database c' /\
      containerName b = ContainerName_ c' /\
      doNotCleanTables b = DoNotCleanTables c') as Hrest.
  { intros file script Hscript.
    unfold bind at 1. unfold call at 1.
    destruct (NewClientWithOpts env _); [discriminate|].
    unfold bind at 1.
    destruct (createContainer _ _ _ _ _ env _) as [[[id|e]|e|] tr1] eqn:Hcreate;
      try discriminate.
    apply createContainer_ok in Hcreate as (pre & -> & Hid & Hpre).
    unfold bind at 1. unfold emit at 1. unfold bind at 1. unfold call at 1.
    destruct (ContainerStart env _); [discriminate|].
    unfold bind at 1. unfold emit at 1. unfold bind at 1.
    unfold containerMySQLPort. unfold bind at 1. unfold call at 1.
    destruct (ContainerInspect env _) as [[|hostPort rest]|e] eqn:Hinspect;
      try discriminate.
    unfold ret at 1.
    destruct (Atoi hostPort) as [p|e] eqn:Hport; [|discriminate].
    unfold bind at 1. unfold connectDB. unfold bind at 1. unfold call at 1.
    destruct (sqlOpen env _); [discriminate|].
    unfold ret. intros [= <- <-]. simpl.
    exists script, pre, hostPort, rest.
    unfold connectEvents, createRequest, containerEnv. simpl.
    repeat (progress (rewrite <- ?app_assoc in *; simpl in * )).
    split; [done|].
    split.
    { destruct Hscript as [(Hf & Hs & Hsc)|(f & src & Hf & Hs & Hsc)];
        subst file script; by rewrite ?Hs. }
    split.
    { destruct Hscript as [(Hf & Hs & Hsc)|(f & src & Hf & Hs & Hsc)];
        subst file script; rewrite Hs;
        split; intros [? ?]; try discriminate; by eexists. }
    by repeat split. }
  destruct (initialScript c') as [src|] eqn:Hsrc.
  - destruct (TempFile env _) as [f|e]; [|discriminate].
    destruct (ioCopy env _); [discriminate|].
    intros Hrun.
    apply (Hrest (Some f) [EvTempFile "schema-*.sql"; EvCopy f src]);
      [right; by exists f, src|exact Hrun].
  - intros Hrun. apply (Hrest None []); [by left|].
    by rewrite app_nil_r.
Qed.

(** ** From a returned handle back to the run *)

Lemma afterRounds_events (env : Env) (deadline : Z) (k : nat) (tr : Trace) :
  exists rounds,
    afterRounds env deadline k tr = tr ++ rounds /\
    Forall (fun ev => isProbe ev = true \/ ev = EvSleep pollInterval) rounds.
Proof.
  revert tr. induction k as [|k IH]; intros tr.
  - exists []. simpl. by rewrite app_nil_r.
  - destruct (IH (roundTrace env deadline tr)) as (rounds & Heq & Hall).
    simpl. rewrite Heq. unfold roundTrace. rewrite <- app_assoc.
    eexists. split; [reflexivity|].
    apply Forall_app. split; [|done].
    constructor; [by left|]. constructor; [by right|]. constructor.
Qed.

(** A poll that ends has gone through turns of one probe and one sleep each,
    and then ends in one of three ways: by a probe that succeeded, by a probe
    that reported the deadline, or by the exit signal found after one more
    failed probe and sleep. *)
Lemma pollDB_ending (env : Env) (deadline : Z) (fuel : nat) (tr : Trace)
    (out : option error) :
  fst (pollDB fuel deadline env tr) = Returned out ->
  exists rounds took,
    Forall (fun ev => isProbe ev = true \/ ev = EvSleep pollInterval) rounds /\
    fst (PingContext env (tr ++ rounds) deadline) = took /\
    ((out = None /\
      snd (PingContext env (tr ++ rounds) deadline) = None /\
      snd (pollDB fuel deadline env tr) = tr ++ rounds ++ [EvPing took]) \/
     (out = Some errCouldNotConnect /\
      (exists e, snd (PingContext env (tr ++ rounds) deadline) = Some e /\
                 isDeadlineExceeded e = true) /\
      snd (pollDB fuel deadline env tr) = tr ++ rounds ++ [EvPing took]) \/
     (out = Some errContainerClosed /\
      plainFailure (snd (PingContext env (tr ++ rounds) deadline)) = true /\
      exitPending env (tr ++ rounds ++ [EvPing took; EvSleep pollInterval])
      = true /\
      snd (pollDB fuel deadline env tr)
      = tr ++ rounds
           ++ [EvPing took; EvSleep pollInterval; EvExitSignalReceived])).
Proof.
  intros Hout.
  destruct (pollDB_ends_after_quiet env deadline fuel tr out Hout)
    as (k & Hk & _ & Hskip & Hlast).
  rewrite Hskip in Hout |- *.
  replace (fuel - k)%nat with (S (fuel - k - 1)) in * by lia.
  rewrite pollDB_step in Hout |- *. cbv zeta in *.
  destruct (afterRounds_events env deadline k tr) as (rounds & Heq & Hall).
  rewrite Heq in *. unfold quietRound, roundTrace in *.
  exists rounds, (fst (PingContext env (tr ++ rounds) deadline)).
  split; [done|]. split; [done|].
  destruct (snd (PingContext env (tr ++ rounds) deadline)) as [e|] eqn:Hping;
    simpl in *.
  - destruct (isDeadlineExceeded e) eqn:Hdl; simpl in *.
    + right. left. injection Hout as <-.
      split; [done|]. split; [by exists e|]. by rewrite <- app_assoc.
    + rewrite <- !app_assoc in *. simpl in *.
      destruct (exitPending env _) eqn:Hpending; simpl in *.
      * right. right. injection Hout as <-.
        repeat split; try done; by rewrite <- ?app_assoc.
      * by destruct Hlast.
  - left. injection Hout as <-.
    repeat split; try done; by rewrite <- ?app_assoc.
Qed.

Lemma provision_quiet (c : option Config) :
  emitsOnly (fun ev => isProbe ev = false /\ isShutdown ev = false
                       /\ isSleep ev = false) (provision c).
Proof.
  unfold provision, writeSchemaFile, createContainer, pullImage,
    containerMySQLPort, connectDB.
  cbv zeta.
  repeat emits_step.
Qed.

Lemma Start_ok_inv (fuel : nat) (c : option Config) (env : Env) (tr0 : Trace)
    (b : MySQLBox) :
  fst (Start fuel c env tr0) = Returned (Ok b) ->
  exists tr,
    provision c env tr0 = (Returned (Ok b), tr) /\
    fst (pollDB fuel (elapsed tr + startTimeout) env tr) = Returned None /\
    snd (Start fuel c env tr0)
    = snd (pollDB fuel (elapsed tr + startTimeout) env tr).
Proof.
  destruct (provision c env tr0) as [[[b'|e]|e|] tr] eqn:Hprov;
    try (unfold Start, bind; rewrite Hprov; discriminate).
  rewrite (Start_polls _ _ _ _ _ _ Hprov).
  destruct (pollDB fuel _ env tr) as [[[e|]|e|] tr'] eqn:Hpoll;
    try discriminate.
  simpl. intros [= ->]. exists tr. by rewrite Hpoll.
Qed.

Lemma Start_without_handle (fuel : nat) (c : option Config) (env : Env)
    (tr0 tr : Trace) (out : Outcome (Result MySQLBox)) :
  provision c env tr0 = (out, tr) ->
  (forall b, out <> Returned (Ok b)) ->
  Start fuel c env tr0 = (out, tr).
Proof.
  intros Hprov Hout. unfold Start. unfold bind at 1. rewrite Hprov.
  destruct out as [[b|e]| |]; try done. by destruct (Hout b).
Qed.

Lemma afterRounds_turns (env : Env) (deadline : Z) (k : nat) (tr : Trace) :
  exists tooks,
    afterRounds env deadline k tr
    = tr ++ concat (map (fun t => [EvPing t; EvSleep 500]) tooks).
Proof.
  revert tr. induction k as [|k IH]; intros tr.
  - exists []. simpl. by rewrite app_nil_r.
  - destruct (IH (roundTrace env deadline tr)) as (tooks & Heq).
    exists (fst (PingContext env tr deadline) :: tooks).
    simpl. rewrite Heq. unfold roundTrace. by rewrite <- app_assoc.
Qed.

Lemma pollDB_ending_turns (env : Env) (deadline : Z) (fuel : nat) (tr : Trace)
    (out : option error) :
  fst (pollDB fuel deadline env tr) = Returned out ->
  exists tooks took,
    let rounds := concat (map (fun t => [EvPing t; EvSleep 500]) tooks) in
    PingContext env (tr ++ rounds) deadline
    = (took, match out with
             | None => None
             | Some _ => snd (PingContext env (tr ++ rounds) deadline)
             end) /\
    ((out = None /\
      snd (pollDB fuel deadline env tr) = tr ++ rounds ++ [EvPing took]) \/
     (out = Some (errorsNew "could not connect to mysql") /\
      snd (pollDB fuel deadline env tr) = tr ++ rounds ++ [EvPing took]) \/
     (out = Some (errorsNew "container closed") /\
      snd (pollDB fuel deadline env tr)
      = tr ++ rounds ++ [EvPing took; EvSleep 500; EvExitSignalReceived])).
Proof.
  intros Hout.
  destruct (pollDB_ends_after_quiet env deadline fuel tr out Hout)
    as (k & Hk & _ & Hskip & Hlast).
  rewrite Hskip in Hout |- *.
  replace (fuel - k)%nat with (S (fuel - k - 1)) in * by lia.
  rewrite pollDB_step in Hout |- *. cbv zeta in *.
  destruct (afterRounds_turns env deadline k tr) as (tooks & Heq).
  rewrite Heq in *. unfold quietRound, roundTrace in *.
  exists tooks, (fst (PingContext env (tr ++ concat
                   (map (fun t => [EvPing t; EvSleep 500]) tooks)) deadline)).
  cbv zeta.
  destruct (PingContext env _ deadline) as [took probe] eqn:Hping.
  simpl in *.
  destruct probe as [e|]; simpl in *.
  - destruct (isDeadlineExceeded e) eqn:Hdl; simpl in *.
    + injection Hout as <-. split; [done|].
      right. left. split; [done|]. by rewrite <- app_assoc.
    + rewrite <- !app_assoc in *. simpl in *.
      destruct (exitPending env _) eqn:Hpending; simpl in *.
      * injection Hout as <-. split; [done|].
        right. right. split; [done|]. by rewrite <- ?app_assoc.
      * by destruct Hlast.
  - injection Hout as <-. split; [done|].
    left. split; [done|]. by rewrite <- app_assoc.
Qed.

Lemma provision_takes_no_exit_signal (c : option Config) :
  emitsOnly (fun ev => ev <> EvExitSignalReceived) (provision c).
Proof.
  unfold provision, writeSchemaFile, createContainer, pullImage,
    containerMySQLPort, connectDB.
  cbv zeta.
  repeat emits_step.
Qed.

(** X2: [Start] hands out a handle only when its last request was a probe
    that succeeded: the run then consists of the provisioning requests, the
    five connection requests for the container of the handle (logger, start,
    log reader, inspect, open), a number of turns, each one probe followed by
    one sleep of 500 ms, and the successful probe, which was given the
    deadline of 30 s after the connection was opened.  No request stops the
    container or waits for it, and no exit signal is taken from the
    channel. *)
Theorem start_returns_handle_after_successful_probe (fuel : nat)
    (c : option Config) (env : Env) (tr0 : Trace) (b : MySQLBox) :
  fst (Start fuel c env tr0) = Returned (Ok b) ->
  exists front tooks took,
    let turns := concat (map (fun t => [EvPing t; EvSleep 500]) tooks) in
    snd (Start fuel c env tr0)
    = tr0 ++ front ++ connectEvents b ++ turns ++ [EvPing took] /\
    Forall (fun ev => isProbe ev = false /\ isShutdown ev = false
                      /\ isSleep ev = false /\ ev <> EvExitSignalReceived)
      front /\
    PingContext env (tr0 ++ front ++ connectEvents b ++ turns)
      (elapsed (tr0 ++ front ++ connectEvents b) + 30000)
    = (took, None).
Proof.
  intros Hok.
  destruct (Start_ok_inv _ _ _ _ _ Hok) as (tr & Hprov & Hready & ->).
  destruct (provision_quiet c env tr0) as (new & Hnew & Hquiet).
  destruct (provision_takes_no_exit_signal c env tr0)
    as (new' & Hnew' & Hreceipt).
  rewrite Hprov in Hnew, Hnew'. simpl in Hnew, Hnew'.
  assert (new' = new) as -> by (apply (app_inv_head tr0); congruence).
  destruct (provision_ok _ _ _ _ _ Hprov)
    as (script & pre & hostPort & rest & Htr & _).
  cbv zeta in Htr.
  set (create := createRequest _ _) in Htr.
  assert (new = (script ++ EvNewClient :: pre ++ [create]) ++ connectEvents b)
    as Hsplit.
  { apply (app_inv_head tr0). rewrite <- Hnew, Htr.
    by rewrite <- !app_assoc; simpl; rewrite <- !app_assoc. }
  destruct (pollDB_ending_turns _ _ _ _ _ Hready)
    as (tooks & took & Hping & [(_ & Hend)|[H|H]]);
    [|destruct H as (? & _); discriminate..].
  exists (script ++ EvNewClient :: pre ++ [create]), tooks, took.
  cbv zeta in *.
  rewrite Hend, Hnew, Hsplit.
  split; [by rewrite <- !app_assoc|].
  split.
  { rewrite Hsplit in Hquiet, Hreceipt.
    apply Forall_app in Hquiet as [Hquiet _].
    apply Forall_app in Hreceipt as [Hreceipt _].
    rewrite Forall_forall in Hquiet, Hreceipt. apply Forall_forall.
    intros ev Hev. destruct (Hquiet ev Hev) as (? & ? & ?).
    repeat split; try done. by apply Hreceipt. }
  assert (tr0 ++ (script ++ EvNewClient :: pre ++ [create]) ++ connectEvents b
          = tr) as Hsame by (by rewrite Hnew, Hsplit).
  rewrite (app_assoc _ (connectEvents b)), (app_assoc tr0), Hsame.
  exact Hping.
Qed.

(** Witness for X2: the default configuration in [readyEnv]. *)
Lemma start_returns_handle_after_successful_probe_witness :
  exists front tooks took,
    let turns := concat (map (fun t => [EvPing t; EvSleep 500]) tooks) in
    snd (Start 3 None readyEnv [])
    = [] ++ front ++ connectEvents readyBox ++ turns ++ [EvPing took] /\
    Forall (fun ev => isProbe ev = false /\ isShutdown ev = false
                      /\ isSleep ev = false /\ ev <> EvExitSignalReceived)
      front /\
    PingContext readyEnv ([] ++ front ++ connectEvents readyBox ++ turns)
      (elapsed ([] ++ front ++ connectEvents readyBox) + 30000)
    = (took, None).
Proof.
  exact (start_returns_handle_after_successful_probe 3 None readyEnv []
           readyBox eq_refl).
Defined.
(** X3: the handle [Start] returns is built from the configuration with its
    defaults loaded and from what the runtime answered: database name,
    container name and exclusion list are the configured ones; the container
    id is the runtime's answer to the last creation request, which carries
    the image, the name, the environment, the host port and the script file
    of the handle as its only mount; the port is the decimal value of the
    first binding the inspection reported; and the descriptor is the one
    built from that port, the database and the root password, and the one
    the connection was opened with. *)
Theorem started_handle_matches_requests (fuel : nat) (c : option Config)
    (env : Env) (tr0 : Trace) (b : MySQLBox) :
  fst (Start fuel c env tr0) = Returned (Ok b) ->
  let c' := LoadDefaults env (default emptyConfig c) in
  databaseName b = Database c' /\
  containerName b = ContainerName_ c' /\
  doNotCleanTables b = DoNotCleanTables c' /\
  dsn b = FormatDSN "root" (RootPassword c') "tcp"
            ("127.0.0.1:" +:+ formatInt (port b)) (Database c') /\
  (is_Some (schemaFile b) <-> is_Some (initialScript c')) /\
  exists before after hostPort rest,
    snd (Start fuel c env tr0)
    = before ++ createRequest c' (schemaFile b) :: connectEvents b ++ after /\
    ContainerCreate env (before ++ [createRequest c' (schemaFile b)])
    = Ok (containerID b) /\
    ContainerInspect env
      (before ++ createRequest c' (schemaFile b)
       :: [EvSetLogger; EvContainerStart (containerID b);
           EvGoReadContainerLogs (containerID b);
           EvContainerInspect (containerID b)])
    = Ok (hostPort :: rest) /\
    Atoi hostPort = Ok (port b).
Proof.
  intros Hok c'.
  destruct (Start_ok_inv _ _ _ _ _ Hok) as (tr & Hprov & Hready & ->).
  destruct (provision_ok _ _ _ _ _ Hprov)
    as (script & pre & hostPort & rest & Htr & _ & Hfile & _ & Hid & Hinspect
        & Hport & Hdsn & Hdb & Hname & Hexcl).
  fold c' in Htr, Hfile, Hid, Hinspect, Hdsn, Hdb, Hname, Hexcl.
  repeat (split; [done|]).
  destruct (pollDB_ending _ _ _ _ _ Hready)
    as (rounds & took & _ & _ & [(_ & _ & Hend)|[H|H]]);
    [|destruct H as (? & _); discriminate..].
  exists (tr0 ++ script ++ EvNewClient :: pre), (rounds ++ [EvPing took]),
    hostPort, rest.
  rewrite Hend, Htr.
  repeat (rewrite <- ?app_assoc in *; simpl in * ).
  by repeat split.
Qed.

(** Witness for X3: the default configuration in [readyEnv]. *)
Lemma started_handle_matches_requests_witness :
  dsn readyBox
  = FormatDSN "root" "" "tcp" ("127.0.0.1:" +:+ formatInt 49153) "testing".
Proof.
  exact (proj1 (proj2 (proj2 (proj2
           (started_handle_matches_requests 3 None readyEnv [] readyBox
              eq_refl))))).
Defined.

(** ** What start-up never does, and in which order it works *)

Lemma pollDB_emits (P : Event -> Prop) (fuel : nat) (deadline : Z) :
  (forall took, P (EvPing took)) ->
  P (EvSleep pollInterval) ->
  P EvExitSignalReceived ->
  emitsOnly P (pollDB fuel deadline).
Proof.
  intros Hping Hsleep Hexit.
  induction fuel as [|fuel IH]; simpl; [apply emitsOnly_outOfFuel|].
  apply emitsOnly_bind; [by apply emitsOnly_ping|intros [e|]];
    [|apply emitsOnly_ret].
  destruct (isDeadlineExceeded e); [apply emitsOnly_ret|].
  apply emitsOnly_bind; [by apply emitsOnly_emit|intros _].
  apply emitsOnly_bind; [by apply emitsOnly_select|intros [|]];
    [apply emitsOnly_ret|exact IH].
Qed.

(** X4: [Start] never asks the runtime to stop a container or to wait for
    its removal, on no path: a container it has created and started is left
    to the runtime when a later step fails. *)
Theorem start_never_stops_a_container (fuel : nat) (c : option Config)
    (env : Env) (tr : Trace) :
  exists new,
    snd (Start fuel c env tr) = tr ++ new /\
    Forall (fun ev => isShutdown ev = false) new.
Proof.
  revert env tr. change (emitsOnly (fun ev => isShutdown ev = false)
                           (Start fuel c)).
  unfold Start, waitForDB.
  apply emitsOnly_bind.
  - intros env tr. destruct (provision_quiet c env tr) as (new & Hnew & Hall).
    exists new. split; [done|].
    eapply Forall_impl; [exact Hall|]. by intros ev (_ & ? & _).
  - intros r. repeat emits_step. by apply pollDB_emits.
Qed.

Lemma app_eq_prefix {A} (a b front : list A) (x : A) (back : list A) :
  a ++ b = front ++ x :: back ->
  Forall (fun y => y <> x) a ->
  exists r, front = a ++ r.
Proof.
  revert front. induction a as [|y a IH]; intros front Heq Hall.
  - by exists front.
  - apply Forall_cons in Hall as [Hy Hall].
    destruct front as [|z front]; simpl in Heq.
    + injection Heq as Heq _. by destruct Hy.
    + injection Heq as <- Heq.
      destruct (IH _ Heq Hall) as (r & ->). by exists r.
Qed.

(** X5: [Start] probes the database only after it has registered the logger,
    started the container, launched the log reader, inspected the container
    and opened the connection, in this order and for one and the same
    container: these five requests stand before every probe of a run, also of
    a run that fails. *)
Theorem start_probes_only_after_connect (fuel : nat) (c : option Config)
    (env : Env) (tr0 before after : Trace) (took : Z) :
  snd (Start fuel c env tr0) = tr0 ++ before ++ EvPing took :: after ->
  exists b front back, before = front ++ connectEvents b ++ back.
Proof.
  intros Hrun.
  destruct (provision_quiet c env tr0) as (new & Hnew & Hquiet).
  assert (Forall (fun y => y <> EvPing took) new) as Hnoprobe.
  { eapply Forall_impl; [exact Hquiet|].
    intros ev (Hev & _) ->. discriminate. }
  destruct (provision c env tr0) as [out tr] eqn:Hprov. simpl in Hnew.
  assert ((forall b, out <> Returned (Ok b)) -> False) as Hhandle.
  { intros Hnone.
    rewrite (Start_without_handle _ _ _ _ _ _ Hprov Hnone) in Hrun.
    simpl in Hrun. rewrite Hnew in Hrun. apply app_inv_head in Hrun.
    rewrite Hrun in Hnoprobe.
    apply Forall_app in Hnoprobe as [_ Hbad].
    apply Forall_cons in Hbad as [Hbad _]. by destruct Hbad. }
  destruct out as [[b|e]|e|]; [|by destruct Hhandle..].
  - destruct (provision_ok _ _ _ _ _ Hprov)
      as (script & pre & hostPort & rest & Htr & _).
    cbv zeta in Htr.
    rewrite (Start_polls _ _ _ _ _ _ Hprov) in Hrun.
    destruct (pollDB_emits (fun _ => True) fuel (elapsed tr + startTimeout)
                ltac:(done) ltac:(done) ltac:(done) env tr)
      as (polled & Hpolled & _).
    destruct (pollDB fuel _ env tr) as [pout tr'] eqn:Hpoll.
    simpl in Hpolled. subst tr'.
    assert (new ++ polled = before ++ EvPing took :: after) as Heq.
    { apply (app_inv_head tr0). rewrite app_assoc, <- Hnew.
      by destruct pout as [[e|]| |]. }
    destruct (app_eq_prefix _ _ _ _ _ Heq Hnoprobe) as (r & ->).
    exists b, (script ++ EvNewClient :: pre
               ++ [createRequest (LoadDefaults env (default emptyConfig c))
                     (schemaFile b)]), r.
    assert (new = (script ++ EvNewClient :: pre
                   ++ [createRequest (LoadDefaults env (default emptyConfig c))
                         (schemaFile b)]) ++ connectEvents b) as ->.
    { apply (app_inv_head tr0). rewrite <- Hnew, Htr.
      by rewrite <- !app_assoc; simpl; rewrite <- !app_assoc. }
    by rewrite <- !app_assoc.
Qed.

(** Witness for X5: the run in which the probe in flight at the exit of the
    container reports the deadline; its second probe comes after the five
    requests and one turn. *)
Lemma start_probes_only_after_connect_witness :
  exists b front back,
    [EvNewClient;
     EvContainerCreate "mysql:8" "mysqlbox-4f2a"
       ["MYSQL_DATABASE=testing"; "MYSQL_ALLOW_EMPTY_PASSWORD=1"] "0" [];
     EvSetLogger; EvContainerStart "c0ffee";
     EvGoReadContainerLogs "c0ffee"; EvContainerInspect "c0ffee";
     EvSqlOpen "root@tcp(127.0.0.1:49153)/testing?parseTime=true";
     EvPing 100; EvSleep 500]
    = front ++ connectEvents b ++ back.
Proof.
  exact (start_probes_only_after_connect 61 None raceEnv []
           [EvNewClient;
            EvContainerCreate "mysql:8" "mysqlbox-4f2a"
              ["MYSQL_DATABASE=testing"; "MYSQL_ALLOW_EMPTY_PASSWORD=1"] "0" [];
            EvSetLogger; EvContainerStart "c0ffee";
            EvGoReadContainerLogs "c0ffee"; EvContainerInspect "c0ffee";
            EvSqlOpen "root@tcp(127.0.0.1:49153)/testing?parseTime=true";
            EvPing 100; EvSleep 500] [] 29400 eq_refl).
Defined.

(** ** Start and Stop together *)

Lemma filter_none (p : Event -> bool) (l : Trace) :
  Forall (fun ev => p ev = false) l -> List.filter p l = [].
Proof.
  induction 1 as [|ev l Hev _ IH]; [done|]. simpl. by rewrite Hev.
Qed.

(** X6: after a [Start] that returned a handle, [Stop] on that handle ends
    the life of the script file: over the two calls the file is created,
    filled with the configured payload, closed and removed, once each and in
    this order, all on the same file; without a script no file is touched. *)
Theorem start_then_stop_removes_script_file (fuel : nat) (c : option Config)
    (env : Env) (tr0 : Trace) (b : MySQLBox) :
  fst (Start fuel c env tr0) = Returned (Ok b) ->
  exists new,
    snd (Stop (Some b) env (snd (Start fuel c env tr0))) = tr0 ++ new /\
    List.filter isScriptFileEvent new
    = match schemaFile b,
            initialScript (LoadDefaults env (default emptyConfig c)) with
      | Some f, Some src =>
          [EvTempFile "schema-*.sql"; EvCopy f src; EvFileClose f; EvRemove f]
      | _, _ => []
      end.
Proof.
  intros Hok.
  destruct (Start_ok_inv _ _ _ _ _ Hok) as (tr & Hprov & Hready & ->).
  destruct (provision_ok _ _ _ _ _ Hprov)
    as (script & pre & hostPort & rest & Htr & Hscript & Hfile & Hpre & _).
  cbv zeta in Htr, Hscript, Hfile.
  set (c' := LoadDefaults env (default emptyConfig c)) in *.
  destruct (pollDB_ending _ _ _ _ _ Hready)
    as (rounds & took & Hrounds & _ & [(_ & _ & Hend)|[H|H]]);
    [|destruct H as (? & _); discriminate..].
  rewrite Hend, Stop_run.
  assert (List.filter isScriptFileEvent pre = []) as Hpre'.
  { apply filter_none. eapply Forall_impl; [exact Hpre|]. by intros ev (_&_&?). }
  assert (List.filter isScriptFileEvent rounds = []) as Hrounds'.
  { apply filter_none. eapply Forall_impl; [exact Hrounds|].
    intros ev [Hev| ->]; [by destruct ev|done]. }
  assert (List.filter isScriptFileEvent script = script) as Hscript'.
  { rewrite Hscript. by destruct (schemaFile b), (initialScript c'). }
  assert (forall mid,
            List.filter isScriptFileEvent mid = [] ->
            List.filter isScriptFileEvent
              (script ++ EvNewClient :: pre
               ++ createRequest c' (schemaFile b) :: connectEvents b
               ++ rounds ++ [EvPing took] ++ mid ++ cleanupEvents b)
            = match schemaFile b, initialScript c' with
              | Some f, Some src =>
                  [EvTempFile "schema-*.sql"; EvCopy f src; EvFileClose f;
                   EvRemove f]
              | _, _ => []
              end) as Hfilter.
  { intros mid Hmid.
    rewrite List.filter_app, Hscript'. simpl.
    rewrite List.filter_app, Hpre'. simpl.
    rewrite List.filter_app, Hrounds'. simpl.
    rewrite List.filter_app, Hmid. simpl.
    rewrite Hscript. unfold cleanupEvents.
    destruct (schemaFile b) as [f|] eqn:Hf.
    - destruct (initialScript c') as [src|]; [done|].
      destruct (proj1 Hfile) as [? ?]; [by eexists|discriminate].
    - done. }
  destruct (ContainerStop env _).
  - eexists. split.
    + rewrite Htr. rewrite <- !app_assoc. simpl. rewrite <- !app_assoc.
      simpl. reflexivity.
    + apply (Hfilter [stopRequest b]). reflexivity.
  - eexists. split.
    + rewrite Htr. rewrite <- !app_assoc. simpl. rewrite <- !app_assoc.
      simpl. reflexivity.
    + apply (Hfilter [stopRequest b; waitRemovedRequest b]). reflexivity.
Qed.

(** Witness for X6: a configuration with a script in [readyEnv]. *)
Lemma start_then_stop_removes_script_file_witness :
  exists new,
    snd (Stop (Some fixtureBox) readyEnv
           (snd (Start 3 (Some seededConfig) readyEnv [])))
    = [] ++ new /\
    List.filter isScriptFileEvent new
    = [EvTempFile "schema-*.sql";
       EvCopy "/tmp/schema-1.sql" "SELECT * FROM sales WHERE id = 1;";
       EvFileClose "/tmp/schema-1.sql"; EvRemove "/tmp/schema-1.sql"].
Proof.
  exact (start_then_stop_removes_script_file 3 (Some seededConfig) readyEnv []
           fixtureBox eq_refl).
Defined.

(** ** Shutdown *)

(** X7: [Stop] on a started instance sends the stop request first and ends
    with the cleanup of the script file whatever happens in between; when the
    stop request fails, that error is returned and the removal of the
    container is not waited for; otherwise exactly one wait follows.  [Stop]
    never panics. *)
Theorem stop_cleans_up_on_every_path (b : MySQLBox) (env : Env) (tr : Trace) :
  exists mid,
    snd (Stop (Some b) env tr)
    = tr ++ stopRequest b :: mid ++ cleanupEvents b /\
    (forall e,
       ContainerStop env (tr ++ [stopRequest b]) = Some e ->
       mid = [] /\ fst (Stop (Some b) env tr) = Returned (Some e)) /\
    (ContainerStop env (tr ++ [stopRequest b]) = None ->
     mid = [waitRemovedRequest b]) /\
    (forall e, fst (Stop (Some b) env tr) <> Panicked e).
Proof.
  rewrite Stop_run.
  destruct (ContainerStop env (tr ++ [stopRequest b])) as [e|].
  - exists []. simpl. split; [done|]. split; [|split; [done|done]].
    intros e' [= <-]. by split.
  - exists [waitRemovedRequest b]. simpl.
    split; [done|]. split; [done|]. split; [done|]. done.
Qed.

(** Witness for X7: the runtime refuses the stop request. *)
Lemma stop_cleans_up_on_every_path_witness :
  fst (Stop (Some seededBox)
         (withShutdown (Some (errOther "cannot stop container")) WaitBody) [])
  = Returned (Some (errOther "cannot stop container")).
Proof.
  destruct (stop_cleans_up_on_every_path seededBox
              (withShutdown (Some (errOther "cannot stop container")) WaitBody)
              []) as (mid & _ & Hfail & _).
  exact (proj2 (Hfail (errOther "cannot stop container") eq_refl)).
Defined.

(** ** The panicking variants *)

(** X8: on a nil handle each of [MustStop], [MustDB], [MustDSN],
    [MustContainerName], [MustCleanAllTables] and [MustCleanTables] panics
    with the error "mysqlbox is nil" and sends nothing; on a started instance
    [MustDB], [MustDSN] and [MustContainerName] return the field of the
    handle, and [MustCleanTables] returns without a panic whatever the
    truncations do. *)
Theorem must_variants_panic_exactly_on_nil (env : Env) (tr : Trace)
    (b : MySQLBox) (tables : list string) :
  MustStop None env tr = (Panicked errNilBox, tr) /\
  MustDB None env tr = (Panicked errNilBox, tr) /\
  MustDSN None env tr = (Panicked errNilBox, tr) /\
  MustContainerName None env tr = (Panicked errNilBox, tr) /\
  MustCleanAllTables None env tr = (Panicked errNilBox, tr) /\
  MustCleanTables None tables env tr = (Panicked errNilBox, tr) /\
  MustDB (Some b) env tr = (Returned (dsn b), tr) /\
  MustDSN (Some b) env tr = (Returned (dsn b), tr) /\
  MustContainerName (Some b) env tr = (Returned (containerName b), tr) /\
  fst (MustCleanTables (Some b) tables env tr) = Returned tt.
Proof.
  repeat split.
  unfold MustCleanTables, must, CleanTables, bind.
  pose proof (cleanTablesLoop_returns tables env tr) as Hret.
  destruct (cleanTablesLoop tables env tr) as [out tr']. simpl in Hret.
  by subst out.
Qed.

(** ** More on the table cleaner *)

(** X9: on a started instance [CleanAllTables] never returns an error: it
    returns nil or it panics.  A failure of the catalog query is raised as a
    panic at once: no truncation is sent and the rows are not closed. *)
Theorem clean_all_returns_nil_or_panics (b : MySQLBox) (env : Env)
    (tr : Trace) :
  (fst (CleanAllTables (Some b) env tr) = Returned None \/
   exists e, fst (CleanAllTables (Some b) env tr) = Panicked e) /\
  (forall e,
     dbQuery env (tr ++ [catalogRequest b]) = Err e ->
     CleanAllTables (Some b) env tr = (Panicked e, tr ++ [catalogRequest b])).
Proof.
  split.
  - destruct (dbQuery env (tr ++ [catalogRequest b])) as [rows|e] eqn:Hq.
    + rewrite (CleanAllTables_run _ _ _ _ Hq).
      destruct (cleanAllRows_only_targets
                  (excludedTables (doNotCleanTables b)) rows env
                  (tr ++ [catalogRequest b])) as (new & _ & Hfuel & _).
      destruct (cleanAllRows _ rows env _) as [[[]|e|] tr']; simpl in *;
        [by left|right; by exists e|done].
    + right. exists e. unfold CleanAllTables, bind, call. simpl.
      unfold catalogRequest in Hq. by rewrite Hq.
  - intros e Hq. unfold CleanAllTables, bind, call. simpl.
    unfold catalogRequest in Hq. by rewrite Hq.
Qed.

(** Witness for X9: a server that refuses the catalog query. *)
Lemma clean_all_returns_nil_or_panics_witness :
  CleanAllTables (Some shopBox)
    (withDB (fun _ => Err (errOther "server has gone away")) (fun _ => None))
    []
  = (Panicked (errOther "server has gone away"), [catalogRequest shopBox]).
Proof.
  exact (proj2 (clean_all_returns_nil_or_panics shopBox
                  (withDB (fun _ => Err (errOther "server has gone away"))
                     (fun _ => None)) [])
           (errOther "server has gone away") eq_refl).
Defined.

Lemma cleanAllRows_app (excluded : gmap string bool) (tables : list string)
    (rest : list (Result string)) (env : Env) :
  forall tr tr',
    cleanAllRows excluded (map Ok tables) env tr = (Returned tt, tr') ->
    cleanAllRows excluded (map Ok tables ++ rest) env tr
    = cleanAllRows excluded rest env tr'.
Proof.
  induction tables as [|table tables IH]; intros tr tr'.
  - simpl. by intros [= <-].
  - simpl map. simpl app. rewrite !cleanAllRows_cons.
    destruct (isExcluded excluded table); [apply IH|].
    destruct (dbExec env _); [discriminate|]. apply IH.
Qed.

(** X10: when a row of the catalog answer cannot be scanned, [CleanAllTables]
    panics with the scan error: the tables listed before that row have been
    truncated (those outside the exclusion set, when none of these
    truncations fails), no later row is looked at, and the rows are closed
    by the deferred call. *)
Theorem clean_all_scan_failure_panics (b : MySQLBox) (env : Env) (tr : Trace)
    (tables : list string) (e : error) (rest : list (Result string)) :
  dbQuery env (tr ++ [catalogRequest b]) = Ok (map Ok tables ++ Err e :: rest) ->
  truncationsSucceed env (tr ++ [catalogRequest b]) (cleanTargets b tables) ->
  CleanAllTables (Some b) env tr
  = (Panicked e,
     tr ++ catalogRequest b :: map truncation (cleanTargets b tables)
        ++ [EvRowsClose]).
Proof.
  intros Hq Hok.
  rewrite (CleanAllTables_run _ _ _ _ Hq).
  rewrite (cleanAllRows_app _ _ _ _ _ _
             (cleanAllRows_all_succeed _ _ _ _ Hok)).
  simpl. by rewrite <- !app_assoc.
Qed.

(** Witness for X10: the second row of the catalog answer is broken. *)
Lemma clean_all_scan_failure_panics_witness :
  CleanAllTables (Some shopBox)
    (withDB (fun _ => Ok [Ok "users"; Err (errOther "converting NULL to string");
                          Ok "orders"])
       (fun _ => None)) []
  = (Panicked (errOther "converting NULL to string"),
     [catalogRequest shopBox; truncation "users"; EvRowsClose]).
Proof.
  apply (clean_all_scan_failure_panics shopBox _ [] ["users"]
           (errOther "converting NULL to string") [Ok "orders"]).
  - reflexivity.
  - intros done table rest Hsplit. reflexivity.
Defined.

(** X11: [CleanTables] composes: cleaning a list of tables that is the
    concatenation of two lists is cleaning the first list and then the second
    one, request for request; a name that is given twice is truncated
    twice. *)
Theorem clean_tables_composes (b : MySQLBox) (tables1 tables2 : list string)
    (env : Env) (tr : Trace) :
  CleanTables (Some b) (tables1 ++ tables2) env tr
  = CleanTables (Some b) tables2 env
      (snd (CleanTables (Some b) tables1 env tr)).
Proof.
  unfold CleanTables, bind.
  assert (forall ts tr0,
            cleanTablesLoop ts env tr0
            = (Returned tt, snd (cleanTablesLoop ts env tr0))) as Hloop.
  { intros ts tr0. pose proof (cleanTablesLoop_returns ts env tr0) as Hret.
    destruct (cleanTablesLoop ts env tr0). simpl in *. by subst. }
  assert (forall tr0,
            cleanTablesLoop (tables1 ++ tables2) env tr0
            = cleanTablesLoop tables2 env
                (snd (cleanTablesLoop tables1 env tr0))) as Happ.
  { induction tables1 as [|t ts IH]; intros tr0; [done|].
    simpl app. rewrite !cleanTablesLoop_cons.
    destruct (dbExec env _); apply IH. }
  rewrite Happ. rewrite (Hloop tables1 tr). simpl.
  by rewrite (Hloop tables2).
Qed.

Lemma excludedTables_foldl_lookup (names : list string)
    (m : gmap string bool) (table : string) :
  foldl (fun m t => <[t := true]> m) m names !! table
  = if decide (table ∈ names) then Some true else m !! table.
Proof.
  revert m. induction names as [|n names IH]; intros m; simpl; [done|].
  rewrite IH.
  destruct (decide (table ∈ names)) as [Hin|Hout].
  - rewrite decide_True; [done|]. by apply elem_of_cons; right.
  - destruct (decide (n = table)) as [->|Hne].
    + rewrite lookup_insert_eq. rewrite decide_True; [done|].
      by apply elem_of_cons; left.
    + rewrite lookup_insert_ne by done.
      rewrite decide_False; [done|].
      intros [?|?]%elem_of_cons; congruence.
Qed.

(** X12: the exclusion list counts as a set: two instances on the same
    database whose lists hold the same names, in any order and with any
    repetitions, are cleaned by [CleanAllTables] in the same way, request for
    request and with the same outcome. *)
Theorem exclusion_list_counts_as_a_set (b1 b2 : MySQLBox) (env : Env)
    (tr : Trace) :
  databaseName b1 = databaseName b2 ->
  (forall table, table ∈ doNotCleanTables b1 <-> table ∈ doNotCleanTables b2) ->
  CleanAllTables (Some b1) env tr = CleanAllTables (Some b2) env tr.
Proof.
  intros Hdb Hsame.
  assert (excludedTables (doNotCleanTables b1)
          = excludedTables (doNotCleanTables b2)) as Hmap.
  { apply map_eq. intros table. unfold excludedTables.
    rewrite !excludedTables_foldl_lookup.
    destruct (decide (table ∈ doNotCleanTables b1)) as [Hin|Hout].
    - rewrite decide_True; [done|]. by apply Hsame.
    - rewrite decide_False; [done|]. intros Hin. by apply Hout, Hsame. }
  unfold CleanAllTables. by rewrite Hdb, Hmap.
Qed.

(** Witness for X12: the exclusion lists [categories; logs] and
    [logs; categories; logs]. *)
Lemma exclusion_list_counts_as_a_set_witness :
  CleanAllTables
    (Some {| dsn := dsn shopBox; databaseName := "testing";
             containerName := containerName shopBox;
             containerID := containerID shopBox; schemaFile := None;
             port := port shopBox;
             doNotCleanTables := ["categories"; "logs"] |})
    (memEnv shopTables) []
  = CleanAllTables
      (Some {| dsn := dsn shopBox; databaseName := "testing";
               containerName := containerName shopBox;
               containerID := containerID shopBox; schemaFile := None;
               port := port shopBox;
               doNotCleanTables := ["logs"; "categories"; "logs"] |})
      (memEnv shopTables) [].
Proof.
  apply exclusion_list_counts_as_a_set; [reflexivity|].
  intros table. simpl. rewrite !elem_of_cons, !elem_of_nil. tauto.
Defined.

(** ** The cleaners on a server that holds tables *)

Lemma substring_tail_one (s : string) (c : ascii) :
  String.substring (String.length s) 1 (s +:+ String c "") = String c "".
Proof. induction s as [|a s IH]; simpl; [done|exact IH]. Qed.

Lemma substring_head (s rest : string) :
  String.substring 0 (String.length s) (s +:+ rest) = s.
Proof.
  induction s as [|a s IH]; simpl; [by destruct rest|]. by rewrite IH.
Qed.

Lemma tableOfTruncate_truncateQuery (table : string) :
  hasBackquote table = false ->
  tableOfTruncate (truncateQuery table) = Some table.
Proof.
  intros Hplain. unfold tableOfTruncate.
  rewrite truncateOperand_truncateQuery.
  assert (String.prefix "TRUNCATE TABLE " (truncateQuery table) = true) as ->
    by reflexivity.
  unfold readQuotedIdent. rewrite Ascii.eqb_refl.
  by rewrite (readQuotedBody_plain _ Hplain).
Qed.

Lemma memEnv_truncates_existing (db : Tables) (h : Trace) (table : string) :
  hasBackquote table = false ->
  table ∈ map fst db ->
  dbExec (memEnv db) (h ++ [truncation table]) = None.
Proof.
  intros Hplain Hin. simpl. rewrite last_snoc. unfold truncation.
  rewrite (tableOfTruncate_truncateQuery _ Hplain).
  by rewrite bool_decide_eq_true_2.
Qed.

Lemma rowsAfter_truncations (db : Tables) (tables : list string) :
  Forall (fun table => hasBackquote table = false) tables ->
  rowsAfter db (map truncation tables)
  = map (fun row => if bool_decide (fst row ∈ tables) then (fst row, 0%nat)
                    else row) db.
Proof.
  unfold rowsAfter. intros Hplain.
  revert db. induction Hplain as [|t ts Ht _ IH]; intros db; simpl.
  - rewrite <- (map_id db) at 1. by apply map_ext.
  - rewrite (tableOfTruncate_truncateQuery _ Ht), IH. unfold truncateRows.
    rewrite map_map. apply map_ext. intros [name n]. simpl.
    destruct (String.eqb_spec name t) as [->|Hne]; simpl.
    + rewrite (bool_decide_eq_true_2 (t ∈ t :: ts)) by (by left).
      by destruct (bool_decide (t ∈ ts)).
    + destruct (decide (name ∈ ts)) as [Hin|Hout].
      * rewrite !bool_decide_eq_true_2; [done|by right|done].
      * rewrite !bool_decide_eq_false_2; [done| |done].
        intros [?|?]%elem_of_cons; congruence.
Qed.

Lemma rowsAfter_app (db : Tables) (tr1 tr2 : Trace) :
  rowsAfter db (tr1 ++ tr2) = rowsAfter (rowsAfter db tr1) tr2.
Proof. unfold rowsAfter. apply foldl_app. Qed.

(** X13: on a server that holds the tables [db], none of whose names holds a
    backquote, and that truncates a table when it exists,
    [CleanAllTables] returns nil after one truncation for each table outside
    the exclusion set, and afterwards every table outside the exclusion set
    has no rows while every excluded table has the rows it had. *)
Theorem clean_all_empties_all_but_excluded (b : MySQLBox) (db : Tables)
    (tr : Trace) :
  Forall (fun row => hasBackquote (fst row) = false) db ->
  let new :=
    catalogRequest b :: map truncation (cleanTargets b (map fst db))
    ++ [EvRowsClose] in
  CleanAllTables (Some b) (memEnv db) tr = (Returned None, tr ++ new) /\
  rowsAfter db new
  = map (fun row => if bool_decide (fst row ∈ doNotCleanTables b) then row
                    else (fst row, 0%nat)) db.
Proof.
  intros Hplain new. subst new.
  assert (Forall (fun table => hasBackquote table = false) (map fst db))
    as Hnames by (by apply Forall_map).
  assert (Forall (fun table => hasBackquote table = false)
            (cleanTargets b (map fst db))) as Htargets.
  { rewrite Forall_forall in Hnames. apply Forall_forall.
    intros table Hin. apply Hnames.
    unfold cleanTargets in Hin. by apply list_elem_of_filter in Hin as [_ ?]. }
  split.
  - rewrite (CleanAllTables_run b (memEnv db) tr
               (map Ok (map fst db))).
    + rewrite cleanAllRows_all_succeed; [by rewrite <- !app_assoc|].
      intros done table rest Hsplit.
      rewrite map_app, app_assoc.
      assert (table ∈ cleanTargets b (map fst db)) as Hin.
      { rewrite Hsplit. apply elem_of_app. right. by left. }
      apply memEnv_truncates_existing.
      * rewrite Forall_forall in Htargets. by apply Htargets.
      * unfold cleanTargets in Hin.
        by apply list_elem_of_filter in Hin as [_ ?].
    + simpl. by rewrite map_map.
  - change (catalogRequest b :: ?l) with ([catalogRequest b] ++ l).
    rewrite !rowsAfter_app. simpl rowsAfter at 2.
    rewrite (rowsAfter_truncations _ _ Htargets).
    change (rowsAfter ?d [EvRowsClose]) with d.
    apply map_ext_in. intros [name n] Hrow. simpl.
    assert (name ∈ map fst db) as Hname.
    { apply list_elem_of_In, in_map_iff. by exists (name, n). }
    destruct (decide (name ∈ doNotCleanTables b)) as [Hex|Hin].
    + rewrite (bool_decide_eq_true_2 _ Hex).
      rewrite bool_decide_eq_false_2; [done|].
      unfold cleanTargets. rewrite list_elem_of_filter. tauto.
    + rewrite (bool_decide_eq_false_2 _ Hin).
      rewrite bool_decide_eq_true_2; [done|].
      unfold cleanTargets. by rewrite list_elem_of_filter.
Qed.

(** Witness for X13: the shop with categories excluded. *)
Lemma clean_all_empties_all_but_excluded_witness :
  rowsAfter shopTables
    (catalogRequest shopBox
     :: map truncation (cleanTargets shopBox (map fst shopTables))
     ++ [EvRowsClose])
  = map (fun row =>
           if bool_decide (fst row ∈ doNotCleanTables shopBox) then row
           else (fst row, 0%nat)) shopTables.
Proof.
  assert (Forall (fun row : string * nat => hasBackquote (fst row) = false)
            shopTables) as Hplain by (by repeat constructor).
  exact (proj2 (clean_all_empties_all_but_excluded shopBox shopTables []
                  Hplain)).
Defined.

(** ** The log reader *)







(** ** The polling loop as a whole *)

(** X17: on a started instance [waitForDB] returns nil, "could not connect
    to mysql" or "container closed" and nothing else: the error of a failed
    probe is never handed to the caller.  Its requests are a number of turns,
    each one probe followed by one sleep of 500 ms, then a last probe, and,
    exactly when it returns "container closed", one more sleep of 500 ms and
    the one receipt of the exit signal. *)
Theorem wait_for_db_hides_probe_errors (fuel : nat) (b : MySQLBox)
    (timeout : Z) (env : Env) (tr : Trace) (out : option error) :
  fst (waitForDB fuel (Some b) timeout env tr) = Returned out ->
  (out = None \/ out = Some (errorsNew "could not connect to mysql")
   \/ out = Some (errorsNew "container closed")) /\
  exists tooks took,
    let turns := concat (map (fun t => [EvPing t; EvSleep 500]) tooks) in
    (out = Some (errorsNew "container closed") /\
     snd (waitForDB fuel (Some b) timeout env tr)
     = tr ++ turns ++ [EvPing took; EvSleep 500; EvExitSignalReceived])
    \/ (out <> Some (errorsNew "container closed") /\
        snd (waitForDB fuel (Some b) timeout env tr)
        = tr ++ turns ++ [EvPing took]).
Proof.
  unfold waitForDB, bind, history. simpl. intros Hout.
  destruct (pollDB_ending_turns _ _ _ _ _ Hout)
    as (tooks & took & _ & Hend).
  cbv zeta in Hend.
  destruct Hend as [(-> & Htr)|[(-> & Htr)|(-> & Htr)]].
  - split; [by left|]. exists tooks, took. by right.
  - split; [by right; left|]. exists tooks, took. by right.
  - split; [by right; right|]. exists tooks, took. by left.
Qed.

(** Witness for X17: the container that has exited at 300 ms. *)
Lemma wait_for_db_hides_probe_errors_witness :
  exists tooks took,
    let turns := concat (map (fun t => [EvPing t; EvSleep 500]) tooks) in
    (Some errContainerClosed = Some (errorsNew "container closed") /\
     snd (waitForDB 61 (Some readyBox) startTimeout crashedEnv [])
     = [] ++ turns ++ [EvPing took; EvSleep 500; EvExitSignalReceived])
    \/ (Some errContainerClosed <> Some (errorsNew "container closed") /\
        snd (waitForDB 61 (Some readyBox) startTimeout crashedEnv [])
        = [] ++ turns ++ [EvPing took]).
Proof.
  exact (proj2 (wait_for_db_hides_probe_errors 61 readyBox startTimeout
                  crashedEnv [] (Some errContainerClosed) eq_refl)).
Defined.

Lemma pollDB_more_fuel (env : Env) (deadline : Z) (fuel : nat) :
  forall tr more,
    fst (pollDB fuel deadline env tr) <> OutOfFuel ->
    pollDB (fuel + more) deadline env tr = pollDB fuel deadline env tr.
Proof.
  induction fuel as [|fuel IH]; intros tr more Hends; [done|].
  change (S fuel + more)%nat with (S (fuel + more)).
  rewrite pollDB_step in Hends. rewrite !pollDB_step. cbv zeta in *.
  destruct (snd (PingContext env tr deadline)) as [e|]; [|done].
  destruct (isDeadlineExceeded e); [done|].
  destruct (exitPending env _); [done|]. by apply IH.
Qed.

Lemma pollDB_probe_count (env : Env) (deadline : Z) (fuel : nat) :
  forall tr,
    exists new,
      snd (pollDB fuel deadline env tr) = tr ++ new /\
      (countEvents isProbe new <= fuel)%nat.
Proof.
  induction fuel as [|fuel IH]; intros tr.
  - exists []. simpl. rewrite app_nil_r. split; [done|]. by apply Nat.le_0_l.
  - rewrite pollDB_step. cbv zeta.
    destruct (snd (PingContext env tr deadline)) as [e|].
    + destruct (isDeadlineExceeded e).
      * eexists [_]. split; [done|]. unfold countEvents. simpl. lia.
      * destruct (exitPending env _).
        -- unfold roundTrace. rewrite <- app_assoc.
           eexists. split; [reflexivity|]. unfold countEvents. simpl. lia.
        -- destruct (IH (roundTrace env deadline tr)) as (new & -> & Hcount).
           unfold roundTrace. rewrite <- app_assoc.
           eexists. split; [reflexivity|].
           unfold countEvents in *. simpl. lia.
    + eexists [_]. split; [done|]. unfold countEvents. simpl. lia.
Qed.

(** X18: when the probes respect the deadline of the context, [Start] ends
    after at most 61 probes: the deadline of 30 s leaves room for 60 sleeps
    of 500 ms.  So its run is the same for every bound of 61 turns or more,
    and it never is out of turns. *)
Theorem start_ends_within_61_probes (env : Env) (fuel : nat)
    (c : option Config) (tr0 : Trace) :
  PingRespectsContext env ->
  (61 <= fuel)%nat ->
  Start fuel c env tr0 = Start 61 c env tr0 /\
  fst (Start fuel c env tr0) <> OutOfFuel /\
  exists new,
    snd (Start fuel c env tr0) = tr0 ++ new /\
    (countEvents isProbe new <= 61)%nat.
Proof.
  intros Hctx Hfuel.
  assert (Start fuel c env tr0 = Start 61 c env tr0) as Hsame.
  { destruct (provision c env tr0) as [out tr] eqn:Hprov.
    destruct out as [[b|e]|e|];
      [|by rewrite !(Start_without_handle _ _ _ _ _ _ Hprov)..].
    rewrite !(Start_polls _ _ _ _ _ _ Hprov).
    replace fuel with (61 + (fuel - 61))%nat by lia.
    rewrite pollDB_more_fuel; [done|].
    apply pollDB_terminates; [done|lia|].
    unfold startTimeout, pollInterval. lia. }
  split; [done|]. split; [by apply Start_terminates|].
  rewrite Hsame.
  destruct (provision_quiet c env tr0) as (new & Hnew & Hquiet).
  destruct (provision c env tr0) as [out tr] eqn:Hprov. simpl in Hnew.
  assert (countEvents isProbe new = 0%nat) as Hzero.
  { unfold countEvents. rewrite filter_none; [done|].
    eapply Forall_impl; [exact Hquiet|]. by intros ev (? & _). }
  destruct out as [[b|e]|e|];
    [|rewrite (Start_without_handle _ _ _ _ _ _ Hprov) by done; simpl;
      exists new; split; [done|lia]..].
  rewrite (Start_polls _ _ _ _ _ _ Hprov).
  destruct (pollDB_probe_count env (elapsed tr + startTimeout) 61 tr)
    as (polled & Hpolled & Hcount).
  destruct (pollDB 61 _ env tr) as [pout tr'] eqn:Hpoll. simpl in Hpolled.
  exists (new ++ polled).
  split.
  - rewrite app_assoc, <- Hnew, <- Hpolled. by destruct pout as [[?|]| |].
  - unfold countEvents in *. rewrite List.filter_app, length_app. lia.
Qed.

(** Witness for X18: the environment of the exit race, with 100 turns. *)
Lemma start_ends_within_61_probes_witness :
  Start 100 None raceEnv [] = Start 61 None raceEnv [].
Proof.
  apply (start_ends_within_61_probes raceEnv 100 None []).
  - apply raceEnv_respects_context.
  - lia.
Defined.


(** ** The missing image *)

(** X19: when the first creation request is answered "not found", [Start]
    pulls the configured image before anything else.  A pull that fails, at
    the request or while its stream is read, ends the creation: the cause is
    returned wrapped as "failed to pull image: docker image pull (stream)
    error: <cause>", no second creation request is sent, and a stream that was
    opened is closed.  After a pull that succeeds the same creation request
    is sent once more, and the identifier it gives is the result. *)
Theorem missing_image_is_pulled_before_retry (c : Config)
    (envVars : list string) (hostPort : string) (mounts : list string)
    (err : option error) (env : Env) (tr : Trace) (notFound : error) :
  let request :=
    EvContainerCreate (Image c) (ContainerName_ c) envVars hostPort mounts in
  let pulled := tr ++ [request; pullNotice (Image c); EvImagePull (Image c)] in
  let run := createContainer c envVars hostPort mounts err env tr in
  Image c <> "" ->
  ContainerCreate env (tr ++ [request]) = Err notFound ->
  isNotFound notFound = true ->
  (forall cause,
      ImagePull env pulled = Some cause ->
      let e := wrapError "failed to pull image"
                 (wrapError "docker image pull error" cause) in
      run = (Returned (Err e), pulled) /\
      Error e
      = "failed to pull image: docker image pull error: " +:+ Error cause) /\
  (forall cause,
      ImagePull env pulled = None ->
      DisplayJSONMessagesStream env (pulled ++ [EvPullStream]) = Some cause ->
      let e := wrapError "failed to pull image"
                 (wrapError "docker image pull stream error" cause) in
      run = (Returned (Err e), pulled ++ [EvPullStream; EvPullReaderClose]) /\
      Error e
      = "failed to pull image: docker image pull stream error: "
        +:+ Error cause) /\
  (forall id,
      ImagePull env pulled = None ->
      DisplayJSONMessagesStream env (pulled ++ [EvPullStream]) = None ->
      let again :=
        pulled ++ [EvPullStream;
                   EvStdout ("Docker image " +:+ Image c +:+ " pulled."
                             +:+ String "010" "");
                   EvPullReaderClose; request] in
      ContainerCreate env again = Ok id ->
      run = (Returned (Ok id), again)).
Proof.
  intros request pulled run Himage Hcreate Hnotfound.
  assert (String.eqb (Image c) "" = false) as Hblank
    by (by apply String.eqb_neq).
  subst run. unfold createContainer, pullImage. rewrite Hblank.
  cbv zeta. fold request.
  unfold bind, call, emit, defer, ret. rewrite Hcreate.
  cbn [resultErr IsErrNotFound]. rewrite Hnotfound.
  fold (pullNotice (Image c)).
  assert (((tr ++ [request]) ++ [pullNotice (Image c)])
            ++ [EvImagePull (Image c)] = pulled) as Hp
    by (subst pulled; by rewrite <- !app_assoc).
  rewrite !Hp. split; [|split].
  - intros cause Hpull. rewrite Hpull. by split.
  - intros cause Hpull Hstream. rewrite Hpull, Hstream.
    split; [|done]. by rewrite <- !app_assoc.
  - intros id Hpull Hstream Hagain. rewrite Hpull, Hstream.
    rewrite <- !app_assoc in *. simpl in *. fold request.
    by rewrite Hagain.
Qed.

(** Witness for X19: the default image, absent, with the registry out of
    reach. *)
Lemma missing_image_is_pulled_before_retry_witness :
  createContainer (setImage "mysql:8" emptyConfig) [] "0" [] None offlineEnv []
  = (Returned
       (Err (wrapError "failed to pull image"
               (wrapError "docker image pull error"
                  (errOther "dial tcp: no route to host")))),
     [EvContainerCreate "mysql:8" "" [] "0" [];
      pullNotice "mysql:8"; EvImagePull "mysql:8"]).
Proof.
  assert (Image (setImage "mysql:8" emptyConfig) <> "") as Himage by done.
  exact (proj1 (proj1 (missing_image_is_pulled_before_retry
                         (setImage "mysql:8" emptyConfig) [] "0" [] None
                         offlineEnv [] (errNotFound "No such image: mysql:8")
                         Himage eq_refl eq_refl)
                  (errOther "dial tcp: no route to host") eq_refl)).
Defined.

(** ** The configured port *)

Lemma digitValue_digitChar (d : Z) :
  0 <= d <= 9 -> digitValue (digitChar d) = Some d.
Proof.
  intros Hd. unfold digitValue, digitChar.
  rewrite nat_ascii_embedding by lia.
  rewrite Z2Nat.id by lia.
  replace (48 <=? 48 + d) with true by (symmetry; apply Z.leb_le; lia).
  replace (48 + d <=? 57) with true by (symmetry; apply Z.leb_le; lia).
  simpl. f_equal. lia.
Qed.

Lemma parseDigits_formatDigits (fuel : nat) :
  forall n acc,
    0 <= n -> (Z.to_nat n < fuel)%nat ->
    parseDigits 0 (formatDigits fuel n acc) = parseDigits n acc.
Proof.
  induction fuel as [|fuel IH]; intros n acc Hn Hfuel; [lia|].
  simpl. destruct (Z.ltb_spec n 10) as [Hsmall|Hbig].
  - simpl. rewrite digitValue_digitChar by (rewrite Z.mod_small; lia).
    rewrite Z.mod_small by lia. done.
  - pose proof (Z.div_mod n 10) as Hdiv.
    pose proof (Z.mod_pos_bound n 10) as Hmod.
    assert (0 <= n / 10 < n) by lia.
    rewrite IH by lia. simpl.
    rewrite digitValue_digitChar by lia.
    f_equal. lia.
Qed.

Lemma formatDigits_head (fuel : nat) :
  forall n acc,
    0 <= n -> (Z.to_nat n < fuel)%nat ->
    exists d rest,
      0 <= d <= 9 /\ formatDigits fuel n acc = String (digitChar d) rest.
Proof.
  induction fuel as [|fuel IH]; intros n acc Hn Hfuel; [lia|].
  simpl. destruct (Z.ltb_spec n 10) as [Hsmall|Hbig].
  - exists (n mod 10), acc. split; [|done].
    pose proof (Z.mod_pos_bound n 10). lia.
  - pose proof (Z.div_mod n 10) as Hdiv.
    pose proof (Z.mod_pos_bound n 10) as Hmod.
    assert (0 <= n / 10 < n) by lia.
    apply IH; lia.
Qed.

Lemma Atoi_unsigned (d : Z) (rest : string) (n : Z) :
  0 <= d <= 9 ->
  parseDigits 0 (String (digitChar d) rest) = Some n ->
  0 <= n < 2 ^ 63 ->
  Atoi (String (digitChar d) rest) = Ok n.
Proof.
  intros Hd Hparse Hrange.
  assert ((- 2 ^ 63 <=? n) && (n <? 2 ^ 63) = true) as Hfits.
  { apply andb_true_intro. split; [apply Z.leb_le|apply Z.ltb_lt]; lia. }
  assert (d = 0 \/ d = 1 \/ d = 2 \/ d = 3 \/ d = 4 \/ d = 5 \/ d = 6
          \/ d = 7 \/ d = 8 \/ d = 9) as Hcases by lia.
  unfold Atoi.
  destruct Hcases as [->|[->|[->|[->|[->|[->|[->|[->|[->| ->]]]]]]]]];
    match goal with
    | |- context [digitChar ?k] =>
        let ch := eval vm_compute in (digitChar k) in
        change (digitChar k) with ch in *
    end;
    cbv beta match zeta; rewrite Hparse; by rewrite Hfits.
Qed.

Lemma Atoi_formatInt (n : Z) :
  0 <= n < 2 ^ 63 -> Atoi (formatInt n) = Ok n.
Proof.
  intros Hn. unfold formatInt.
  replace (n <? 0) with false by (symmetry; apply Z.ltb_ge; lia).
  destruct (formatDigits_head (Z.to_nat n + 1) n "") as (d & rest & Hd & Heq);
    [lia..|].
  pose proof (parseDigits_formatDigits (Z.to_nat n + 1) n "") as Hparse.
  rewrite Heq in *. apply Atoi_unsigned; [done| |done].
  rewrite Hparse by lia. done.
Qed.

(** X20: a host port set in the configuration comes back in the handle.
    [Start] writes the port in decimal into the creation request and reads
    the port of the handle back from the decimal text of the first binding
    the inspection reports; when that binding is the requested one, the
    handle's port is the configured port and the connection string names
    it. *)
Theorem configured_port_reaches_handle (fuel : nat) (c : option Config)
    (env : Env) (tr0 : Trace) (b : MySQLBox) :
  let c' := LoadDefaults env (default emptyConfig c) in
  fst (Start fuel c env tr0) = Returned (Ok b) ->
  0 < MySQLPort c' < 2 ^ 63 ->
  (forall h ports,
      ContainerInspect env h = Ok ports ->
      head ports = Some (formatInt (MySQLPort c'))) ->
  port b = MySQLPort c' /\
  dsn b = FormatDSN "root" (RootPassword c') "tcp"
            ("127.0.0.1:" +:+ formatInt (MySQLPort c')) (Database c') /\
  exists before after,
    snd (Start fuel c env tr0)
    = before
      ++ EvContainerCreate (Image c') (ContainerName_ c') (containerEnv c')
           (formatInt (port b))
           (match schemaFile b with
            | Some f => [f]
            | None => []
            end)
      :: connectEvents b ++ after.
Proof.
  intros c' Hstart Hport Hbinds.
  destruct (Start_ok_inv _ _ _ _ _ Hstart) as (tr & Hprov & _ & Htrace).
  destruct (provision_ok _ _ _ _ _ Hprov)
    as (script & pre & hostPort & rest & Htr & _ & _ & _ & _ & Hinspect
        & Hatoi & Hdsn & _).
  fold c' in Htr, Hinspect, Hdsn.
  apply Hbinds in Hinspect. simpl in Hinspect.
  injection Hinspect as ->.
  rewrite Atoi_formatInt in Hatoi by lia.
  injection Hatoi as Hsame.
  split; [done|]. split; [by rewrite Hdsn, Hsame|].
  destruct (pollDB_probe_count env (elapsed tr + startTimeout) fuel tr)
    as (polled & Hpolled & _).
  rewrite Htrace, Hpolled, Htr.
  exists (tr0 ++ script ++ EvNewClient :: pre), polled.
  unfold createRequest.
  replace (MySQLPort c' =? 0) with false by (symmetry; apply Z.eqb_neq; lia).
  rewrite <- Hsame.
  rewrite <- !app_assoc. simpl. rewrite <- !app_assoc. simpl. done.
Qed.

(** Witness for X20: port 49153 asked for and bound. *)
Lemma configured_port_reaches_handle_witness :
  port readyBox = 49153.
Proof.
  assert (0 < 49153 < 2 ^ 63) as Hport by lia.
  assert (forall (h : Trace) ports,
             ContainerInspect readyEnv h = Ok ports ->
             head ports = Some (formatInt 49153)) as Hbinds.
  { intros h ports Hinspect. simpl in Hinspect. by injection Hinspect as <-. }
  exact (proj1 (configured_port_reaches_handle 3 (Some pinnedConfig) readyEnv
                  [] readyBox eq_refl Hport Hbinds)).
Defined.


(** ** The script file at start-up *)

Lemma bind_extends {A B} (m : M A) (k : A -> M B) (env : Env) (tr : Trace) :
  (forall a, emitsOnly (fun _ => True) (k a)) ->
  exists new, snd (bind m k env tr) = snd (m env tr) ++ new.
Proof.
  intros Hk. unfold bind.
  destruct (m env tr) as [[a|e|] tr1]; simpl.
  - destruct (Hk a env tr1) as (new & Hnew & _). by exists new.
  - exists []. by rewrite app_nil_r.
  - exists []. by rewrite app_nil_r.
Qed.

Lemma LoadDefaults_InitialSQL (env : Env) (c : Config) :
  InitialSQL (LoadDefaults env c) = InitialSQL c.
Proof.
  unfold LoadDefaults, setImage, setDatabase, setContainerName.
  by repeat (destruct (String.eqb _ _); simpl).
Qed.

Lemma Start_after_script (fuel : nat) (c : option Config) (env : Env)
    (tr0 : Trace) :
  exists after,
    snd (Start fuel c env tr0)
    = snd (writeSchemaFile (LoadDefaults env (default emptyConfig c)) env tr0)
      ++ after.
Proof.
  unfold Start.
  match goal with
  | |- context [snd (bind ?m ?k env tr0)] =>
      destruct (bind_extends m k env tr0) as (new1 & ->)
  end.
  { intros [b|e]; repeat emits_step.
    unfold waitForDB. repeat emits_step. by apply pollDB_emits. }
  unfold provision. unfold bind at 1. unfold ask at 1. cbv zeta.
  match goal with
  | |- context [snd (bind ?m ?k env tr0)] =>
      destruct (bind_extends m k env tr0) as (new2 & ->)
  end.
  { intros [f|e]; unfold createContainer, pullImage, containerMySQLPort,
      connectDB; cbv zeta; repeat emits_step. }
  exists (new2 ++ new1). by rewrite <- app_assoc.
Qed.

(** X21: with an initial script configured, the first two requests of
    [Start] create the temporary file and copy the script into it.  When
    either fails, [Start] returns that error unwrapped and requests nothing
    more: no Docker client is made, and a file that was created is neither
    closed nor removed. *)
Theorem start_writes_script_first (fuel : nat) (c : option Config)
    (env : Env) (tr0 : Trace) (src : string) :
  let c' := LoadDefaults env (default emptyConfig c) in
  let create := EvTempFile "schema-*.sql" in
  initialScript c' = Some src ->
  (forall e,
      TempFile env (tr0 ++ [create]) = Err e ->
      Start fuel c env tr0 = (Returned (Err e), tr0 ++ [create])) /\
  (forall file,
      TempFile env (tr0 ++ [create]) = Ok file ->
      (forall e,
          ioCopy env (tr0 ++ [create; EvCopy file src]) = Some e ->
          Start fuel c env tr0
          = (Returned (Err e), tr0 ++ [create; EvCopy file src])) /\
      exists after,
        snd (Start fuel c env tr0)
        = tr0 ++ create :: EvCopy file src :: after).
Proof.
  intros c' create Hscript. subst create.
  split.
  - intros e Htemp.
    unfold Start, provision. unfold bind, ask. cbv zeta. fold c'.
    by rewrite writeSchemaFile_run, Hscript, Htemp.
  - intros file Htemp. split.
    + intros e Hcopy.
      unfold Start, provision. unfold bind, ask. cbv zeta. fold c'.
      rewrite writeSchemaFile_run, Hscript, Htemp.
      by rewrite Hcopy.
    + destruct (Start_after_script fuel c env tr0) as (after & ->).
      fold c'. rewrite writeSchemaFile_run, Hscript, Htemp.
      exists after.
      destruct (ioCopy env _); simpl; by rewrite <- app_assoc.
Qed.

(** Witness for X21: the seeded configuration in the ready environment. *)
Lemma start_writes_script_first_witness :
  exists after,
    snd (Start 3 (Some seededConfig) readyEnv [])
    = [] ++ EvTempFile "schema-*.sql"
         :: EvCopy "/tmp/schema-1.sql" "SELECT * FROM sales WHERE id = 1;"
         :: after.
Proof.
  exact (proj2 (proj2 (start_writes_script_first 3 (Some seededConfig)
                         readyEnv [] "SELECT * FROM sales WHERE id = 1;"
                         eq_refl)
                  "/tmp/schema-1.sql" eq_refl)).
Defined.

(** X22: a script loaded with [DataFromFile] reaches the container as it was
    read: whenever [DataFromFile] returns, the file was opened and read to
    its end without error, and [Start] copies exactly the bytes read into the
    script file.  This holds for an empty file too, which still gets a script
    file. *)
Theorem file_content_reaches_script_file (osOpen : string -> Result OpenFile)
    (filename : string) (d : Data) (fuel : nat) (c : Config) (env : Env)
    (tr0 : Trace) (file : string) :
  DataFromFile osOpen filename = inl d ->
  InitialSQL c = Some d ->
  TempFile env (tr0 ++ [EvTempFile "schema-*.sql"]) = Ok file ->
  exists f after,
    osOpen filename = Ok f /\ readErr f = None /\
    snd (Start fuel (Some c) env tr0)
    = tr0 ++ EvTempFile "schema-*.sql" :: EvCopy file (content f) :: after.
Proof.
  unfold DataFromFile. intros Hdata Hconfig Htemp.
  destruct (osOpen filename) as [f|e]; [|done].
  destruct (readErr f) as [e|] eqn:Hread; [done|].
  injection Hdata as <-.
  destruct (Start_after_script fuel (Some c) env tr0) as (after & Hafter).
  exists f, after. split; [done|]. split; [done|].
  rewrite Hafter, writeSchemaFile_run.
  unfold initialScript. rewrite LoadDefaults_InitialSQL. simpl.
  rewrite Hconfig. simpl. rewrite Htemp.
  destruct (ioCopy env _); simpl; by rewrite <- app_assoc.
Qed.

(** Witness for X22: an empty script file. *)
Lemma file_content_reaches_script_file_witness :
  exists f after,
    emptyFileOnly "testdata/empty.sql" = Ok f /\ readErr f = None /\
    snd (Start 3 (Some (setInitialSQL (Some (DataFromBuffer "")) emptyConfig))
           readyEnv [])
    = [] ++ EvTempFile "schema-*.sql"
         :: EvCopy "/tmp/schema-1.sql" (content f) :: after.
Proof.
  exact (file_content_reaches_script_file emptyFileOnly "testdata/empty.sql"
           (DataFromBuffer "") 3
           (setInitialSQL (Some (DataFromBuffer "")) emptyConfig) readyEnv []
           "/tmp/schema-1.sql" eq_refl eq_refl eq_refl).
Defined.

(** ** The older [Start] *)

Lemma Legacy_pollDB_leaves_script_file (fuel : nat) (deadline : Z) :
  emitsOnly (fun ev => isScriptFileEvent ev = false)
    (Legacy.pollDB fuel deadline).
Proof.
  induction fuel as [|fuel IH]; simpl; [apply emitsOnly_outOfFuel|].
  repeat emits_step. exact IH.
Qed.

(** X23: the older [Start] (part_001) brackets its whole work on the script
    file: the file is created and filled first, and closed and removed last,
    on every path on which the call ends, a failed copy and a failed start of
    the container included.  Between the two pairs no request touches the
    file. *)
Theorem legacy_start_brackets_script_file (fuel : nat) (c : option Config)
    (env : Env) (tr : Trace) (file : string) :
  let c' := LoadDefaults env (default emptyConfig c) in
  Legacy.hasScript c' = true ->
  TempFile env (tr ++ [EvTempFile "schema-*.sql"]) = Ok file ->
  fst (Legacy.Start fuel c env tr) <> OutOfFuel ->
  exists middle,
    snd (Legacy.Start fuel c env tr)
    = tr ++ EvTempFile "schema-*.sql"
         :: EvCopy file (Legacy.scriptSource c')
         :: middle ++ [EvFileClose file; EvRemove file] /\
    Forall (fun ev => isScriptFileEvent ev = false) middle.
Proof.
  intros c' Hscript Htemp.
  set (rest := fun err : option error =>
         match err with
         | Some e => ret (Err e)
         | None => Legacy.startContainer fuel c' (Some file)
         end).
  set (body := bind (call (EvCopy file (Legacy.scriptSource c')) ioCopy) rest).
  assert (Legacy.Start fuel c env tr
          = defer (emit (EvFileClose file) ;;; emit (EvRemove file)) body env
              (tr ++ [EvTempFile "schema-*.sql"])) as ->.
  { unfold Legacy.Start. unfold bind at 1. unfold ask at 1.
    cbv zeta. fold c'. rewrite Hscript.
    unfold bind at 1. unfold call at 1. by rewrite Htemp. }
  assert (forall err, emitsOnly (fun ev => isScriptFileEvent ev = false)
                        (rest err)) as Hrest.
  { intros [e|]; subst rest; cbv beta iota; [apply emitsOnly_ret|].
    unfold Legacy.startContainer. cbv zeta.
    repeat emits_step. apply Legacy_pollDB_leaves_script_file. }
  set (tr1 := (tr ++ [EvTempFile "schema-*.sql"])
              ++ [EvCopy file (Legacy.scriptSource c')]).
  assert (body env (tr ++ [EvTempFile "schema-*.sql"])
          = rest (ioCopy env tr1) env tr1) as Hbody by done.
  unfold defer. rewrite Hbody.
  destruct (Hrest (ioCopy env tr1) env tr1) as (middle & Htr & Hall).
  destruct (rest (ioCopy env tr1) env tr1) as [out tr'].
  simpl in Htr. subst tr'.
  destruct out; simpl; [| |done]; intros _;
    (exists middle; split; [|done];
     subst tr1; unfold bind, emit; simpl;
     by rewrite <- !app_assoc).
Qed.

(** Witness for X23: the seeded configuration in the ready environment. *)
Lemma legacy_start_brackets_script_file_witness :
  exists middle,
    snd (Legacy.Start 3 (Some seededConfig) readyEnv [])
    = [] ++ EvTempFile "schema-*.sql"
         :: EvCopy "/tmp/schema-1.sql"
              (Legacy.scriptSource
                 (LoadDefaults readyEnv (default emptyConfig (Some seededConfig))))
         :: middle ++ [EvFileClose "/tmp/schema-1.sql";
                       EvRemove "/tmp/schema-1.sql"] /\
    Forall (fun ev => isScriptFileEvent ev = false) middle.
Proof.
  assert (fst (Legacy.Start 3 (Some seededConfig) readyEnv []) <> OutOfFuel)
    as Hends by (vm_compute; discriminate).
  exact (legacy_start_brackets_script_file 3 (Some seededConfig) readyEnv []
           "/tmp/schema-1.sql" eq_refl eq_refl Hends).
Defined.
